(** * pydantic_forms: a shallow embedding of [pydantic_forms/__init__.py]

    The development follows the source file from top to bottom: Python values
    and dictionaries, the pydantic boundary (model fields, model classes,
    validation errors), the configuration classes built by [FormMetaclass],
    the widgets, the renderer, the form with its memoised validation, and the
    bound fields.  Definitions come first, the theorems about them after. *)

From Stdlib Require Import String Ascii List ZArith Bool Arith Lia DecimalString.
Import ListNotations.
Open Scope string_scope.
Open Scope list_scope.


(* ================================================================== *)
(** ** Python values *)
(* ================================================================== *)

(** The values that travel through forms ([t.Any] in the source).  A float is
    carried with its printed form, the only thing the source does with one is
    [str()].  [VBuiltin] is a built-in function object such as [format]. *)
Inductive PyVal : Type :=
| VNone
| VBool (b : bool)
| VInt (z : Z)
| VFloat (repr : string)
| VStr (s : string)
| VSecretStr (secret : string)
| VDate (year month day : Z)
| VTime (hour minute second : Z)
| VDateTime (year month day hour minute second : Z)
| VBuiltin (name : string).

Definition is_None (v : PyVal) : bool :=
  match v with VNone => true | _ => false end.

(** [str(int)]. *)
Definition str_of_Z (z : Z) : string := NilZero.string_of_int (Z.to_int z).

(** Decimal digits of [z], padded with zeros on the left up to [width]. *)
Fixpoint zeros (n : nat) : string :=
  match n with O => "" | S n' => String "0" (zeros n') end.

Definition zfill (width : nat) (z : Z) : string :=
  let s := str_of_Z z in
  (zeros (width - String.length s) ++ s)%string.

Definition isoformat_date (y m d : Z) : string :=
  (zfill 4 y ++ "-" ++ zfill 2 m ++ "-" ++ zfill 2 d)%string.

Definition isoformat_time (hh mm ss : Z) : string :=
  (zfill 2 hh ++ ":" ++ zfill 2 mm ++ ":" ++ zfill 2 ss)%string.

(** [str(value)]. *)
Definition py_str (v : PyVal) : string :=
  match v with
  | VNone => "None"
  | VBool true => "True"
  | VBool false => "False"
  | VInt z => str_of_Z z
  | VFloat repr => repr
  | VStr s => s
  | VSecretStr "" => ""
  | VSecretStr _ => "**********"
  | VDate y m d => isoformat_date y m d
  | VTime hh mm ss => isoformat_time hh mm ss
  | VDateTime y m d hh mm ss =>
      (isoformat_date y m d ++ " " ++ isoformat_time hh mm ss)%string
  | VBuiltin name => ("<built-in function " ++ name ++ ">")%string
  end.

(* ================================================================== *)
(** ** Exceptions and results *)
(* ================================================================== *)

(** The exception carried by a pydantic [ErrorWrapper]: the source tells
    [PydanticValueError] from everything else with [isinstance]. *)
Inductive ErrExc : Type :=
| PydanticValueError (code : string)
| PydanticTypeError (code : string)
| ForeignError (name : string).

Definition is_PydanticValueError (e : ErrExc) : bool :=
  match e with PydanticValueError _ => true | _ => false end.

(** An entry of [ValidationError.raw_errors]: pydantic's [ErrorList] is an
    [ErrorWrapper] or a nested sequence of entries.  The location of a wrapper
    is [loc_tuple()]; the source casts its single element to [str]. *)
#[warnings="-register-all"]
Inductive RawError : Type :=
| ErrorWrapper (exc : ErrExc) (loc : list string)
| ErrorSeq (entries : list RawError).

Inductive Exn : Type :=
| ValidationError (raw_errors : list RawError)
| ValueError (msg : string)
| TypeError (msg : string)
| KeyError (key : string)
| AttributeError (msg : string)
| AssertionError
| NotImplementedError
| OtherError (name : string).

Definition is_ValidationError (e : Exn) : bool :=
  match e with ValidationError _ => true | _ => false end.

(** A call returns a value or raises. *)
Inductive Result (A : Type) : Type :=
| Ok (a : A)
| Raise (e : Exn).
Arguments Ok {A} a.
Arguments Raise {A} e.

(** Calls that read and update an object of type [St] and may raise: the state
    survives a raise, as the attributes of a Python object do. *)
Definition ST (St A : Type) : Type := St -> Result A * St.

Definition ret {St A} (a : A) : ST St A := fun s => (Ok a, s).

Definition raise {St A} (e : Exn) : ST St A := fun s => (Raise e, s).

Definition bind {St A B} (c : ST St A) (k : A -> ST St B) : ST St B :=
  fun s =>
    match c s with
    | (Ok a, s') => k a s'
    | (Raise e, s') => (Raise e, s')
    end.

Definition get {St} : ST St St := fun s => (Ok s, s).

Definition modify {St} (f : St -> St) : ST St unit := fun s => (Ok tt, f s).

(** [try: c  except <handles>: h(e)]; an exception that [handles] rejects
    propagates. *)
Definition try_except {St A} (c : ST St A) (handles : Exn -> bool)
    (h : Exn -> ST St A) : ST St A :=
  fun s =>
    match c s with
    | (Ok a, s') => (Ok a, s')
    | (Raise e, s') => if handles e then h e s' else (Raise e, s')
    end.

(** A pure call lifted into a stateful one. *)
Definition lift {St A} (r : Result A) : ST St A := fun s => (r, s).

Notation "x <- c ;; k" := (bind c (fun x => k))
  (at level 61, c at next level, right associativity).
Notation "c ;;; k" := (bind c (fun _ => k))
  (at level 61, right associativity).

(* ================================================================== *)
(** ** Dictionaries *)
(* ================================================================== *)

(** A Python [dict] with string keys: insertion-ordered, one entry per key. *)
Definition dict (V : Type) : Type := list (string * V).

Definition keys {V} (d : dict V) : list string := map fst d.

(** [d.get(k)] *)
Fixpoint dict_get {V} (k : string) (d : dict V) : option V :=
  match d with
  | [] => None
  | (k', v) :: d' => if String.eqb k k' then Some v else dict_get k d'
  end.

(** [k in d] *)
Definition dict_contains {V} (k : string) (d : dict V) : bool :=
  match dict_get k d with Some _ => true | None => false end.

(** [d[k] = v]: an existing key keeps its place, a new one goes last. *)
Fixpoint dict_set {V} (k : string) (v : V) (d : dict V) : dict V :=
  match d with
  | [] => [(k, v)]
  | (k', v') :: d' =>
      if String.eqb k k' then (k', v) :: d' else (k', v') :: dict_set k v d'
  end.

(** [d.update(other)] *)
Definition dict_update {V} (d other : dict V) : dict V :=
  fold_left (fun acc kv => dict_set (fst kv) (snd kv) acc) other d.

(** [d.pop(k)], the dictionary that is left. *)
Fixpoint dict_pop {V} (k : string) (d : dict V) : dict V :=
  match d with
  | [] => []
  | (k', v) :: d' =>
      if String.eqb k k' then dict_pop k d' else (k', v) :: dict_pop k d'
  end.

(** [d.setdefault(k, []).append(v)] *)
Fixpoint setdefault_append {V} (k : string) (v : V) (d : dict (list V))
    : dict (list V) :=
  match d with
  | [] => [(k, [v])]
  | (k', vs) :: d' =>
      if String.eqb k k' then (k', vs ++ [v]) :: d'
      else (k', vs) :: setdefault_append k v d'
  end.

(** [{k: v for k, v in d.items() if k not in exclude}] *)
Definition dict_without {V} (exclude : list string) (d : dict V) : dict V :=
  filter (fun kv => negb (existsb (String.eqb (fst kv)) exclude)) d.

(* ================================================================== *)
(** ** [strftime] *)
(* ================================================================== *)

(** The fields [strftime] reads; a date has midnight as its time, a time has
    1900-01-01 as its date. *)
Record Moment : Type :=
  { m_year : Z; m_month : Z; m_day : Z; m_hour : Z; m_minute : Z; m_second : Z }.

Definition moment_of (v : PyVal) : option Moment :=
  match v with
  | VDate y m d => Some (Build_Moment y m d 0 0 0)
  | VTime hh mm ss => Some (Build_Moment 1900 1 1 hh mm ss)
  | VDateTime y m d hh mm ss => Some (Build_Moment y m d hh mm ss)
  | _ => None
  end.

Definition directive (c : ascii) (t : Moment) : string :=
  if Ascii.eqb c "Y" then zfill 4 (m_year t)
  else if Ascii.eqb c "m" then zfill 2 (m_month t)
  else if Ascii.eqb c "d" then zfill 2 (m_day t)
  else if Ascii.eqb c "H" then zfill 2 (m_hour t)
  else if Ascii.eqb c "M" then zfill 2 (m_minute t)
  else if Ascii.eqb c "S" then zfill 2 (m_second t)
  else if Ascii.eqb c "%" then "%"
  else String "%" (String c "").

(** The directives the widgets' formats use; any other character is copied. *)
Fixpoint expand_format (fmt : string) (t : Moment) : string :=
  match fmt with
  | EmptyString => ""
  | String c rest =>
      if Ascii.eqb c "%" then
        match rest with
        | String c' rest' => (directive c' t ++ expand_format rest' t)%string
        | EmptyString => "%"
        end
      else String c (expand_format rest t)
  end.

(** [value.strftime(arg)]: a value that is no date, time or datetime has no
    such method, and the method accepts a [str] only. *)
Definition strftime (value arg : PyVal) : Result string :=
  match moment_of value with
  | None => Raise (AttributeError "strftime")
  | Some t =>
      match arg with
      | VStr fmt => Ok (expand_format fmt t)
      | _ => Raise (TypeError "strftime() argument 1 must be str")
      end
  end.

(* ================================================================== *)
(** ** The pydantic boundary: field types, fields, model classes *)
(* ================================================================== *)

(** A field's [type_].  It is a class: one of the builtins the source tests
    for, or a class derived from another with class attributes of its own (as
    [conint(ge=0, le=120)] derives from [int] and carries [ge] and [le]); or
    it is a typing construct that is no class, as [Choice[...]] builds. *)
Inductive PyType : Type :=
| TObject
| TInt
| TBool
| TFloat
| TStr
| TDate
| TDateTime
| TTime
| TSecretStr
| TSub (name : string) (attrs : dict PyVal) (base : PyType)
| TNonClass (name : string).

(** Builtin classes, for which class identity is decided by the name. *)
Inductive Builtin : Type :=
| Bobject | Bint | Bbool | Bfloat | Bstr | Bdate | Bdatetime | Btime
| BSecretStr.

Definition builtin_eqb (a b : Builtin) : bool :=
  match a, b with
  | Bobject, Bobject | Bint, Bint | Bbool, Bbool | Bfloat, Bfloat
  | Bstr, Bstr | Bdate, Bdate | Bdatetime, Bdatetime | Btime, Btime
  | BSecretStr, BSecretStr => true
  | _, _ => false
  end.

(** [type_ == c] for a builtin class [c]: a derived class is a class of its
    own. *)
Definition class_is (t : PyType) (c : Builtin) : bool :=
  match t with
  | TObject => builtin_eqb Bobject c
  | TInt => builtin_eqb Bint c
  | TBool => builtin_eqb Bbool c
  | TFloat => builtin_eqb Bfloat c
  | TStr => builtin_eqb Bstr c
  | TDate => builtin_eqb Bdate c
  | TDateTime => builtin_eqb Bdatetime c
  | TTime => builtin_eqb Btime c
  | TSecretStr => builtin_eqb BSecretStr c
  | TSub _ _ _ => false
  | TNonClass _ => false
  end.

(** The classes [t] derives from, itself first: [bool] derives from [int],
    [datetime] from [date]. *)
Fixpoint ancestors (t : PyType) : list Builtin :=
  match t with
  | TObject => [Bobject]
  | TInt => [Bint; Bobject]
  | TBool => [Bbool; Bint; Bobject]
  | TFloat => [Bfloat; Bobject]
  | TStr => [Bstr; Bobject]
  | TDate => [Bdate; Bobject]
  | TDateTime => [Bdatetime; Bdate; Bobject]
  | TTime => [Btime; Bobject]
  | TSecretStr => [BSecretStr; Bobject]
  | TSub _ _ base => ancestors base
  | TNonClass _ => []
  end.

Fixpoint is_class (t : PyType) : bool :=
  match t with
  | TNonClass _ => false
  | TSub _ _ base => is_class base
  | _ => true
  end.

(** [issubclass(t, cs)] for a tuple [cs] of builtin classes. *)
Definition issubclass (t : PyType) (cs : list Builtin) : Result bool :=
  if is_class t then
    Ok (existsb (fun c => existsb (builtin_eqb c) (ancestors t)) cs)
  else Raise (TypeError "issubclass() arg 1 must be a class").

(** [getattr(t, attr, None)] on a class. *)
Fixpoint class_getattr (t : PyType) (attr : string) : PyVal :=
  match t with
  | TSub _ attrs base =>
      match dict_get attr attrs with
      | Some v => v
      | None => class_getattr base attr
      end
  | _ => VNone
  end.

(** pydantic's [ModelField], the parts the source reads. *)
Record ModelField : Type :=
  { field_name : string;
    field_type_ : PyType;
    field_required : bool;
    field_default : PyVal }.

Definition DataType : Type := dict PyVal.

(** An instance of a [BaseModel] class: the class it was built by and what
    [.dict()] returns. *)
Record Inst : Type :=
  { inst_class : string;
    inst_dict : DataType }.

(** A [BaseModel] class as the form uses it: [__fields__], the call
    [model_class( **data)] and [isinstance(x, model_class)]. *)
Record ModelClass : Type :=
  { model_name : string;
    __fields__ : dict ModelField;
    model_call : DataType -> Result Inst;
    model_isinstance : Inst -> bool }.

(* ================================================================== *)
(** ** Widgets *)
(* ================================================================== *)

Inductive WidgetClass : Type :=
| Widget | Input | String' | Password | Number | Date | Time | DateTime
| Checkbox.

(** The annotations of the widget fields: [str], [str | None], [bool] and
    [t.Any]. *)
Inductive FieldType : Type :=
| FStr
| FOptionalStr
| FBool
| FAny.

(** A declared pydantic field of a widget class: the key it is populated by
    (its alias when it has one), its annotation and its default; [None]
    marks a required field. *)
Record FieldDecl : Type :=
  { fd_name : string;
    fd_key : string;
    fd_type : FieldType;
    fd_default : option PyVal }.

Definition decl (name : string) (type : FieldType) (default : PyVal)
    : FieldDecl :=
  Build_FieldDecl name name type (Some default).

(** A class body that declares a field anew: an inherited field keeps its
    place, a new one goes last. *)
Fixpoint declare (f : FieldDecl) (fs : list FieldDecl) : list FieldDecl :=
  match fs with
  | [] => [f]
  | g :: fs' =>
      if String.eqb (fd_name f) (fd_name g) then f :: fs'
      else g :: declare f fs'
  end.

Definition Widget_fields : list FieldDecl :=
  [ Build_FieldDecl "name" "name" FStr None;
    decl "id" FOptionalStr VNone;
    decl "value" FAny VNone;
    decl "required" FBool (VBool false);
    Build_FieldDecl "class_" "class" FOptionalStr (Some VNone);
    decl "autofocus" FBool (VBool false);
    decl "autocomplete" FOptionalStr VNone;
    decl "placeholder" FOptionalStr VNone ].

Definition Input_fields : list FieldDecl :=
  declare (decl "list" FOptionalStr VNone)
    (declare (decl "type" FStr (VStr "text")) Widget_fields).

Definition StrftimeMixin_fields (format : string) (fs : list FieldDecl)
    : list FieldDecl :=
  declare (decl "format" FStr (VStr format)) fs.

(** [__fields__] of a widget class.  [Number] sets [type] without an
    annotation: the field keeps the annotation it inherits. *)
Definition model_fields (cls : WidgetClass) : list FieldDecl :=
  match cls with
  | Widget => Widget_fields
  | Input => Input_fields
  | String' => Input_fields
  | Password => declare (decl "type" FStr (VStr "password")) Input_fields
  | Number =>
      declare (decl "step" FOptionalStr VNone)
        (declare (decl "max" FOptionalStr VNone)
           (declare (decl "min" FOptionalStr VNone)
              (declare (decl "type" FStr (VStr "number")) Input_fields)))
  | Date =>
      StrftimeMixin_fields "%Y-%m-%d"
        (declare (decl "type" FStr (VStr "date")) Input_fields)
  | Time =>
      StrftimeMixin_fields "%H:%M:%S"
        (declare (decl "type" FStr (VStr "date")) Input_fields)
  | DateTime =>
      StrftimeMixin_fields "%Y-%m-%dT%H{%M:%S"
        (declare (decl "type" FStr (VStr "date")) Input_fields)
  | Checkbox => declare (decl "type" FStr (VStr "checkbox")) Input_fields
  end.

(** [__exclude_attrs__], as [WidgetMetaclass] collects it from the bases. *)
Definition __exclude_attrs__ (cls : WidgetClass) : list string :=
  match cls with
  | Date | Time | DateTime => ["class_"; "value"; "format"]
  | _ => ["class_"; "value"]
  end.

(** A widget instance: its class and its field values ([self.dict()]). *)
Record WidgetInst : Type :=
  { widget_cls : WidgetClass;
    widget_dict : dict PyVal }.

(** [str.lower()], on the letters of ASCII. *)
Definition lower_ascii (c : ascii) : ascii :=
  let n := nat_of_ascii c in
  if ((65 <=? n)%nat && (n <=? 90)%nat)%bool
  then ascii_of_nat (n + 32) else c.

Fixpoint lower (s : string) : string :=
  match s with
  | EmptyString => EmptyString
  | String c rest => String (lower_ascii c) (lower rest)
  end.

(** pydantic's validator of a [str] field: a string is kept, a number (a
    [bool] is one) becomes its [str()], anything else is an error. *)
Definition str_validator (v : PyVal) : PyVal + ErrExc :=
  match v with
  | VStr s => inl (VStr s)
  | VInt _ | VBool _ | VFloat _ => inl (VStr (py_str v))
  | _ => inr (PydanticTypeError "type_error.str")
  end.

(** pydantic's validator of a [bool] field: a [bool] is kept; the numbers 1
    and 0 and, whatever their case, the strings it lists are read as
    [True] and [False]; anything else is an error. *)
Definition bool_validator (v : PyVal) : PyVal + ErrExc :=
  let error := inr (PydanticTypeError "type_error.bool") in
  let among (s : string) (l : list string) := existsb (String.eqb s) l in
  match v with
  | VBool b => inl (VBool b)
  | VStr s =>
      if among (lower s) ["1"; "on"; "t"; "true"; "y"; "yes"]
      then inl (VBool true)
      else if among (lower s) ["0"; "off"; "f"; "false"; "n"; "no"]
      then inl (VBool false)
      else error
  | VInt 1 => inl (VBool true)
  | VInt 0 => inl (VBool false)
  | VFloat repr =>
      if among repr ["1.0"] then inl (VBool true)
      else if among repr ["0.0"; "-0.0"] then inl (VBool false)
      else error
  | _ => error
  end.

(** The validation of a value passed for a field of annotation [type]:
    [None] is a value of [str | None] and of [t.Any] only, [t.Any] takes
    every value as it is. *)
Definition validate (type : FieldType) (v : PyVal) : PyVal + ErrExc :=
  match type, v with
  | FAny, _ => inl v
  | FOptionalStr, VNone => inl VNone
  | FStr, VNone | FBool, VNone =>
      inr (PydanticTypeError "type_error.none.not_allowed")
  | FStr, _ | FOptionalStr, _ => str_validator v
  | FBool, _ => bool_validator v
  end.

(** The value of one declared field out of the keyword arguments: the
    argument passed for it, validated; else its default, as it is; a
    required field that is not passed is an error. *)
Definition validate_field (f : FieldDecl) (kwargs : dict PyVal)
    : PyVal + RawError :=
  match dict_get (fd_key f) kwargs with
  | Some v =>
      match validate (fd_type f) v with
      | inl v' => inl v'
      | inr exc => inr (ErrorWrapper exc [fd_key f])
      end
  | None =>
      match fd_default f with
      | Some default => inl default
      | None =>
          inr (ErrorWrapper (PydanticValueError "value_error.missing")
                 [fd_key f])
      end
  end.

(** The values of the declared fields, in their order, and the errors of
    the fields that have none. *)
Fixpoint populate (fs : list FieldDecl) (kwargs : dict PyVal)
    : dict PyVal * list RawError :=
  match fs with
  | [] => ([], [])
  | f :: fs' =>
      let rest := populate fs' kwargs in
      match validate_field f kwargs with
      | inl v => ((fd_name f, v) :: fst rest, snd rest)
      | inr e => (fst rest, e :: snd rest)
      end
  end.

(** The value a field has in the instance that is built. *)
Definition field_value (f : FieldDecl) (kwargs : dict PyVal) : PyVal :=
  match validate_field f kwargs with
  | inl v => v
  | inr _ => VNone
  end.

(** [widget_class( **kwargs)]: the constructor of a pydantic model, which
    validates every argument against the annotation of its field and raises
    the errors of all fields together. *)
Definition widget_new (cls : WidgetClass) (kwargs : dict PyVal)
    : Result WidgetInst :=
  match populate (model_fields cls) kwargs with
  | (values, []) => Ok (Build_WidgetInst cls values)
  | (_, missing) => Raise (ValidationError missing)
  end.

(** [self.<field>] *)
Definition widget_field (w : WidgetInst) (field : string) : PyVal :=
  match dict_get field (widget_dict w) with
  | Some v => v
  | None => VNone
  end.

(** [additional_kwargs(field)]: [Number] copies the bounds of the field's
    type, the other classes inherit [Widget]'s empty dictionary. *)
Definition additional_kwargs (cls : WidgetClass) (field : ModelField)
    : dict PyVal :=
  match cls with
  | Number =>
      let kwargs : dict PyVal := [] in
      let ge := class_getattr (field_type_ field) "ge" in
      let kwargs :=
        if negb (is_None ge) then dict_set "min" (VStr (py_str ge)) kwargs
        else kwargs in
      let le := class_getattr (field_type_ field) "le" in
      let kwargs :=
        if negb (is_None le) then dict_set "max" (VStr (py_str le)) kwargs
        else kwargs in
      kwargs
  | _ => []
  end.

(** [self.format_value(value)], by the class that defines it: [StrftimeMixin]
    comes first in the bases of [Date], [Time] and [DateTime].  In
    [StrftimeMixin.format_value] the name [format] is not an attribute of the
    widget: inside the method it is the builtin function. *)
Definition format_value (w : WidgetInst) (value : PyVal) : Result string :=
  match widget_cls w with
  | Password =>
      if is_None value then Ok ""
      else
        match value with
        | VSecretStr secret => Ok secret
        | _ => Raise (AttributeError "get_secret_value")
        end
  | Date | Time | DateTime =>
      if is_None value then Ok ""
      else strftime (widget_field w "value") (VBuiltin "format")
  | _ =>
      if is_None value then Ok "" else Ok (py_str value)
  end.

(** [Widget.attrs] *)
Definition Widget_attrs (w : WidgetInst) : Result (dict PyVal) :=
  match format_value w (widget_field w "value") with
  | Raise e => Raise e
  | Ok shown =>
      Ok (dict_update
            (dict_without (__exclude_attrs__ (widget_cls w)) (widget_dict w))
            [("class", widget_field w "class_"); ("value", VStr shown)])
  end.

(** [attrs()]: [Checkbox] replaces [value] by [checked]. *)
Definition attrs (w : WidgetInst) : Result (dict PyVal) :=
  match widget_cls w with
  | Checkbox =>
      match Widget_attrs w with
      | Raise e => Raise e
      | Ok a => Ok (dict_set "checked" (widget_field w "value")
                      (dict_pop "value" a))
      end
  | _ => Widget_attrs w
  end.

(* ================================================================== *)
(** ** Renderers *)
(* ================================================================== *)

Inductive Renderer : Type :=
| BaseRenderer
| StringRenderer.

Fixpoint join (sep : string) (parts : list string) : string :=
  match parts with
  | [] => ""
  | [p] => p
  | p :: ps => (p ++ sep ++ join sep ps)%string
  end.

Definition quote : string := String (ascii_of_nat 34) "".

(** One attribute of [StringRenderer.render_attrs]; [None] and [False] are
    left out, [True] is a bare flag. *)
Definition render_attr (kv : string * PyVal) : option string :=
  match snd kv with
  | VNone => None
  | VBool false => None
  | VBool true => Some (fst kv)
  | v => Some (fst kv ++ "=" ++ quote ++ py_str v ++ quote)%string
  end.

Fixpoint render_items (items : dict PyVal) : list string :=
  match items with
  | [] => []
  | kv :: rest =>
      match render_attr kv with
      | Some s => s :: render_items rest
      | None => render_items rest
      end
  end.

Definition render_attrs (w : WidgetInst) : Result string :=
  match attrs w with
  | Raise e => Raise e
  | Ok a => Ok (join " " (render_items a))
  end.

Definition render_widget (r : Renderer) (w : WidgetInst) : Result string :=
  match r with
  | BaseRenderer => Raise NotImplementedError
  | StringRenderer =>
      match render_attrs w with
      | Raise e => Raise e
      | Ok a => Ok ("<input " ++ a ++ ">")%string
      end
  end.

(* ================================================================== *)
(** ** Configuration classes and [FormMetaclass] *)
(* ================================================================== *)

(** Classes are objects with an identity: a class is named by its position in
    the table of the classes created so far. *)
Definition ClassId : Type := nat.

(** What a class namespace holds in this module: configuration values and
    classes ([Config], [__config__]); methods play no part here. *)
Inductive Attr : Type :=
| AStr (s : string)
| ARenderer (r : Renderer)
| AWidgetClasses (d : dict WidgetClass)
| AWidgetKwargs (d : dict (dict PyVal))
| AModel (m : ModelClass)
| AClass (c : ClassId).

Record Class : Type :=
  { __name__ : string;
    __bases__ : list ClassId;
    __dict__ : dict Attr;
    __mro__ : list ClassId }.

Definition Classes : Type := list Class.

Definition object : ClassId := 0.

Definition builtins : Classes := [Build_Class "object" [] [] [object]].

Definition mro_of (h : Classes) (c : ClassId) : list ClassId :=
  match nth_error h c with
  | Some k => __mro__ k
  | None => []
  end.

(** *** The C3 linearisation that [type] computes *)

Definition in_tail (c : ClassId) (seq : list ClassId) : bool :=
  match seq with
  | [] => false
  | _ :: t => existsb (Nat.eqb c) t
  end.

(** The first head that is in the tail of no sequence. *)
Fixpoint candidate (heads seqs : list (list ClassId)) : option ClassId :=
  match heads with
  | [] => None
  | [] :: rest => candidate rest seqs
  | (c :: _) :: rest =>
      if existsb (in_tail c) seqs then candidate rest seqs else Some c
  end.

Definition drop_head (c : ClassId) (seq : list ClassId) : list ClassId :=
  match seq with
  | h :: t => if Nat.eqb h c then t else seq
  | [] => []
  end.

Definition nonempty (seq : list ClassId) : bool :=
  match seq with [] => false | _ => true end.

(** Every round takes one class off the sequences, so their total length is
    fuel enough; [None] is [TypeError]: no consistent order exists. *)
Fixpoint merge (fuel : nat) (seqs : list (list ClassId))
    : option (list ClassId) :=
  match filter nonempty seqs with
  | [] => Some []
  | seqs' =>
      match fuel with
      | O => None
      | S fuel' =>
          match candidate seqs' seqs' with
          | None => None
          | Some c =>
              option_map (cons c) (merge fuel' (map (drop_head c) seqs'))
          end
      end
  end.

Definition c3_merge (seqs : list (list ClassId)) : option (list ClassId) :=
  merge (length (concat seqs)) seqs.

(** [type(name, bases, namespace)]: a class statement without bases derives
    from [object]. *)
Definition type_new (name : string) (bases : list ClassId)
    (namespace : dict Attr) : ST Classes ClassId :=
  fun h =>
    let bases := match bases with [] => [object] | _ => bases end in
    let id := length h in
    match c3_merge (map (mro_of h) bases ++ [bases]) with
    | None => (Raise (TypeError "Cannot create a consistent MRO"), h)
    | Some tail => (Ok id, h ++ [Build_Class name bases namespace (id :: tail)])
    end.

(** Attribute lookup on a class: the first class of the MRO whose namespace
    has the name. *)
Fixpoint lookup_mro (h : Classes) (mro : list ClassId) (attr : string)
    : option Attr :=
  match mro with
  | [] => None
  | c :: rest =>
      match nth_error h c with
      | Some k =>
          match dict_get attr (__dict__ k) with
          | Some a => Some a
          | None => lookup_mro h rest attr
          end
      | None => lookup_mro h rest attr
      end
  end.

Definition getattr (h : Classes) (c : ClassId) (attr : string) : option Attr :=
  lookup_mro h (mro_of h c) attr.

(** [issubclass(c, b)] between classes of the table. *)
Definition is_subclass (h : Classes) (c b : ClassId) : bool :=
  existsb (Nat.eqb b) (mro_of h c).

(** [inherit_config] *)
Definition inherit_config (self_config parent_config : ClassId)
    : ST Classes ClassId :=
  let base_classes :=
    if Nat.eqb self_config parent_config then [self_config]
    else [self_config; parent_config] in
  type_new "Config" base_classes [].

(** The loop of [FormMetaclass.__new__] over [reversed(bases)].  [BaseForm] is
    [None] while [_is_base_form_class_defined] is false. *)
Fixpoint inherit_bases (BaseForm : option ClassId) (rev_bases : list ClassId)
    (config : ClassId) : ST Classes ClassId :=
  match rev_bases with
  | [] => ret config
  | base :: rest =>
      h <- get ;;
      match BaseForm with
      | Some base_form =>
          if is_subclass h base base_form && negb (Nat.eqb base base_form)
          then
            match getattr h base "__config__" with
            | Some (AClass base_config) =>
                config' <- inherit_config base_config config ;;
                inherit_bases BaseForm rest config'
            | _ => raise (AttributeError "__config__")
            end
          else inherit_bases BaseForm rest config
      | None => inherit_bases BaseForm rest config
      end
  end.

(** Python's truth value of a namespace entry. *)
Definition truthy (a : Attr) : bool :=
  match a with
  | AStr "" => false
  | AWidgetClasses [] => false
  | AWidgetKwargs [] => false
  | _ => true
  end.

(** [FormMetaclass.__new__(cls, name, bases, namespace)] *)
Definition FormMetaclass_new (BaseConfig : ClassId) (BaseForm : option ClassId)
    (name : string) (bases : list ClassId) (namespace : dict Attr)
    : ST Classes ClassId :=
  config <- inherit_bases BaseForm (rev bases) BaseConfig ;;
  config <-
    match dict_get "Config" namespace with
    | Some config_from_namespace =>
        if truthy config_from_namespace then
          match config_from_namespace with
          | AClass c => inherit_config c config
          | _ => raise (TypeError "bases must be types")
          end
        else ret config
    | None => ret config
    end ;;
  type_new name bases
    (dict_set "__config__" (AClass config) (dict_pop "Config" namespace)).

(** The classes the module defines, in the order of the file. *)
Record Module : Type :=
  { BaseConfig : ClassId;
    BaseForm : ClassId;
    Form : ClassId }.

Definition Form_Config : dict Attr :=
  [ ("prefix", AStr "");
    ("renderer", ARenderer StringRenderer);
    ("widget_classes", AWidgetClasses []);
    ("widget_kwargs", AWidgetKwargs []) ].

Definition module_body : ST Classes Module :=
  BaseConfig <- type_new "BaseConfig" [] [] ;;
  BaseForm <- FormMetaclass_new BaseConfig None "BaseForm" [] [] ;;
  Config <- type_new "Config" [BaseConfig] Form_Config ;;
  Form <- FormMetaclass_new BaseConfig (Some BaseForm) "Form" [BaseForm]
            [("Config", AClass Config)] ;;
  ret (Build_Module BaseConfig BaseForm Form).

(** A form class statement of a user of the library,
    [class name( *bases): class Config( *config_bases): <config_body>], or
    without a [Config] of its own. *)
Definition class_form (m : Module) (name : string) (bases : list ClassId)
    (config : option (list ClassId * dict Attr)) : ST Classes ClassId :=
  namespace <-
    match config with
    | Some (config_bases, config_body) =>
        c <- type_new "Config" config_bases config_body ;;
        ret [("Config", AClass c)]
    | None => ret []
    end ;;
  FormMetaclass_new (BaseConfig m) (Some (BaseForm m)) name bases namespace.

(** [cls.__config__] *)
Definition __config__ (h : Classes) (cls : ClassId) : option ClassId :=
  match getattr h cls "__config__" with
  | Some (AClass c) => Some c
  | _ => None
  end.

(** [cls.__config__.<attr>] *)
Definition config_attr (h : Classes) (cls : ClassId) (attr : string)
    : option Attr :=
  match __config__ h cls with
  | Some c => getattr h c attr
  | None => None
  end.

(** The configuration a form class ends up with, as the methods of its
    instances read it through [self.__config__]. *)
Record Config : Type :=
  { model : ModelClass;
    prefix : string;
    renderer : Renderer;
    widget_classes : dict WidgetClass;
    widget_kwargs : dict (dict PyVal) }.

Definition config_of (h : Classes) (cls : ClassId) : option Config :=
  match config_attr h cls "model", config_attr h cls "prefix",
        config_attr h cls "renderer", config_attr h cls "widget_classes",
        config_attr h cls "widget_kwargs" with
  | Some (AModel m), Some (AStr p), Some (ARenderer r),
    Some (AWidgetClasses wc), Some (AWidgetKwargs wk) =>
      Some (Build_Config m p r wc wk)
  | _, _, _, _, _ => None
  end.

(** [Form.prefix_name] *)
Definition prefix_name (cfg : Config) (name : string) : string :=
  (prefix cfg ++ name)%string.

(* ================================================================== *)
(** ** [BaseForm] *)
(* ================================================================== *)

(** What a form asks of the model class, in order of the calls.  The record
    is kept beside the attributes of the form, so that what a method does can
    be told from what it returns. *)
Inductive Call : Type :=
| CallIsinstance (initial : Inst)
| CallModel (data : DataType).

Definition is_CallModel (c : Call) : bool :=
  match c with CallModel _ => true | _ => false end.

Definition is_CallIsinstance (c : Call) : bool :=
  match c with CallIsinstance _ => true | _ => false end.

(** A [BoundField] object.  Its [form] attribute is the form that holds it;
    [widget_cache] is the slot [cached_property] fills. *)
Record BoundField : Type :=
  { field : ModelField;
    widget_cache : option WidgetInst }.

(** How a call of [form.bind_field] passes the field name: by position, as
    [form.bind_field(x)] and [form[x]] do, or by keyword, as
    [form.bind_field(name=x)] does. *)
Inductive CallPattern : Type :=
| Positional
| Keyword.

(** The key [functools.cache] makes of a call: the positional arguments,
    then the keyword arguments after a mark.  For the calls on one form it
    is the way the name is passed and the name. *)
Definition CacheKey : Type := CallPattern * string.

Definition Cache : Type := list (CacheKey * nat).

Definition key_eqb (k k' : CacheKey) : bool :=
  match fst k, fst k' with
  | Positional, Positional | Keyword, Keyword => String.eqb (snd k) (snd k')
  | _, _ => false
  end.

(** [cache.get(key)] *)
Fixpoint cache_get (k : CacheKey) (c : Cache) : option nat :=
  match c with
  | [] => None
  | (k', r) :: c' => if key_eqb k k' then Some r else cache_get k c'
  end.

(** [cache[key] = result] *)
Fixpoint cache_set (k : CacheKey) (r : nat) (c : Cache) : Cache :=
  match c with
  | [] => [(k, r)]
  | (k', r') :: c' =>
      if key_eqb k k' then (k', r) :: c' else (k', r') :: cache_set k r c'
  end.

(** A form instance: the attributes [__init__] sets, the entries the cache
    of [bind_field] ([functools.cache]) has for this instance, each the
    address of a [BoundField], and the [BoundField] objects made for this
    form, by address.  [_error] holds the [raw_errors] of the stored
    [ValidationError]. *)
Record FormInst : Type :=
  { _data : option DataType;
    _error : option (list RawError);
    _model : option Inst;
    _initial : option Inst;
    _model_data : DataType;
    bind_field_cache : Cache;
    bound_fields : list BoundField;
    calls : list Call }.

Definition set_data (v : option DataType) (s : FormInst) : FormInst :=
  Build_FormInst v (_error s) (_model s) (_initial s) (_model_data s)
    (bind_field_cache s) (bound_fields s) (calls s).

Definition set_error (v : option (list RawError)) (s : FormInst) : FormInst :=
  Build_FormInst (_data s) v (_model s) (_initial s) (_model_data s)
    (bind_field_cache s) (bound_fields s) (calls s).

Definition set_model (v : option Inst) (s : FormInst) : FormInst :=
  Build_FormInst (_data s) (_error s) v (_initial s) (_model_data s)
    (bind_field_cache s) (bound_fields s) (calls s).

Definition set_model_data (v : DataType) (s : FormInst) : FormInst :=
  Build_FormInst (_data s) (_error s) (_model s) (_initial s) v
    (bind_field_cache s) (bound_fields s) (calls s).

Definition set_bound (cache : Cache) (objs : list BoundField)
    (s : FormInst) : FormInst :=
  Build_FormInst (_data s) (_error s) (_model s) (_initial s) (_model_data s)
    cache objs (calls s).

Definition record_call (c : Call) (s : FormInst) : FormInst :=
  Build_FormInst (_data s) (_error s) (_model s) (_initial s) (_model_data s)
    (bind_field_cache s) (bound_fields s) (calls s ++ [c]).

(** [get_model_data].  A [BaseModel] instance is true in a condition, so
    [if self._initial] asks whether there is one. *)
Definition get_model_data (s : FormInst) : DataType :=
  match _model s with
  | Some m => inst_dict m
  | None =>
      let data : DataType := [] in
      let data :=
        match _initial s with
        | Some initial => dict_update data (inst_dict initial)
        | None => data
        end in
      let data :=
        match _data s with
        | Some d => dict_update data d
        | None => data
        end in
      data
  end.

(** [process_data] *)
Definition process_data (data : DataType) : DataType := data.

(** [get_model_class] *)
Definition get_model_class (cfg : Config) : ModelClass := model cfg.

(** [BaseForm.__init__] *)
Definition __init__ (cfg : Config) (data : option DataType)
    (initial : option Inst) : Result FormInst :=
  let self := Build_FormInst data None None None [] [] [] [] in
  let checked :=
    match initial with
    | Some i =>
        let self := record_call (CallIsinstance i) self in
        if negb (model_isinstance (model cfg) i)
        then Raise (ValueError "Initial must be of type Config.model")
        else Ok self
    | None => Ok self
    end in
  match checked with
  | Raise e => Raise e
  | Ok self =>
      let self :=
        Build_FormInst (_data self) (_error self) (_model self) initial
          (_model_data self) (bind_field_cache self) (bound_fields self)
          (calls self) in
      Ok (set_model_data (get_model_data self) self)
  end.

(** The call [model_class( **data)], recorded. *)
Definition call_model (cfg : Config) (data : DataType) : ST FormInst Inst :=
  modify (record_call (CallModel data)) ;;;
  lift (model_call (get_model_class cfg) data).

(** [clean] *)
Definition clean (cfg : Config) : ST FormInst unit :=
  self <- get ;;
  match _error self with
  | Some raw_errors => raise (ValidationError raw_errors)
  | None =>
      match _model self with
      | Some _ => ret tt
      | None =>
          let data := process_data (get_model_data self) in
          try_except
            (m <- call_model cfg data ;; modify (set_model (Some m)))
            is_ValidationError
            (fun ex =>
               match ex with
               | ValidationError raw_errors =>
                   modify (set_error (Some raw_errors)) ;;; raise ex
               | _ => raise ex
               end) ;;;
          self <- get ;;
          modify (set_model_data (get_model_data self))
      end
  end.

(** The property [data] *)
Definition data (cfg : Config) : ST FormInst (option Inst) :=
  clean cfg ;;;
  self <- get ;;
  ret (_model self).

Definition ErrorType : Type := dict (list ErrExc).

(** The loop of [errors] over [error.raw_errors]. *)
Fixpoint regroup (raw_errors : list RawError) (errors : ErrorType)
    : Result ErrorType :=
  match raw_errors with
  | [] => Ok errors
  | exc :: rest =>
      match exc with
      | ErrorSeq _ => Raise AssertionError
      | ErrorWrapper e loc =>
          if negb (is_PydanticValueError e) then Raise AssertionError
          else
            match loc with
            | [field] => regroup rest (setdefault_append field e errors)
            | _ => Raise (ValueError "wrong number of values to unpack")
            end
      end
  end.

(** The property [errors] *)
Definition errors (cfg : Config) : ST FormInst (option ErrorType) :=
  cleaned <- try_except (clean cfg ;;; ret true) is_ValidationError
               (fun _ => ret false) ;;
  if (cleaned : bool) then ret None
  else
    self <- get ;;
    match _error self with
    | None => raise (AttributeError "'NoneType' object has no attribute 'raw_errors'")
    | Some raw_errors =>
        errors <- lift (regroup raw_errors []) ;;
        ret (Some errors)
    end.

(** [is_valid] *)
Definition is_valid (cfg : Config) : ST FormInst bool :=
  try_except (clean cfg ;;; ret true) is_ValidationError (fun _ => ret false).

(** [value_of]: the default is looked up before [get] is called. *)
Definition value_of (cfg : Config) (field : string) : ST FormInst PyVal :=
  self <- get ;;
  match dict_get field (__fields__ (model cfg)) with
  | None => raise (KeyError field)
  | Some f =>
      ret (match dict_get field (_model_data self) with
           | Some v => v
           | None => field_default f
           end)
  end.

(* ================================================================== *)
(** ** [BoundField] and [Form] *)
(* ================================================================== *)

(** [BoundField.required] *)
Definition BoundField_required (f : ModelField) : bool := field_required f.

(** [BoundField.value] *)
Definition BoundField_value (cfg : Config) (f : ModelField)
    : ST FormInst PyVal :=
  value_of cfg (field_name f).

(** [BoundField.widget_class] *)
Definition widget_class (cfg : Config) (f : ModelField) : Result WidgetClass :=
  match dict_get (field_name f) (widget_classes cfg) with
  | Some override => Ok override
  | None =>
      match issubclass (field_type_ f) [Bbool] with
      | Raise e => Raise e
      | Ok true => Ok Checkbox
      | Ok false =>
      match issubclass (field_type_ f) [Bint; Bfloat] with
      | Raise e => Raise e
      | Ok true => Ok Number
      | Ok false =>
      if class_is (field_type_ f) Bdate then Ok Date
      else if class_is (field_type_ f) Btime then Ok Time
      else if class_is (field_type_ f) Bdatetime then Ok DateTime
      else
      match issubclass (field_type_ f) [BSecretStr] with
      | Raise e => Raise e
      | Ok true => Ok Password
      | Ok false => Ok Input
      end end end
  end.

(** [BoundField.widget_kwargs] *)
Definition BoundField_widget_kwargs (cfg : Config) (f : ModelField)
    (cls : WidgetClass) : ST FormInst (dict PyVal) :=
  let name := prefix_name cfg (field_name f) in
  value <- BoundField_value cfg f ;;
  let kwargs : dict PyVal :=
    [ ("name", VStr name);
      ("id", VStr ("id_" ++ name)%string);
      ("required", VBool (BoundField_required f));
      ("value", value) ] in
  let kwargs := dict_update kwargs (additional_kwargs cls f) in
  let kwargs :=
    dict_update kwargs
      (match dict_get (field_name f) (widget_kwargs cfg) with
       | Some extra => extra
       | None => []
       end) in
  ret kwargs.

(** The object at address [r], changed by [f]. *)
Fixpoint update_nth {A} (r : nat) (f : A -> A) (l : list A) {struct l}
    : list A :=
  match l, r with
  | [], _ => []
  | x :: l', O => f x :: l'
  | x :: l', S r' => x :: update_nth r' f l'
  end.

Definition store_widget (r : nat) (w : WidgetInst) (s : FormInst) : FormInst :=
  set_bound (bind_field_cache s)
    (update_nth r (fun bf => Build_BoundField (field bf) (Some w))
       (bound_fields s))
    s.

(** The cached property [BoundField.widget] of the object at address [r]: the
    body runs once, its result is kept in the object.  A program holds no
    address that names no object. *)
Definition BoundField_widget (cfg : Config) (r : nat) : ST FormInst WidgetInst :=
  self <- get ;;
  match nth_error (bound_fields self) r with
  | None => raise (OtherError "no such object")
  | Some bf =>
      match widget_cache bf with
      | Some w => ret w
      | None =>
          cls <- lift (widget_class cfg (field bf)) ;;
          kwargs <- BoundField_widget_kwargs cfg (field bf) cls ;;
          w <- lift (widget_new cls kwargs) ;;
          modify (store_widget r w) ;;;
          ret w
      end
  end.

(** [BoundField.render_widget] (and [__str__]) *)
Definition BoundField_render_widget (cfg : Config) (r : nat)
    : ST FormInst string :=
  w <- BoundField_widget cfg r ;;
  lift (render_widget (renderer cfg) w).

(** [Form.bind_field] under [functools.cache]: a call whose key is in the
    cache returns the cached result without running the body; a body that
    raises caches nothing.  The key is made of the arguments as they are
    passed, so that a name passed by position and the same name passed by
    keyword are two keys. *)
Definition bind_field_call (cfg : Config) (how : CallPattern) (name : string)
    : ST FormInst nat :=
  self <- get ;;
  match cache_get (how, name) (bind_field_cache self) with
  | Some r => ret r
  | None =>
      clean cfg ;;;
      match dict_get name (__fields__ (model cfg)) with
      | None => raise (KeyError name)
      | Some f =>
          self <- get ;;
          let r := length (bound_fields self) in
          modify (set_bound (cache_set (how, name) r (bind_field_cache self))
                    (bound_fields self ++ [Build_BoundField f None])) ;;;
          ret r
      end
  end.

(** [form.bind_field(name)], which is also [form[name]]. *)
Definition bind_field (cfg : Config) (name : string) : ST FormInst nat :=
  bind_field_call cfg Positional name.

(** What a program does with a form between two observations.  [Mutate d]
    is the caller changing, in place, the dictionary it passed as [data]:
    the form holds the same dictionary in [_data].  [BindField name] is
    [form.bind_field(name)], [BindFieldByKeyword name] is
    [form.bind_field(name=name)]. *)
Inductive Op : Type :=
| Clean
| Data
| Errors
| IsValid
| ValueOf (field : string)
| BindField (name : string)
| GetWidget (r : nat)
| RenderWidget (r : nat)
| Mutate (d : DataType)
| BindFieldByKeyword (name : string).

Definition run_op (cfg : Config) (op : Op) (s : FormInst) : FormInst :=
  match op with
  | Clean => snd (clean cfg s)
  | Data => snd (data cfg s)
  | Errors => snd (errors cfg s)
  | IsValid => snd (is_valid cfg s)
  | ValueOf f => snd (value_of cfg f s)
  | BindField name => snd (bind_field cfg name s)
  | GetWidget r => snd (BoundField_widget cfg r s)
  | RenderWidget r => snd (BoundField_render_widget cfg r s)
  | Mutate d =>
      match _data s with
      | Some _ => set_data (Some d) s
      | None => s
      end
  | BindFieldByKeyword name => snd (bind_field_call cfg Keyword name s)
  end.

Definition run_ops (cfg : Config) (ops : list Op) (s : FormInst) : FormInst :=
  fold_left (fun s op => run_op cfg op s) ops s.

(** The three states of the validation memo. *)
Inductive Memo : Type :=
| Unbound
| ResolvedValid (value : Inst)
| ResolvedInvalid (violations : list RawError).

Definition memo (s : FormInst) : Memo :=
  match _error s, _model s with
  | Some e, _ => ResolvedInvalid e
  | None, Some m => ResolvedValid m
  | None, None => Unbound
  end.

(** The calls to the model class that validate data. *)
Definition validations (s : FormInst) : list Call :=
  filter is_CallModel (calls s).

(** The [isinstance] checks of the initial value. *)
Definition initial_checks (s : FormInst) : list Call :=
  filter is_CallIsinstance (calls s).

(* ================================================================== *)
(** ** An example schema *)
(* ================================================================== *)

(** The model class of the examples,
    [class Person(BaseModel): name: str; age: conint(ge=0, le=120);
     active: bool = False], with the outcome of pydantic's validation for
    it: a string of digits is accepted as an integer, a bound that is broken
    is a value error, a value of the wrong type a type error. *)
Definition ConstrainedInt : PyType :=
  TSub "ConstrainedInt" [("ge", VNone); ("le", VNone)] TInt.

Definition conint (ge le : PyVal) : PyType :=
  TSub "ConstrainedIntValue" [("ge", ge); ("le", le)] ConstrainedInt.

Definition Person_name : ModelField := Build_ModelField "name" TStr true VNone.

Definition Person_age : ModelField :=
  Build_ModelField "age" (conint (VInt 0) (VInt 120)) true VNone.

Definition Person_active : ModelField :=
  Build_ModelField "active" TBool false (VBool false).

Definition Person_fields : dict ModelField :=
  [("name", Person_name); ("age", Person_age); ("active", Person_active)].

Definition parse_int (s : string) : option Z :=
  option_map Z.of_int (NilZero.int_of_string s).

Definition missing (field : string) : RawError :=
  ErrorWrapper (PydanticValueError "value_error.missing") [field].

Definition validate_name (data : DataType) : PyVal + RawError :=
  match dict_get "name" data with
  | None => inr (missing "name")
  | Some (VStr s) => inl (VStr s)
  | Some (VInt z) => inl (VStr (str_of_Z z))
  | Some _ => inr (ErrorWrapper (PydanticTypeError "type_error.str") ["name"])
  end.

Definition check_age (z : Z) : PyVal + RawError :=
  if (z <? 0)%Z then
    inr (ErrorWrapper (PydanticValueError "value_error.number.not_ge") ["age"])
  else if (120 <? z)%Z then
    inr (ErrorWrapper (PydanticValueError "value_error.number.not_le") ["age"])
  else inl (VInt z).

Definition validate_age (data : DataType) : PyVal + RawError :=
  let not_int :=
    inr (ErrorWrapper (PydanticTypeError "type_error.integer") ["age"]) in
  match dict_get "age" data with
  | None => inr (missing "age")
  | Some (VInt z) => check_age z
  | Some (VStr s) =>
      match parse_int s with
      | Some z => check_age z
      | None => not_int
      end
  | Some _ => not_int
  end.

Definition validate_active (data : DataType) : PyVal + RawError :=
  match dict_get "active" data with
  | None => inl (VBool false)
  | Some (VBool b) => inl (VBool b)
  | Some _ => inr (ErrorWrapper (PydanticTypeError "type_error.bool") ["active"])
  end.

Definition collect (results : list (string * (PyVal + RawError)))
    : DataType * list RawError :=
  fold_right
    (fun r acc =>
       match snd r with
       | inl v => ((fst r, v) :: fst acc, snd acc)
       | inr e => (fst acc, e :: snd acc)
       end)
    ([], []) results.

Definition Person_call (data : DataType) : Result Inst :=
  match collect [ ("name", validate_name data);
                  ("age", validate_age data);
                  ("active", validate_active data) ] with
  | (values, []) => Ok (Build_Inst "Person" values)
  | (_, raw_errors) => Raise (ValidationError raw_errors)
  end.

Definition Person : ModelClass :=
  Build_ModelClass "Person" Person_fields Person_call
    (fun x => String.eqb (inst_class x) "Person").

(** [class PersonForm(Form): class Config: model = Person; prefix = "f_"] *)
Definition PersonForm_config : Config :=
  Build_Config Person "f_" StringRenderer [] [].

(** [class SurveyForm(Form): class Config: model = Person;
    widget_kwargs = {"age": {"name": None, "required": "maybe"},
    "name": {"required": "Yes", "placeholder": 7}}] *)
Definition SurveyForm_config : Config :=
  Build_Config Person "" StringRenderer []
    [ ("age", [("name", VNone); ("required", VStr "maybe")]);
      ("name", [("required", VStr "Yes"); ("placeholder", VInt 7)]) ].

(** A model class with an integer field that has no bounds,
    [class Tally(BaseModel): count: int]. *)
Definition Tally_count : ModelField := Build_ModelField "count" TInt true VNone.

Definition Tally_call (data : DataType) : Result Inst :=
  match dict_get "count" data with
  | Some (VInt z) => Ok (Build_Inst "Tally" [("count", VInt z)])
  | Some _ =>
      Raise (ValidationError
               [ErrorWrapper (PydanticTypeError "type_error.integer") ["count"]])
  | None => Raise (ValidationError [missing "count"])
  end.

Definition Tally : ModelClass :=
  Build_ModelClass "Tally" [("count", Tally_count)] Tally_call
    (fun x => String.eqb (inst_class x) "Tally").

Definition TallyForm_config : Config :=
  Build_Config Tally "" StringRenderer [] [].

(** The forms of the examples. *)
Definition form_of (cfg : Config) (data : DataType) : FormInst :=
  match __init__ cfg (Some data) None with
  | Ok s => s
  | Raise _ => Build_FormInst None None None None [] [] [] []
  end.

Definition valid_person : DataType :=
  [("name", VStr "Al"); ("age", VInt 30); ("active", VBool true)].

Definition old_person : DataType :=
  [("name", VStr "Al"); ("age", VStr "200")].

Definition odd_person : DataType :=
  [("name", VStr "Al"); ("age", VStr "abc")].

(* ================================================================== *)
(** ** The notions the theorems are stated with *)
(* ================================================================== *)

(** A form a program can hold: built by [__init__], then used. *)
Definition Reachable (cfg : Config) (s : FormInst) : Prop :=
  exists d i s0 ops, __init__ cfg d i = Ok s0 /\ s = run_ops cfg ops s0.

(** [clean] has run to an outcome it stores: it returned, or it raised the
    validation failure. *)
Definition terminal (r : Result unit) : Prop :=
  match r with
  | Ok _ => True
  | Raise e => is_ValidationError e = true
  end.

(** What holds of every form a program can hold. *)
Record Inv (cfg : Config) (s : FormInst) : Prop :=
  { inv_exclusive : _error s = None \/ _model s = None;
    inv_keys : NoDup (map fst (bind_field_cache s));
    inv_addresses :
      map snd (bind_field_cache s) = seq 0 (length (bound_fields s));
    inv_fields :
      forall how name r,
        cache_get (how, name) (bind_field_cache s) = Some r ->
        exists bf,
          nth_error (bound_fields s) r = Some bf /\
          dict_get name (__fields__ (model cfg)) = Some (field bf) }.


(** An entry [errors] regroups: a wrapper around a value error, located at
    one field. *)
Definition field_value_error (x : RawError) : Prop :=
  match x with
  | ErrorWrapper e [_] => is_PydanticValueError e = true
  | _ => False
  end.

(** The attribute a bound of the field's type becomes. *)
Definition bound_attr (bound : PyVal) : PyVal :=
  if is_None bound then VNone else VStr (py_str bound).

(** The extra keyword arguments the configuration gives for a field. *)
Definition extra_kwargs (cfg : Config) (f : ModelField) : dict PyVal :=
  match dict_get (field_name f) (widget_kwargs cfg) with
  | Some extra => extra
  | None => []
  end.

(** What the methods leave alone once the memo is resolved. *)
Definition same_outcome (s s' : FormInst) : Prop :=
  _error s' = _error s /\ _model s' = _model s /\
  _model_data s' = _model_data s /\ calls s' = calls s.

(** The object at [r] holds the widget [w]. *)
Definition holds_widget (s : FormInst) (r : nat) (w : WidgetInst) : Prop :=
  exists bf, nth_error (bound_fields s) r = Some bf /\
             widget_cache bf = Some w.

(** What [errors] returns: nothing or an empty mapping. *)
Definition empty_or_absent (r : Result (option ErrorType)) : Prop :=
  r = Ok None \/ r = Ok (Some []).

(** The validation failure of the form, where there is one, lists a
    violation. *)
Definition failure_lists_violation (cfg : Config) (s : FormInst) : bool :=
  match fst (clean cfg s) with
  | Raise (ValidationError []) => false
  | _ => true
  end.

(** What pydantic grants of a model class: the [ValidationError] its call
    raises is made for a list of errors that is not empty. *)
Definition lists_violation (m : ModelClass) : Prop :=
  forall d raw, model_call m d = Raise (ValidationError raw) -> raw <> [].

(** The failure a form has stored lists a violation. *)
Definition stored_failure_listed (s : FormInst) : Prop :=
  _error s <> Some [].

(** No string occurs twice in [l]. *)
Fixpoint nodupb (l : list string) : bool :=
  match l with
  | [] => true
  | x :: l' => negb (existsb (String.eqb x) l') && nodupb l'
  end.

(** Every argument of [kwargs] that is passed for a field of the widget
    class is a value its annotation takes. *)
Definition accepts (cls : WidgetClass) (kwargs : dict PyVal) : bool :=
  forallb
    (fun kv =>
       forallb
         (fun f =>
            if String.eqb (fd_key f) (fst kv)
            then match validate (fd_type f) (snd kv) with
                 | inl _ => true
                 | inr _ => false
                 end
            else true)
         (model_fields cls))
    kwargs.

(** The keyword arguments [BoundField.widget_kwargs] builds for a field
    whose current value is [value]. *)
Definition kwargs_for (cfg : Config) (f : ModelField) (cls : WidgetClass)
    (value : PyVal) : dict PyVal :=
  dict_update
    (dict_update
       [ ("name", VStr (prefix_name cfg (field_name f)));
         ("id", VStr ("id_" ++ prefix_name cfg (field_name f))%string);
         ("required", VBool (BoundField_required f));
         ("value", value) ]
       (additional_kwargs cls f))
    (extra_kwargs cfg f).

(** The module, then
    [class A(Form): class Config: <config_A>] and
    [class B(A): class Config: <config_B>], or [class B(A)] without a
    [Config] of its own. *)
Definition two_forms (config_A : dict Attr) (config_B : option (dict Attr))
    : ST Classes (ClassId * ClassId) :=
  m <- module_body ;;
  A <- class_form m "A" [Form m] (Some ([], config_A)) ;;
  B <- class_form m "B" [A]
         (option_map (fun body => ([], body)) config_B) ;;
  ret (A, B).

(** The data of the form is the data of its model, once it has one. *)
Definition Snapshot (s : FormInst) : Prop :=
  forall m, _model s = Some m -> _model_data s = inst_dict m.

(** [d.get(k)] on a dictionary that may not be there. *)
Definition get_opt (k : string) (d : option DataType) : option PyVal :=
  match d with
  | Some raw => dict_get k raw
  | None => None
  end.

(** A dictionary as Python builds it: no key twice. *)
Definition well_formed (d : option DataType) : Prop :=
  match d with
  | Some raw => NoDup (keys raw)
  | None => True
  end.

(** A model class whose validation fails with an error of its own, as a
    validator that raises [RuntimeError] makes it. *)
Definition Faulty : ModelClass :=
  Build_ModelClass "Faulty" [] (fun _ => Raise (OtherError "RuntimeError"))
    (fun x => String.eqb (inst_class x) "Faulty").

Definition FaultyForm_config : Config :=
  Build_Config Faulty "" StringRenderer [] [].

(** Bound fields are made for a validated form only. *)
Definition NoFieldsUnlessValid (s : FormInst) : Prop :=
  _model s = None -> bind_field_cache s = [] /\ bound_fields s = [].

(** The widget class type inference gives a class derived from builtins
    [ancestors]: the tests [widget_class] makes with [issubclass]. *)
Definition inferred_by_ancestry (ancestors : list Builtin) : WidgetClass :=
  if existsb (builtin_eqb Bbool) ancestors then Checkbox
  else if existsb (builtin_eqb Bint) ancestors
          || existsb (builtin_eqb Bfloat) ancestors then Number
  else if existsb (builtin_eqb BSecretStr) ancestors then Password
  else Input.

(** The arguments [BoundField.widget_kwargs] starts from. *)
Definition base_kwargs (cfg : Config) (f : ModelField) (value : PyVal)
    : dict PyVal :=
  [ ("name", VStr (prefix_name cfg (field_name f)));
    ("id", VStr ("id_" ++ prefix_name cfg (field_name f))%string);
    ("required", VBool (BoundField_required f));
    ("value", value) ].

(** A person form that asks for adults: extra arguments for [age]. *)
Definition AdultForm_config : Config :=
  Build_Config Person "f_" StringRenderer []
    [("age", [("min", VStr "18"); ("placeholder", VStr "years")])].

(** The widget classes that take [format_value] from [StrftimeMixin]. *)
Definition uses_strftime (cls : WidgetClass) : bool :=
  match cls with
  | Date | Time | DateTime => true
  | _ => false
  end.

Definition is_SecretStr (v : PyVal) : bool :=
  match v with VSecretStr _ => true | _ => false end.

(** [s.update(xs)] on a set, kept as a list without repeats. *)
Definition set_update (s xs : list string) : list string :=
  fold_left
    (fun acc x => if existsb (String.eqb x) acc then acc else acc ++ [x])
    xs s.

(** [WidgetMetaclass.__new__]: the [__exclude_attrs__] it stores in the
    namespace, from what [getattr(base, "__exclude_attrs__", [])] gives for
    the bases and what the class body sets. *)
Definition WidgetMetaclass_new (bases : list (list string))
    (namespace : option (list string)) : list string :=
  let exclude_attrs := fold_left set_update (rev bases) [] in
  set_update exclude_attrs
    (match namespace with Some own => own | None => [] end).

(** The widget classes in the order of the file.  [BaseModel] has no
    [__exclude_attrs__]; [StrftimeMixin] is made by pydantic's metaclass and
    has the set of its class body. *)
Definition Widget_excluded : list string :=
  WidgetMetaclass_new [[]] (Some ["class_"; "value"]).

Definition Input_excluded : list string :=
  WidgetMetaclass_new [Widget_excluded] None.

Definition String_excluded : list string :=
  WidgetMetaclass_new [Input_excluded] None.

Definition StrftimeMixin_excluded : list string := ["format"].

Definition excluded_by_metaclass (cls : WidgetClass) : list string :=
  match cls with
  | Widget => Widget_excluded
  | Input => Input_excluded
  | String' => String_excluded
  | Password => WidgetMetaclass_new [String_excluded] None
  | Number | Checkbox => WidgetMetaclass_new [Input_excluded] None
  | Date | Time | DateTime =>
      WidgetMetaclass_new [StrftimeMixin_excluded; Input_excluded] None
  end.

(** The module, then [class A(Form)], [class B(Form)] and
    [class C(A, B)], each with a [Config] of its own or without. *)
Definition three_forms (config_A config_B config_C : option (dict Attr))
    : ST Classes (ClassId * ClassId * ClassId) :=
  let body := option_map (fun b : dict Attr => (@nil ClassId, b)) in
  m <- module_body ;;
  A <- class_form m "A" [Form m] (body config_A) ;;
  B <- class_form m "B" [Form m] (body config_B) ;;
  C <- class_form m "C" [A; B] (body config_C) ;;
  ret (A, B, C).

(** The module, then [class A(Form): class Config: <config_A>]. *)
Definition one_form (config_A : dict Attr) : ST Classes (Module * ClassId) :=
  m <- module_body ;;
  A <- class_form m "A" [Form m] (Some ([], config_A)) ;;
  ret (m, A).

(* ================================================================== *)
(** ** Lemmas on dictionaries *)
(* ================================================================== *)

Lemma dict_get_set_same {V} (k : string) (v : V) (d : dict V) :
  dict_get k (dict_set k v d) = Some v.
Proof.
  induction d as [|[k' v'] d IH]; simpl.
  - now rewrite String.eqb_refl.
  - destruct (String.eqb k k') eqn:E; simpl; rewrite E; auto.
Qed.

Lemma dict_get_set_other {V} (k k' : string) (v : V) (d : dict V) :
  k <> k' -> dict_get k (dict_set k' v d) = dict_get k d.
Proof.
  intros Hne. induction d as [|[k0 v0] d IH]; simpl.
  - destruct (String.eqb_spec k k'); congruence.
  - destruct (String.eqb_spec k' k0); simpl.
    + subst. destruct (String.eqb_spec k k0); congruence.
    + destruct (String.eqb_spec k k0); auto.
Qed.

Lemma dict_set_new {V} (k : string) (v : V) (d : dict V) :
  dict_get k d = None -> dict_set k v d = d ++ [(k, v)].
Proof.
  induction d as [|[k' v'] d IH]; simpl; auto.
  destruct (String.eqb k k'); [discriminate|].
  intros H. now rewrite IH.
Qed.


Lemma dict_get_app {V} (k : string) (d d' : dict V) :
  dict_get k (d ++ d') =
  match dict_get k d with Some v => Some v | None => dict_get k d' end.
Proof.
  induction d as [|[k' v'] d IH]; simpl; auto.
  destruct (String.eqb k k'); auto.
Qed.

Lemma dict_get_update_absent {V} (k : string) (other d : dict V) :
  dict_get k other = None -> dict_get k (dict_update d other) = dict_get k d.
Proof.
  unfold dict_update. revert d.
  induction other as [|[k' v'] other IH]; simpl; intros d H; auto.
  destruct (String.eqb_spec k k'); [discriminate|].
  rewrite IH by assumption. now apply dict_get_set_other.
Qed.

Lemma dict_get_without {V} (k : string) (exclude : list string) (d : dict V) :
  existsb (String.eqb k) exclude = false ->
  dict_get k (dict_without exclude d) = dict_get k d.
Proof.
  intros Hk. unfold dict_without.
  induction d as [|[k' v'] d IH]; simpl; auto.
  destruct (String.eqb_spec k k').
  - subst. rewrite Hk. simpl. now rewrite String.eqb_refl.
  - destruct (existsb (String.eqb k') exclude); simpl; auto.
    destruct (String.eqb_spec k k'); congruence.
Qed.

Lemma dict_get_pop_other {V} (k k' : string) (d : dict V) :
  k <> k' -> dict_get k (dict_pop k' d) = dict_get k d.
Proof.
  intros Hne. induction d as [|[k0 v0] d IH]; simpl; auto.
  destruct (String.eqb_spec k' k0); simpl.
  - subst. destruct (String.eqb_spec k k0); congruence.
  - destruct (String.eqb_spec k k0); auto.
Qed.

Lemma dict_get_pop_same {V} (k : string) (d : dict V) :
  dict_get k (dict_pop k d) = None.
Proof.
  induction d as [|[k0 v0] d IH]; simpl; auto.
  destruct (String.eqb k k0) eqn:E; simpl; auto. now rewrite E.
Qed.

(* ================================================================== *)
(** ** The validation memo *)
(* ================================================================== *)

Ltac st_unfold :=
  unfold bind, ret, raise, get, modify, try_except, lift in *.

(** [clean], case by case. *)
Lemma clean_unfold (cfg : Config) (s : FormInst) :
  clean cfg s =
  match _error s with
  | Some e => (Raise (ValidationError e), s)
  | None =>
      match _model s with
      | Some _ => (Ok tt, s)
      | None =>
          let d := get_model_data s in
          let s1 := record_call (CallModel d) s in
          match model_call (model cfg) d with
          | Ok m =>
              (Ok tt, set_model_data (inst_dict m) (set_model (Some m) s1))
          | Raise (ValidationError e) =>
              (Raise (ValidationError e), set_error (Some e) s1)
          | Raise ex => (Raise ex, s1)
          end
      end
  end.
Proof.
  unfold clean, call_model, process_data, get_model_class. st_unfold.
  destruct (_error s); [reflexivity|].
  destruct (_model s) eqn:Hm; [reflexivity|].
  cbn zeta.
  destruct (model_call (model cfg) (get_model_data s)) as [m|ex]; simpl.
  - reflexivity.
  - destruct ex; reflexivity.
Qed.

(** Once the memo is resolved, [clean] only reports it. *)
Lemma clean_resolved (cfg : Config) (s : FormInst) :
  memo s <> Unbound ->
  clean cfg s =
  (match _error s with
   | Some e => Raise (ValidationError e)
   | None => Ok tt
   end, s).
Proof.
  intros H. rewrite clean_unfold. unfold memo in H.
  destruct (_error s); [reflexivity|].
  destruct (_model s); [reflexivity|]. congruence.
Qed.

Lemma same_outcome_refl (s : FormInst) : same_outcome s s.
Proof. repeat split. Qed.

Lemma same_outcome_trans (a b c : FormInst) :
  same_outcome a b -> same_outcome b c -> same_outcome a c.
Proof. unfold same_outcome. intuition congruence. Qed.

Lemma same_outcome_memo (s s' : FormInst) :
  same_outcome s s' -> memo s' = memo s.
Proof. unfold same_outcome, memo. intros (-> & -> & _). reflexivity. Qed.

Lemma widget_same_outcome (cfg : Config) (r : nat) (s : FormInst) :
  same_outcome s (snd (BoundField_widget cfg r s)).
Proof.
  unfold BoundField_widget, BoundField_widget_kwargs, BoundField_value,
    value_of.
  st_unfold.
  destruct (nth_error (bound_fields s) r) as [bf|]; simpl;
    [|apply same_outcome_refl].
  destruct (widget_cache bf); simpl; [apply same_outcome_refl|].
  destruct (widget_class cfg (field bf)); simpl; [|apply same_outcome_refl].
  destruct (dict_get (field_name (field bf)) (__fields__ (model cfg))); simpl;
    [|apply same_outcome_refl].
  destruct (widget_new _ _); simpl; repeat split.
Qed.

Lemma run_op_resolved (cfg : Config) (op : Op) (s : FormInst) :
  memo s <> Unbound -> same_outcome s (run_op cfg op s).
Proof.
  intros H. pose proof (clean_resolved cfg s H) as Hc.
  destruct op; simpl.
  - rewrite Hc. apply same_outcome_refl.
  - unfold data. st_unfold. rewrite Hc.
    destruct (_error s); apply same_outcome_refl.
  - unfold errors. st_unfold. rewrite Hc.
    destruct (_error s) as [e|] eqn:He; simpl.
    + rewrite He. destruct (regroup e []); apply same_outcome_refl.
    + apply same_outcome_refl.
  - unfold is_valid. st_unfold. rewrite Hc.
    destruct (_error s); apply same_outcome_refl.
  - unfold value_of. st_unfold.
    destruct (dict_get field0 _); apply same_outcome_refl.
  - unfold bind_field, bind_field_call. st_unfold.
    destruct (cache_get _ (bind_field_cache s)); [apply same_outcome_refl|].
    rewrite Hc. destruct (_error s); [apply same_outcome_refl|].
    destruct (dict_get name _); simpl; repeat split.
  - apply widget_same_outcome.
  - unfold BoundField_render_widget. st_unfold.
    pose proof (widget_same_outcome cfg r s) as Hw.
    destruct (BoundField_widget cfg r s) as [[w|e] s']; simpl in *; auto.
  - destruct (_data s); repeat split.
  - unfold bind_field_call. st_unfold.
    destruct (cache_get _ (bind_field_cache s)); [apply same_outcome_refl|].
    rewrite Hc. destruct (_error s); [apply same_outcome_refl|].
    destruct (dict_get name _); simpl; repeat split.
Qed.

Lemma run_ops_resolved (cfg : Config) (ops : list Op) (s : FormInst) :
  memo s <> Unbound -> same_outcome s (run_ops cfg ops s).
Proof.
  unfold run_ops. revert s.
  induction ops as [|op ops IH]; intros s H; simpl.
  - apply same_outcome_refl.
  - pose proof (run_op_resolved cfg op s H) as H1.
    eapply same_outcome_trans; [exact H1|].
    apply IH. rewrite (same_outcome_memo _ _ H1). exact H.
Qed.

(* ================================================================== *)
(** ** The invariant of a form *)
(* ================================================================== *)

Lemma data_state (cfg : Config) (s : FormInst) :
  snd (data cfg s) = snd (clean cfg s).
Proof.
  unfold data. st_unfold. destruct (clean cfg s) as [[[]|e] s']; reflexivity.
Qed.

Lemma is_valid_state (cfg : Config) (s : FormInst) :
  snd (is_valid cfg s) = snd (clean cfg s).
Proof.
  unfold is_valid. st_unfold.
  destruct (clean cfg s) as [[[]|e] s']; simpl; [reflexivity|].
  destruct (is_ValidationError e); reflexivity.
Qed.

Lemma errors_state (cfg : Config) (s : FormInst) :
  snd (errors cfg s) = snd (clean cfg s).
Proof.
  unfold errors. st_unfold.
  destruct (clean cfg s) as [[[]|e] s']; simpl; [reflexivity|].
  destruct (is_ValidationError e); simpl; [|reflexivity].
  destruct (_error s'); simpl; [|reflexivity].
  destruct (regroup _ _); reflexivity.
Qed.

Lemma clean_bound (cfg : Config) (s : FormInst) :
  bind_field_cache (snd (clean cfg s)) = bind_field_cache s /\
  bound_fields (snd (clean cfg s)) = bound_fields s.
Proof.
  rewrite clean_unfold.
  destruct (_error s); [now split|].
  destruct (_model s); [now split|].
  cbn zeta. destruct (model_call _ _) as [m|[]]; now split.
Qed.

Lemma clean_exclusive (cfg : Config) (s : FormInst) :
  _error s = None \/ _model s = None ->
  _error (snd (clean cfg s)) = None \/ _model (snd (clean cfg s)) = None.
Proof.
  intros H. rewrite clean_unfold.
  destruct (_error s) eqn:He.
  - simpl. destruct H as [H|H]; [discriminate|now right].
  - destruct (_model s) eqn:Hm; [now left|].
    cbn zeta. destruct (model_call _ _) as [m|[]]; simpl; auto.
Qed.

Lemma nth_error_update_nth {A} (f : A -> A) (l : list A) (r i : nat) :
  nth_error (update_nth r f l) i =
  if Nat.eqb i r then option_map f (nth_error l i) else nth_error l i.
Proof.
  revert r i. induction l as [|x l IH]; intros r i; simpl.
  - destruct (Nat.eqb i r); destruct i; reflexivity.
  - destruct r, i; simpl; auto.
Qed.

Lemma length_update_nth {A} (f : A -> A) (l : list A) (r : nat) :
  length (update_nth r f l) = length l.
Proof.
  revert r. induction l as [|x l IH]; intros [|r]; simpl; auto.
Qed.

(** The state a form is left in is one of three kinds: the bound fields are
    untouched, one widget slot was filled, or one bound field was added. *)
Lemma inv_frame (cfg : Config) (s s' : FormInst) :
  Inv cfg s ->
  _error s' = None \/ _model s' = None ->
  bind_field_cache s' = bind_field_cache s ->
  length (bound_fields s') = length (bound_fields s) ->
  (forall r bf, nth_error (bound_fields s) r = Some bf ->
     exists bf', nth_error (bound_fields s') r = Some bf' /\
                 field bf' = field bf) ->
  Inv cfg s'.
Proof.
  intros [I1 I2 I3 I4] Hex Hc Hl Hn. split.
  - exact Hex.
  - now rewrite Hc.
  - now rewrite Hc, Hl.
  - intros how name r Hr. rewrite Hc in Hr.
    destruct (I4 how name r Hr) as (bf & Hbf & Hf).
    destruct (Hn r bf Hbf) as (bf' & Hbf' & Heq).
    exists bf'. split; [exact Hbf'|]. now rewrite Heq.
Qed.

Lemma inv_clean (cfg : Config) (s : FormInst) :
  Inv cfg s -> Inv cfg (snd (clean cfg s)).
Proof.
  intros I. destruct (clean_bound cfg s) as [Hc Hb].
  apply (inv_frame cfg s); auto.
  - apply clean_exclusive, I.
  - now rewrite Hb.
  - intros r bf H. exists bf. now rewrite Hb.
Qed.

Lemma widget_state (cfg : Config) (r : nat) (s : FormInst) :
  snd (BoundField_widget cfg r s) = s \/
  exists w bf,
    nth_error (bound_fields s) r = Some bf /\ widget_cache bf = None /\
    fst (BoundField_widget cfg r s) = Ok w /\
    snd (BoundField_widget cfg r s) = store_widget r w s.
Proof.
  unfold BoundField_widget, BoundField_widget_kwargs, BoundField_value,
    value_of.
  st_unfold.
  destruct (nth_error (bound_fields s) r) as [bf|] eqn:Hn; simpl; auto.
  destruct (widget_cache bf) eqn:Hw; simpl; auto.
  destruct (widget_class cfg (field bf)); simpl; auto.
  destruct (dict_get (field_name (field bf)) (__fields__ (model cfg)));
    simpl; auto.
  destruct (widget_new _ _) as [w|]; simpl; auto.
  right. exists w, bf. auto.
Qed.

Lemma inv_store_widget (cfg : Config) (r : nat) (w : WidgetInst)
    (s : FormInst) :
  Inv cfg s -> Inv cfg (store_widget r w s).
Proof.
  intros I. apply (inv_frame cfg s); auto.
  - apply I.
  - simpl. apply length_update_nth.
  - intros i bf H. simpl. rewrite nth_error_update_nth, H.
    destruct (Nat.eqb i r); simpl; eauto.
Qed.

Lemma inv_widget (cfg : Config) (r : nat) (s : FormInst) :
  Inv cfg s -> Inv cfg (snd (BoundField_widget cfg r s)).
Proof.
  intros I. destruct (widget_state cfg r s) as [->|(w & bf & _ & _ & _ & ->)].
  - exact I.
  - now apply inv_store_widget.
Qed.

Lemma NoDup_snoc {A} (l : list A) (a : A) :
  NoDup l -> ~ In a l -> NoDup (l ++ [a]).
Proof.
  induction l as [|x l IH]; simpl; intros Hl Ha.
  - constructor; [tauto|constructor].
  - inversion Hl; subst. constructor.
    + rewrite in_app_iff. simpl. intros [H|[H|[]]]; [tauto|].
      apply Ha. now left.
    + apply IH; tauto.
Qed.

(** The keys of the cache. *)
Lemma key_eqb_spec (k k' : CacheKey) : reflect (k = k') (key_eqb k k').
Proof.
  destruct k as [[] n], k' as [[] n']; unfold key_eqb; simpl;
    try (constructor; congruence);
    destruct (String.eqb_spec n n'); constructor; congruence.
Qed.




Lemma cache_set_new (k : CacheKey) (r : nat) (c : Cache) :
  cache_get k c = None -> cache_set k r c = c ++ [(k, r)].
Proof.
  induction c as [|[k' r'] c IH]; simpl; [reflexivity|].
  destruct (key_eqb k k'); [discriminate|].
  intros H. now rewrite IH.
Qed.

Lemma cache_get_None_keys (k : CacheKey) (c : Cache) :
  cache_get k c = None -> ~ In k (map fst c).
Proof.
  induction c as [|[k' r'] c IH]; simpl; [tauto|].
  destruct (key_eqb_spec k k'); [discriminate|].
  intros H [Heq|Hin]; [congruence|]. now apply IH.
Qed.

Lemma cache_get_app (k : CacheKey) (c c' : Cache) :
  cache_get k (c ++ c') =
  match cache_get k c with
  | Some r => Some r
  | None => cache_get k c'
  end.
Proof.
  induction c as [|[k' r'] c IH]; simpl; [reflexivity|].
  destruct (key_eqb k k'); auto.
Qed.


(** [bind_field], case by case. *)
Lemma bind_field_call_unfold (cfg : Config) (how : CallPattern)
    (name : string) (s : FormInst) :
  bind_field_call cfg how name s =
  match cache_get (how, name) (bind_field_cache s) with
  | Some r => (Ok r, s)
  | None =>
      match clean cfg s with
      | (Raise e, s1) => (Raise e, s1)
      | (Ok _, s1) =>
          match dict_get name (__fields__ (model cfg)) with
          | None => (Raise (KeyError name), s1)
          | Some f =>
              (Ok (length (bound_fields s1)),
               set_bound
                 (cache_set (how, name) (length (bound_fields s1))
                    (bind_field_cache s1))
                 (bound_fields s1 ++ [Build_BoundField f None]) s1)
          end
      end
  end.
Proof.
  unfold bind_field_call. st_unfold.
  destruct (cache_get (how, name) (bind_field_cache s)); [reflexivity|].
  destruct (clean cfg s) as [[[]|e] s1]; [|reflexivity].
  destruct (dict_get name (__fields__ (model cfg))); reflexivity.
Qed.

Lemma bind_field_unfold (cfg : Config) (name : string) (s : FormInst) :
  bind_field cfg name s =
  match cache_get (Positional, name) (bind_field_cache s) with
  | Some r => (Ok r, s)
  | None =>
      match clean cfg s with
      | (Raise e, s1) => (Raise e, s1)
      | (Ok _, s1) =>
          match dict_get name (__fields__ (model cfg)) with
          | None => (Raise (KeyError name), s1)
          | Some f =>
              (Ok (length (bound_fields s1)),
               set_bound
                 (cache_set (Positional, name) (length (bound_fields s1))
                    (bind_field_cache s1))
                 (bound_fields s1 ++ [Build_BoundField f None]) s1)
          end
      end
  end.
Proof. apply bind_field_call_unfold. Qed.

Lemma inv_bind_field (cfg : Config) (how : CallPattern) (name : string)
    (s : FormInst) :
  Inv cfg s -> Inv cfg (snd (bind_field_call cfg how name s)).
Proof.
  intros I. rewrite bind_field_call_unfold.
  destruct (cache_get (how, name) (bind_field_cache s)) eqn:Hget; [exact I|].
  pose proof (inv_clean cfg s I) as I1.
  destruct (clean_bound cfg s) as [Hc Hb].
  destruct (clean cfg s) as [[[]|e] s1]; simpl in *; [|exact I1].
  destruct (dict_get name (__fields__ (model cfg))) as [f|] eqn:Hf;
    simpl; [|exact I1].
  assert (Hnew : cache_get (how, name) (bind_field_cache s1) = None)
    by now rewrite Hc.
  destruct I1 as [J1 J2 J3 J4]. split; simpl.
  - exact J1.
  - rewrite (cache_set_new _ _ _ Hnew).
    rewrite map_app. simpl.
    apply NoDup_snoc; [exact J2|]. now apply cache_get_None_keys.
  - rewrite (cache_set_new _ _ _ Hnew), map_app, J3, length_app. simpl.
    rewrite Nat.add_1_r, seq_S. reflexivity.
  - intros h n r Hr. rewrite (cache_set_new _ _ _ Hnew), cache_get_app in Hr.
    destruct (cache_get (h, n) (bind_field_cache s1)) as [r'|] eqn:Hn.
    + inversion Hr; subst r'. destruct (J4 h n r Hn) as (bf & Hbf & Hfield).
      exists bf. split; [|exact Hfield].
      rewrite nth_error_app1; [exact Hbf|].
      apply nth_error_Some. congruence.
    + simpl in Hr.
      destruct (key_eqb_spec (h, n) (how, name)) as [Heq|]; [|discriminate].
      inversion Heq; subst.
      inversion Hr; subst. exists (Build_BoundField f None). split; [|exact Hf].
      rewrite nth_error_app2 by lia. now rewrite Nat.sub_diag.
Qed.

Lemma inv_run_op (cfg : Config) (op : Op) (s : FormInst) :
  Inv cfg s -> Inv cfg (run_op cfg op s).
Proof.
  intros I. destruct op; simpl.
  - now apply inv_clean.
  - rewrite data_state. now apply inv_clean.
  - rewrite errors_state. now apply inv_clean.
  - rewrite is_valid_state. now apply inv_clean.
  - unfold value_of. st_unfold.
    destruct (dict_get field0 _); exact I.
  - now apply inv_bind_field.
  - now apply inv_widget.
  - unfold BoundField_render_widget. st_unfold.
    pose proof (inv_widget cfg r s I) as Hw.
    destruct (BoundField_widget cfg r s) as [[w|e] s']; exact Hw.
  - destruct (_data s); [|exact I].
    apply (inv_frame cfg s); auto; try apply I. eauto.
  - now apply inv_bind_field.
Qed.

Lemma inv_run_ops (cfg : Config) (ops : list Op) (s : FormInst) :
  Inv cfg s -> Inv cfg (run_ops cfg ops s).
Proof.
  unfold run_ops. revert s.
  induction ops as [|op ops IH]; intros s I; simpl; [exact I|].
  apply IH. now apply inv_run_op.
Qed.

Lemma inv_init (cfg : Config) (d : option DataType) (i : option Inst)
    (s : FormInst) :
  __init__ cfg d i = Ok s -> Inv cfg s.
Proof.
  unfold __init__. intros H.
  assert (Hs : bind_field_cache s = [] /\ bound_fields s = [] /\
               _error s = None).
  { destruct i as [x|]; simpl in H.
    - destruct (model_isinstance (model cfg) x); simpl in H;
        inversion H; subst; simpl; auto.
    - inversion H; subst; simpl; auto. }
  destruct Hs as (Hc & Hb & He). split.
  - now left.
  - rewrite Hc. constructor.
  - now rewrite Hc, Hb.
  - intros how name r Hr. rewrite Hc in Hr. discriminate.
Qed.

Lemma reachable_inv (cfg : Config) (s : FormInst) :
  Reachable cfg s -> Inv cfg s.
Proof.
  intros (d & i & s0 & ops & Hinit & ->).
  apply inv_run_ops. eapply inv_init; eauto.
Qed.

(** The results of the methods on a form whose memo is resolved: no call
    changes the form. *)
Lemma resolved_results (cfg : Config) (s : FormInst) :
  memo s <> Unbound ->
  data cfg s =
    (match _error s with
     | Some e => Raise (ValidationError e)
     | None => Ok (_model s)
     end, s) /\
  is_valid cfg s =
    (Ok (match _error s with Some _ => false | None => true end), s) /\
  errors cfg s =
    (match _error s with
     | Some e =>
         match regroup e [] with
         | Ok d => Ok (Some d)
         | Raise x => Raise x
         end
     | None => Ok None
     end, s).
Proof.
  intros H. pose proof (clean_resolved cfg s H) as Hc.
  unfold data, is_valid, errors. st_unfold. rewrite Hc.
  destruct (_error s) as [e|] eqn:He; simpl; [|auto].
  rewrite He. destruct (regroup e []); auto.
Qed.

(** C1.  Once [clean] has run to an outcome it stores (it returned, or it
    raised the validation failure), exactly one of [_model] and [_error] is
    set; and whatever the program does with the form afterwards, the memo
    stays what it is, the model class is not called again, and [clean],
    [data], [is_valid] and [errors] leave the form as it is and give the
    stored outcome. *)
Theorem clean_memo_idempotent (cfg : Config) (s0 s : FormInst)
    (r : Result unit) :
  Reachable cfg s0 ->
  clean cfg s0 = (r, s) ->
  terminal r ->
  ((exists m, _model s = Some m /\ _error s = None /\ r = Ok tt) \/
   (exists e, _error s = Some e /\ _model s = None /\
              r = Raise (ValidationError e))) /\
  forall ops,
    let s' := run_ops cfg ops s in
    memo s' = memo s /\ memo s' <> Unbound /\
    validations s' = validations s /\
    clean cfg s' = (r, s') /\
    data cfg s' =
      (match r with Ok _ => Ok (_model s) | Raise e => Raise e end, s') /\
    is_valid cfg s' =
      (Ok (match r with Ok _ => true | Raise _ => false end), s') /\
    errors cfg s' = (fst (errors cfg s), s').
Proof.
  intros Hreach Hclean Hterm.
  pose proof (inv_exclusive _ _ (reachable_inv cfg s0 Hreach)) as Hex.
  assert (Hout :
    (exists m, _model s = Some m /\ _error s = None /\ r = Ok tt) \/
    (exists e, _error s = Some e /\ _model s = None /\
               r = Raise (ValidationError e))).
  { rewrite clean_unfold in Hclean.
    destruct (_error s0) as [e|] eqn:He.
    - inversion Hclean; subst. right. exists e.
      destruct Hex as [Hex|Hex]; [congruence|]. auto.
    - destruct (_model s0) as [m|] eqn:Hm.
      + inversion Hclean; subst. left. exists m. auto.
      + cbn zeta in Hclean.
        destruct (model_call (model cfg) (get_model_data s0)) as [m|ex].
        * inversion Hclean; subst. left. exists m. simpl. auto.
        * destruct ex; inversion Hclean; subst; simpl in Hterm;
            try discriminate.
          right. exists raw_errors. simpl. auto. }
  split; [exact Hout|].
  intros ops s'.
  assert (Hres : memo s <> Unbound).
  { unfold memo.
    destruct Hout as [(m & -> & -> & _)|(e & -> & _)]; discriminate. }
  pose proof (run_ops_resolved cfg ops s Hres) as Hsame.
  fold s' in Hsame.
  pose proof (same_outcome_memo _ _ Hsame) as Hmemo.
  assert (Hres' : memo s' <> Unbound) by now rewrite Hmemo.
  destruct Hsame as (He & Hm & _ & Hcalls).
  destruct (resolved_results cfg s' Hres') as (Hd & Hv & Herr).
  destruct (resolved_results cfg s Hres) as (_ & _ & Herr0).
  rewrite (clean_resolved cfg s' Hres'), Hd, Hv, Herr, Herr0, He, Hm.
  unfold validations. rewrite Hcalls.
  destruct Hout as [(m & Hm' & He' & ->)|(e & He' & Hm' & ->)];
    rewrite He'; simpl; repeat split; assumption.
Qed.

(** The form of the example: a person aged 200, whose validation fails. *)
Lemma clean_memo_idempotent_witness :
  let cfg := PersonForm_config in
  let s0 := form_of cfg old_person in
  let s := snd (clean cfg s0) in
  let s' := run_ops cfg [IsValid; Mutate valid_person; Errors; Clean] s in
  clean cfg s' = (fst (clean cfg s0), s') /\ validations s' = validations s.
Proof.
  intros cfg s0 s s'.
  assert (Hreach : Reachable cfg s0).
  { exists (Some old_person), None, s0, []. split; reflexivity. }
  assert (Hclean : clean cfg s0 = (fst (clean cfg s0), s))
    by (unfold s; destruct (clean cfg s0); reflexivity).
  assert (Hterm : terminal (fst (clean cfg s0))) by reflexivity.
  destruct (clean_memo_idempotent cfg s0 s _ Hreach Hclean Hterm) as [_ H].
  destruct (H [IsValid; Mutate valid_person; Errors; Clean])
    as (_ & _ & Hv & Hc & _).
  split; [exact Hc|exact Hv].
Defined.

(* ================================================================== *)
(** ** The cache of bound fields *)
(* ================================================================== *)









Lemma widget_held (cfg : Config) (r : nat) (s : FormInst) (w : WidgetInst) :
  holds_widget s r w -> BoundField_widget cfg r s = (Ok w, s).
Proof.
  intros (bf & Hn & Hw). unfold BoundField_widget. st_unfold.
  now rewrite Hn, Hw.
Qed.

Lemma widget_computed (cfg : Config) (r : nat) (s s1 : FormInst)
    (w : WidgetInst) :
  BoundField_widget cfg r s = (Ok w, s1) -> holds_widget s1 r w.
Proof.
  unfold BoundField_widget, BoundField_widget_kwargs, BoundField_value,
    value_of.
  st_unfold.
  destruct (nth_error (bound_fields s) r) as [bf|] eqn:Hn; [|discriminate].
  destruct (widget_cache bf) as [w0|] eqn:Hw.
  - intros H. inversion H; subst. exists bf. auto.
  - destruct (widget_class cfg (field bf)); simpl; [|discriminate].
    destruct (dict_get (field_name (field bf)) (__fields__ (model cfg)));
      simpl; [|discriminate].
    destruct (widget_new _ _) as [w1|]; simpl; [|discriminate].
    intros H. inversion H; subst.
    exists (Build_BoundField (field bf) (Some w)). split; [|reflexivity].
    simpl. rewrite nth_error_update_nth, Nat.eqb_refl, Hn. reflexivity.
Qed.

Lemma holds_widget_store (r r' : nat) (w w' : WidgetInst) (s : FormInst)
    (bf : BoundField) :
  holds_widget s r w ->
  nth_error (bound_fields s) r' = Some bf -> widget_cache bf = None ->
  holds_widget (store_widget r' w' s) r w.
Proof.
  intros (b & Hn & Hw) Hn' Hnone. exists b. split; [|exact Hw].
  simpl. rewrite nth_error_update_nth.
  destruct (Nat.eqb_spec r r'); [|exact Hn].
  subst. congruence.
Qed.

Lemma holds_widget_bind_field (cfg : Config) (how : CallPattern)
    (name : string) (s : FormInst) (r : nat) (w : WidgetInst) :
  holds_widget s r w ->
  holds_widget (snd (bind_field_call cfg how name s)) r w.
Proof.
  intros H.
  assert (Hclean : holds_widget (snd (clean cfg s)) r w).
  { destruct H as (bf & Hn & Hw). exists bf.
    destruct (clean_bound cfg s) as [_ ->]. auto. }
  rewrite bind_field_call_unfold.
  destruct (cache_get (how, name) (bind_field_cache s)); [exact H|].
  destruct (clean cfg s) as [[[]|e] s1]; simpl in *; [|exact Hclean].
  destruct (dict_get name (__fields__ (model cfg))); simpl;
    [|exact Hclean].
  destruct Hclean as (bf & Hn & Hw). exists bf. split; [|exact Hw].
  simpl. rewrite nth_error_app1; [exact Hn|].
  apply nth_error_Some. congruence.
Qed.

Lemma holds_widget_run_op (cfg : Config) (op : Op) (s : FormInst) (r : nat)
    (w : WidgetInst) :
  holds_widget s r w -> holds_widget (run_op cfg op s) r w.
Proof.
  intros H.
  assert (Hclean : holds_widget (snd (clean cfg s)) r w).
  { destruct H as (bf & Hn & Hw). exists bf.
    destruct (clean_bound cfg s) as [_ ->]. auto. }
  destruct op; simpl.
  - exact Hclean.
  - now rewrite data_state.
  - now rewrite errors_state.
  - now rewrite is_valid_state.
  - unfold value_of. st_unfold. destruct (dict_get field0 _); exact H.
  - now apply holds_widget_bind_field.
  - destruct (widget_state cfg r0 s) as [->|(w' & bf & Hn & Hw & _ & ->)];
      [exact H|].
    now apply (holds_widget_store r r0 w w' s bf).
  - unfold BoundField_render_widget. st_unfold.
    destruct (widget_state cfg r0 s) as [Hs|(w' & bf & Hn & Hw & _ & Hs)];
      destruct (BoundField_widget cfg r0 s) as [[w0|e] s']; simpl in *;
      subst s'; try exact H;
      now apply (holds_widget_store r r0 w w' s bf).
  - destruct (_data s); exact H.
  - now apply holds_widget_bind_field.
Qed.

Lemma holds_widget_run_ops (cfg : Config) (ops : list Op) (s : FormInst)
    (r : nat) (w : WidgetInst) :
  holds_widget s r w -> holds_widget (run_ops cfg ops s) r w.
Proof.
  unfold run_ops. revert s.
  induction ops as [|op ops IH]; intros s H; simpl; [exact H|].
  apply IH. now apply holds_widget_run_op.
Qed.

Lemma dict_get_In {V} (k : string) (v : V) (d : dict V) :
  dict_get k d = Some v -> In (k, v) d.
Proof.
  induction d as [|[k' v'] d IH]; simpl; [discriminate|].
  destruct (String.eqb_spec k k').
  - intros H. inversion H; subst. now left.
  - intros H. right. now apply IH.
Qed.





(* ================================================================== *)
(** ** [is_valid] and [errors] *)
(* ================================================================== *)

(** A validation failure that [clean] raises is the one it stored. *)
Lemma clean_raises_stored (cfg : Config) (s s' : FormInst)
    (raw : list RawError) :
  clean cfg s = (Raise (ValidationError raw), s') -> _error s' = Some raw.
Proof.
  rewrite clean_unfold.
  destruct (_error s) as [e|] eqn:He.
  - intros H. inversion H; subst. exact He.
  - destruct (_model s); [discriminate|].
    cbn zeta. destruct (model_call _ _) as [m|[]]; try discriminate.
    intros H. inversion H; subst. reflexivity.
Qed.

(** [errors] and [is_valid] by the outcome of [clean]. *)
Lemma errors_unfold (cfg : Config) (s : FormInst) :
  errors cfg s =
  match clean cfg s with
  | (Ok _, s') => (Ok None, s')
  | (Raise (ValidationError raw), s') =>
      (match regroup raw [] with
       | Ok d => Ok (Some d)
       | Raise x => Raise x
       end, s')
  | (Raise e, s') => (Raise e, s')
  end.
Proof.
  unfold errors. st_unfold.
  destruct (clean cfg s) as [[[]|e] s'] eqn:Hc; simpl; [reflexivity|].
  destruct e; simpl; try reflexivity.
  rewrite (clean_raises_stored cfg s s' raw_errors Hc).
  destruct (regroup raw_errors []); reflexivity.
Qed.

Lemma is_valid_unfold (cfg : Config) (s : FormInst) :
  is_valid cfg s =
  match clean cfg s with
  | (Ok _, s') => (Ok true, s')
  | (Raise (ValidationError _), s') => (Ok false, s')
  | (Raise e, s') => (Raise e, s')
  end.
Proof.
  unfold is_valid. st_unfold.
  destruct (clean cfg s) as [[[]|e] s']; simpl; [reflexivity|].
  destruct e; reflexivity.
Qed.

Lemma setdefault_append_nonempty {V} (k : string) (v : V)
    (d : dict (list V)) :
  setdefault_append k v d <> [].
Proof.
  destruct d as [|[k' vs] d]; simpl; [discriminate|].
  destruct (String.eqb k k'); discriminate.
Qed.

(** The loop of [errors] yields an empty mapping for an empty report only. *)
Lemma regroup_empty (raw : list RawError) (acc d : ErrorType) :
  regroup raw acc = Ok d -> d = [] -> raw = [] /\ acc = [].
Proof.
  revert acc. induction raw as [|x raw IH]; intros acc H Hd; simpl in H.
  - inversion H; subst. auto.
  - destruct x as [e loc|]; [|discriminate].
    destruct (is_PydanticValueError e); simpl in H; [|discriminate].
    destruct loc as [|f [|]]; try discriminate.
    destruct (IH _ H Hd) as [_ Hacc].
    now apply setdefault_append_nonempty in Hacc.
Qed.

(** [is_valid] and [errors] on a form whose validation failure, where there
    is one, lists a violation. *)
Lemma is_valid_errors_of_listed_failure (cfg : Config) (s : FormInst) :
  failure_lists_violation cfg s = true ->
  (fst (is_valid cfg s) = Ok true <-> empty_or_absent (fst (errors cfg s))) /\
  (empty_or_absent (fst (errors cfg s)) -> fst (errors cfg s) = Ok None) /\
  ~ (fst (is_valid cfg s) = Ok true /\
     exists d, fst (errors cfg s) = Ok (Some d) /\ d <> []) /\
  ~ (fst (is_valid cfg s) = Ok false /\ empty_or_absent (fst (errors cfg s))).
Proof.
  unfold failure_lists_violation, empty_or_absent.
  rewrite errors_unfold, is_valid_unfold.
  destruct (clean cfg s) as [[[]|e] s'] eqn:Hc; simpl; intros Hl.
  - split; [split; auto|]. split; [auto|]. split.
    + intros [_ (d & Hd & _)]. discriminate.
    + intros [H _]. discriminate.
  - assert (Hnone : forall r : Result (option ErrorType),
              r = fst (match e with
                       | ValidationError raw =>
                           (match regroup raw [] with
                            | Ok d => Ok (Some d)
                            | Raise x => Raise x
                            end, s')
                       | _ => (Raise e, s')
                       end) ->
              ~ (r = Ok None \/ r = Ok (Some []))).
    { intros r -> [H|H]; destruct e as [raw| | | | | | |]; simpl in H;
        try discriminate;
        destruct (regroup raw []) as [d|x] eqn:Hr; try discriminate.
      inversion H; subst d.
      destruct (regroup_empty raw [] [] Hr eq_refl) as [-> _].
      discriminate. }
    specialize (Hnone _ eq_refl).
    split; [|split; [|split]].
    + split; [|tauto]. destruct e; discriminate.
    + tauto.
    + intros [H _]. destruct e; discriminate.
    + tauto.
Qed.

(** The failure a form stores is the one its model class raised. *)
Lemma listed_clean (cfg : Config) (s : FormInst) :
  lists_violation (model cfg) ->
  stored_failure_listed s -> stored_failure_listed (snd (clean cfg s)).
Proof.
  unfold stored_failure_listed. intros Hm H. rewrite clean_unfold.
  destruct (_error s) eqn:He; [simpl; congruence|].
  destruct (_model s); [simpl; congruence|].
  cbn zeta.
  destruct (model_call (model cfg) (get_model_data s)) as [m|[]] eqn:Hcall;
    simpl; try congruence.
  intros Heq. inversion Heq; subst. now apply (Hm _ _ Hcall).
Qed.

Lemma listed_same_outcome (s s' : FormInst) :
  same_outcome s s' -> stored_failure_listed s -> stored_failure_listed s'.
Proof.
  unfold stored_failure_listed. intros (He & _) H. now rewrite He.
Qed.

Lemma listed_bind_field (cfg : Config) (how : CallPattern) (name : string)
    (s : FormInst) :
  lists_violation (model cfg) ->
  stored_failure_listed s ->
  stored_failure_listed (snd (bind_field_call cfg how name s)).
Proof.
  intros Hm H. pose proof (listed_clean cfg s Hm H) as Hc.
  rewrite bind_field_call_unfold.
  destruct (cache_get _ (bind_field_cache s)); [exact H|].
  destruct (clean cfg s) as [[[]|e] s1]; simpl in *; [|exact Hc].
  destruct (dict_get name (__fields__ (model cfg))); exact Hc.
Qed.

Lemma listed_run_op (cfg : Config) (op : Op) (s : FormInst) :
  lists_violation (model cfg) ->
  stored_failure_listed s -> stored_failure_listed (run_op cfg op s).
Proof.
  intros Hm H. pose proof (listed_clean cfg s Hm H) as Hc.
  destruct op; simpl.
  - exact Hc.
  - now rewrite data_state.
  - now rewrite errors_state.
  - now rewrite is_valid_state.
  - unfold value_of. st_unfold. destruct (dict_get field0 _); exact H.
  - now apply listed_bind_field.
  - exact (listed_same_outcome _ _ (widget_same_outcome cfg r s) H).
  - unfold BoundField_render_widget. st_unfold.
    pose proof (widget_same_outcome cfg r s) as Hw.
    destruct (BoundField_widget cfg r s) as [[w|e] s']; simpl in *;
      exact (listed_same_outcome _ _ Hw H).
  - destruct (_data s); exact H.
  - now apply listed_bind_field.
Qed.

Lemma reachable_listed (cfg : Config) (s : FormInst) :
  lists_violation (model cfg) ->
  Reachable cfg s -> stored_failure_listed s.
Proof.
  intros Hm (d & i & s0 & ops & Hinit & ->).
  assert (H0 : stored_failure_listed s0).
  { unfold stored_failure_listed, __init__ in *.
    destruct i as [x|]; simpl in Hinit.
    - destruct (model_isinstance (model cfg) x); simpl in Hinit;
        inversion Hinit; subst; simpl; discriminate.
    - inversion Hinit; subst; simpl; discriminate. }
  clear Hinit. unfold run_ops. revert s0 H0.
  induction ops as [|op ops IH]; intros s0 H0; simpl; [exact H0|].
  apply IH. now apply listed_run_op.
Qed.

(** C4.  For every form a program can hold, pydantic raising a
    [ValidationError] for a list of errors that is not empty: [is_valid]
    returns true exactly when [errors] returns nothing or an empty mapping,
    and then [errors] returns [None]; [is_valid] is never true while
    [errors] returns a mapping that is not empty, and never false while
    [errors] returns nothing or an empty mapping. *)
Theorem is_valid_iff_no_errors (cfg : Config) (s : FormInst) :
  lists_violation (model cfg) ->
  Reachable cfg s ->
  (fst (is_valid cfg s) = Ok true <-> empty_or_absent (fst (errors cfg s))) /\
  (empty_or_absent (fst (errors cfg s)) -> fst (errors cfg s) = Ok None) /\
  ~ (fst (is_valid cfg s) = Ok true /\
     exists d, fst (errors cfg s) = Ok (Some d) /\ d <> []) /\
  ~ (fst (is_valid cfg s) = Ok false /\ empty_or_absent (fst (errors cfg s))).
Proof.
  intros Hm Hreach.
  apply is_valid_errors_of_listed_failure.
  pose proof (listed_clean cfg s Hm (reachable_listed cfg s Hm Hreach)) as Hl.
  unfold failure_lists_violation, stored_failure_listed in *.
  destruct (clean cfg s) as [[[]|e] s'] eqn:Hc; simpl in *; [reflexivity|].
  destruct e as [raw| | | | | | |]; try reflexivity.
  destruct raw; [|reflexivity].
  apply clean_raises_stored in Hc. congruence.
Qed.

(** The model class of the example raises a failure for the errors it has
    collected. *)
Lemma Person_lists_violation : lists_violation Person.
Proof.
  intros d raw. simpl. unfold Person_call, collect. simpl.
  destruct (validate_name d), (validate_age d), (validate_active d); simpl;
    intros H; inversion H; discriminate.
Qed.

(** The person aged 200 and the person aged 30. *)
Lemma is_valid_iff_no_errors_witness :
  let cfg := PersonForm_config in
  (fst (is_valid cfg (form_of cfg old_person)) = Ok false /\
   ~ empty_or_absent (fst (errors cfg (form_of cfg old_person)))) /\
  (fst (is_valid cfg (form_of cfg valid_person)) = Ok true /\
   fst (errors cfg (form_of cfg valid_person)) = Ok None).
Proof.
  intros cfg.
  assert (Hreach : forall d, Reachable cfg (form_of cfg d)).
  { intros d. exists (Some d), None, (form_of cfg d), [].
    split; reflexivity. }
  split.
  - destruct (is_valid_iff_no_errors cfg (form_of cfg old_person)
                Person_lists_violation (Hreach old_person))
      as (_ & _ & _ & Hnever).
    split; [reflexivity|].
    intros H. apply Hnever. split; [reflexivity|exact H].
  - destruct (is_valid_iff_no_errors cfg (form_of cfg valid_person)
                Person_lists_violation (Hreach valid_person))
      as (Hiff & Hnone & _).
    split; [reflexivity|].
    apply Hnone, Hiff. reflexivity.
Defined.





(** C5.  The form of a person whose age is the string [abc], no number:
    validation fails with a type error at [age], and [errors], which is to
    return the mapping of the violations, raises the [AssertionError] of its
    own assertion on the kind of the error. *)
Lemma errors_raises_on_type_error :
  let cfg := PersonForm_config in
  let s := form_of cfg odd_person in
  fst (clean cfg s) =
    Raise (ValidationError
             [ErrorWrapper (PydanticTypeError "type_error.integer") ["age"]]) /\
  fst (errors cfg s) = Raise AssertionError /\
  ~ (exists d, fst (errors cfg s) = Ok d).
Proof.
  cbv zeta. split; [reflexivity|]. split; [reflexivity|].
  intros [d H]. discriminate.
Qed.

(* ================================================================== *)
(** ** The constructor and [value_of] *)
(* ================================================================== *)

Lemma filter_snoc_false {A} (p : A -> bool) (l : list A) (x : A) :
  p x = false -> filter p (l ++ [x]) = filter p l.
Proof.
  intros H. rewrite filter_app. simpl. rewrite H. apply app_nil_r.
Qed.

(** [clean] leaves the initial value and the record of its check alone. *)
Lemma clean_initial (cfg : Config) (s : FormInst) :
  _initial (snd (clean cfg s)) = _initial s /\
  initial_checks (snd (clean cfg s)) = initial_checks s.
Proof.
  rewrite clean_unfold. unfold initial_checks.
  destruct (_error s); [now split|].
  destruct (_model s); [now split|].
  cbn zeta. destruct (model_call _ _) as [m|[]]; simpl;
    now rewrite filter_snoc_false.
Qed.

Lemma run_op_initial (cfg : Config) (op : Op) (s : FormInst) :
  _initial (run_op cfg op s) = _initial s /\
  initial_checks (run_op cfg op s) = initial_checks s.
Proof.
  pose proof (clean_initial cfg s) as Hc.
  destruct op; simpl.
  - exact Hc.
  - now rewrite data_state.
  - now rewrite errors_state.
  - now rewrite is_valid_state.
  - unfold value_of. st_unfold. destruct (dict_get field0 _); now split.
  - rewrite bind_field_unfold.
    destruct (cache_get _ (bind_field_cache s)); [now split|].
    destruct (clean cfg s) as [[[]|e] s1]; simpl in *; [|exact Hc].
    destruct (dict_get name (__fields__ (model cfg))); exact Hc.
  - destruct (widget_state cfg r s) as [->|(w & bf & _ & _ & _ & ->)];
      now split.
  - unfold BoundField_render_widget. st_unfold.
    destruct (widget_state cfg r s) as [Hs|(w & bf & _ & _ & _ & Hs)];
      destruct (BoundField_widget cfg r s) as [[w'|e] s']; simpl in *;
      subst s'; now split.
  - destruct (_data s); now split.
  - rewrite bind_field_call_unfold.
    destruct (cache_get _ (bind_field_cache s)); [now split|].
    destruct (clean cfg s) as [[[]|e] s1]; simpl in *; [|exact Hc].
    destruct (dict_get name (__fields__ (model cfg))); exact Hc.
Qed.

Lemma run_ops_initial (cfg : Config) (ops : list Op) (s : FormInst) :
  _initial (run_ops cfg ops s) = _initial s /\
  initial_checks (run_ops cfg ops s) = initial_checks s.
Proof.
  unfold run_ops. revert s.
  induction ops as [|op ops IH]; intros s; simpl; [now split|].
  destruct (IH (run_op cfg op s)) as [-> ->]. apply run_op_initial.
Qed.

(** C9.  [__init__] raises [ValueError] for an initial value that is no
    instance of the model class, so that no form exists for it.  A form that
    [__init__] did build has made the check once when an initial value was
    given (and found an instance), has validated nothing yet, and no
    operation on it checks again; every form a program can hold has an
    initial value that is an instance of the model class, or none. *)
Theorem init_checks_initial_once (cfg : Config) :
  (forall d x,
     model_isinstance (model cfg) x = false ->
     __init__ cfg d (Some x) =
     Raise (ValueError "Initial must be of type Config.model")) /\
  (forall d i s,
     __init__ cfg d i = Ok s ->
     _initial s = i /\
     initial_checks s =
       match i with Some x => [CallIsinstance x] | None => [] end /\
     memo s = Unbound /\ validations s = [] /\
     forall ops, initial_checks (run_ops cfg ops s) = initial_checks s) /\
  (forall s x,
     Reachable cfg s -> _initial s = Some x ->
     model_isinstance (model cfg) x = true).
Proof.
  assert (Hinit : forall d i s,
    __init__ cfg d i = Ok s ->
    _initial s = i /\
    initial_checks s =
      match i with Some x => [CallIsinstance x] | None => [] end /\
    memo s = Unbound /\ validations s = [] /\
    forall x, i = Some x -> model_isinstance (model cfg) x = true).
  { intros d i s H. unfold __init__ in H.
    destruct i as [x|]; simpl in H.
    - destruct (model_isinstance (model cfg) x) eqn:Hx; simpl in H;
        [|discriminate].
      inversion H; subst. repeat split. intros y Hy. congruence.
    - inversion H; subst. repeat split. discriminate. }
  split; [|split].
  - intros d x Hx. unfold __init__. simpl. now rewrite Hx.
  - intros d i s H. destruct (Hinit d i s H) as (H1 & H2 & H3 & H4 & _).
    repeat (split; [assumption|]).
    intros ops. apply run_ops_initial.
  - intros s x (d & i & s0 & ops & H0 & ->) Hx.
    destruct (run_ops_initial cfg ops s0) as [Hi _]. rewrite Hi in Hx.
    destruct (Hinit d i s0 H0) as (H1 & _ & _ & _ & H5).
    apply H5. congruence.
Qed.

(** An instance of another class as the initial value of a person form. *)
Lemma init_checks_initial_once_witness :
  __init__ PersonForm_config (Some valid_person)
    (Some (Build_Inst "Hollow" [])) =
  Raise (ValueError "Initial must be of type Config.model").
Proof.
  apply (proj1 (init_checks_initial_once PersonForm_config)).
  reflexivity.
Defined.

(** C10.  [value_of], and with it the value of a bound field, is the
    declared default of a declared field that the data of the form does not
    hold; and a form just built holds no value for a field that neither the
    raw data nor the initial value has. *)
Theorem value_of_absent_is_default (cfg : Config) :
  (forall s f,
     dict_get (field_name f) (__fields__ (model cfg)) = Some f ->
     dict_get (field_name f) (_model_data s) = None ->
     value_of cfg (field_name f) s = (Ok (field_default f), s) /\
     BoundField_value cfg f s = (Ok (field_default f), s)) /\
  (forall d i s name,
     __init__ cfg d i = Ok s ->
     match d with Some raw => dict_get name raw | None => None end = None ->
     match i with Some x => dict_get name (inst_dict x) | None => None end
       = None ->
     _model s = None /\ dict_get name (_model_data s) = None).
Proof.
  split.
  - intros s f Hf Hd. unfold BoundField_value, value_of. st_unfold.
    now rewrite Hf, Hd.
  - intros d i s name H Hd Hi.
    assert (Hs : s = set_model_data
                       (get_model_data (Build_FormInst d None None i [] [] []
                          (match i with
                           | Some x => [CallIsinstance x]
                           | None => []
                           end)))
                       (Build_FormInst d None None i [] [] []
                          (match i with
                           | Some x => [CallIsinstance x]
                           | None => []
                           end))).
    { unfold __init__ in H. destruct i as [x|]; simpl in H.
      - destruct (model_isinstance (model cfg) x); simpl in H;
          [|discriminate].
        now inversion H.
      - now inversion H. }
    subst s. simpl. split; [reflexivity|].
    unfold get_model_data. simpl.
    destruct d as [raw|], i as [x|]; simpl;
      repeat (rewrite dict_get_update_absent by assumption); reflexivity.
Qed.

(** A person form without data: [active] is its default, [False]. *)
Lemma value_of_absent_is_default_witness :
  value_of PersonForm_config "active" (form_of PersonForm_config []) =
  (Ok (VBool false), form_of PersonForm_config []).
Proof.
  apply (proj1 (proj1 (value_of_absent_is_default PersonForm_config)
                  (form_of PersonForm_config []) Person_active
                  eq_refl eq_refl)).
Defined.

(* ================================================================== *)
(** ** The class of a widget and the display of dates *)
(* ================================================================== *)

(** A class that derives from [bool] derives from [int]. *)
Lemma bool_derives_from_int (t : PyType) :
  existsb (builtin_eqb Bbool) (ancestors t) = true ->
  existsb (builtin_eqb Bint) (ancestors t) = true.
Proof.
  induction t; simpl; try discriminate; auto.
Qed.

(** C2.  [widget_class] returns the class the configuration names for the
    field when it names one, whatever the type of the field; without one the
    result depends on the type alone, and the test for [bool] is made before
    the test for [int] and [float], which a [bool] field would pass too: a
    [bool] field gets a checkbox and never a number widget.  A field that is
    an [int] and no [bool] gets a number widget, and a checkbox when the
    configuration says so. *)
Theorem widget_class_override_then_type (cfg : Config) (f : ModelField) :
  (forall override,
     dict_get (field_name f) (widget_classes cfg) = Some override ->
     widget_class cfg f = Ok override) /\
  (dict_get (field_name f) (widget_classes cfg) = None ->
   (forall cfg' f',
      dict_get (field_name f') (widget_classes cfg') = None ->
      field_type_ f' = field_type_ f ->
      widget_class cfg' f' = widget_class cfg f) /\
   (issubclass (field_type_ f) [Bbool] = Ok true ->
    issubclass (field_type_ f) [Bint; Bfloat] = Ok true /\
    widget_class cfg f = Ok Checkbox /\
    widget_class cfg f <> Ok Number) /\
   (issubclass (field_type_ f) [Bbool] = Ok false ->
    issubclass (field_type_ f) [Bint; Bfloat] = Ok true ->
    widget_class cfg f = Ok Number)) /\
  (dict_get (field_name f) (widget_classes cfg) = Some Checkbox ->
   issubclass (field_type_ f) [Bint] = Ok true ->
   widget_class cfg f = Ok Checkbox).
Proof.
  split; [|split].
  - intros override H. unfold widget_class. now rewrite H.
  - intros Hnone. split; [|split].
    + intros cfg' f' Hnone' Ht. unfold widget_class.
      now rewrite Hnone, Hnone', Ht.
    + intros Hb. unfold widget_class. rewrite Hnone, Hb.
      split; [|split; [reflexivity|discriminate]].
      unfold issubclass in *.
      destruct (is_class (field_type_ f)); [|discriminate].
      simpl in *. rewrite orb_false_r in *.
      assert (Hb' : existsb (builtin_eqb Bbool) (ancestors (field_type_ f))
                    = true) by congruence.
      now rewrite (bool_derives_from_int _ Hb').
    + intros Hb Hn. unfold widget_class. now rewrite Hnone, Hb, Hn.
  - intros H _. unfold widget_class. now rewrite H.
Qed.

(** The fields of the example: [active] is a [bool] and gets a checkbox,
    [age] is an [int] and gets a checkbox when the configuration says so. *)
Lemma widget_class_override_then_type_witness :
  widget_class PersonForm_config Person_active = Ok Checkbox /\
  widget_class (Build_Config Person "" StringRenderer [("age", Checkbox)] [])
    Person_age = Ok Checkbox.
Proof.
  split.
  - apply (proj2 (proj1 (proj2 (widget_class_override_then_type
                                   PersonForm_config Person_active))
                    eq_refl)).
    reflexivity.
  - apply (proj2 (proj2 (widget_class_override_then_type
             (Build_Config Person "" StringRenderer [("age", Checkbox)] [])
             Person_age)));
      reflexivity.
Defined.

(** [StrftimeMixin.format_value] passes the builtin [format] to [strftime],
    which takes a string: for a date widget, a time widget or a datetime
    widget, and any value but [None], the call raises and no text is
    returned, neither by [attrs] nor by the renderer. *)
Theorem format_value_strftime_raises (w : WidgetInst) :
  widget_cls w = Date \/ widget_cls w = Time \/ widget_cls w = DateTime ->
  (forall value,
     is_None value = false -> exists e, format_value w value = Raise e) /\
  (is_None (widget_field w "value") = false ->
   exists e, attrs w = Raise e /\ render_widget StringRenderer w = Raise e).
Proof.
  intros Hc.
  assert (H : exists e,
            strftime (widget_field w "value") (VBuiltin "format") = Raise e).
  { unfold strftime. destruct (moment_of _); eauto. }
  destruct H as [e He].
  assert (Hf : forall value,
            is_None value = false -> format_value w value = Raise e).
  { intros value Hv. unfold format_value.
    destruct Hc as [->|[->| ->]]; now rewrite Hv, He. }
  split.
  - intros value Hv. exists e. now apply Hf.
  - intros Hv. exists e.
    assert (Ha : attrs w = Raise e).
    { unfold attrs, Widget_attrs. rewrite (Hf _ Hv).
      destruct Hc as [->|[->| ->]]; reflexivity. }
    split; [exact Ha|]. unfold render_widget, render_attrs. now rewrite Ha.
Qed.

(** C3, the code at a date, a time and a datetime (the ninth of March 2024,
    five past two): [format_value] raises [TypeError] for each of the three
    widgets, where the display formats would give [2024-03-09] and
    [14:05:07]; and the format declared for [DateTime] has a brace where the
    colon belongs, so that it would not give the display format of a
    datetime either. *)
Lemma strftime_widgets_raise :
  let date := VDate 2024 3 9 in
  let time := VTime 14 5 7 in
  let datetime := VDateTime 2024 3 9 14 5 7 in
  let widget cls v := Build_WidgetInst cls [("value", v)] in
  format_value (widget Date date) date =
    Raise (TypeError "strftime() argument 1 must be str") /\
  format_value (widget Time time) time =
    Raise (TypeError "strftime() argument 1 must be str") /\
  format_value (widget DateTime datetime) datetime =
    Raise (TypeError "strftime() argument 1 must be str") /\
  strftime date (VStr "%Y-%m-%d") = Ok "2024-03-09" /\
  strftime time (VStr "%H:%M:%S") = Ok "14:05:07" /\
  dict_get "format"
    (map (fun f => (fd_name f, fd_default f)) (model_fields DateTime)) =
    Some (Some (VStr "%Y-%m-%dT%H{%M:%S")) /\
  strftime datetime (VStr "%Y-%m-%dT%H{%M:%S") = Ok "2024-03-09T14{05:07".
Proof. cbv zeta. repeat split. Qed.

(* ================================================================== *)
(** ** The bounds of a number widget *)
(* ================================================================== *)

Lemma dict_get_update_some {V} (k : string) (v : V) (other d : dict V) :
  dict_get k d = Some v -> exists v', dict_get k (dict_update d other) = Some v'.
Proof.
  unfold dict_update. revert d v.
  induction other as [|[k' v'] other IH]; simpl; intros d v H; eauto.
  destruct (String.eqb_spec k k').
  - subst k'. apply (IH _ v'). apply dict_get_set_same.
  - apply (IH _ v). now rewrite dict_get_set_other.
Qed.

Lemma nodupb_sound (l : list string) : nodupb l = true -> NoDup l.
Proof.
  induction l as [|x l IH]; simpl; intros H; constructor.
  - apply andb_true_iff in H. destruct H as [H _].
    apply negb_true_iff in H. intros Hin.
    assert (existsb (String.eqb x) l = true); [|congruence].
    apply existsb_exists. exists x. split; [exact Hin|apply String.eqb_refl].
  - apply IH. apply andb_true_iff in H. tauto.
Qed.

Lemma dict_pop_absent {V} (k : string) (d : dict V) :
  ~ In k (keys d) -> dict_pop k d = d.
Proof.
  induction d as [|[k' v] d IH]; simpl; intros H; [reflexivity|].
  destruct (String.eqb_spec k k').
  - exfalso. apply H. now left.
  - rewrite IH; [reflexivity|]. intros Hin. apply H. now right.
Qed.

(** An attribute that is [None] is rendered as an attribute that is not
    there. *)
Lemma render_items_pop_None (k : string) (a : dict PyVal) :
  NoDup (keys a) -> dict_get k a = Some VNone ->
  render_items a = render_items (dict_pop k a).
Proof.
  induction a as [|[k' v] a IH]; simpl; [discriminate|].
  intros Hnd Hget. inversion Hnd as [|? ? Hnotin Hnd']; subst.
  destruct (String.eqb_spec k k').
  - subst k'. inversion Hget; subst v. unfold render_attr. simpl.
    now rewrite dict_pop_absent.
  - simpl. rewrite (IH Hnd' Hget). reflexivity.
Qed.

(** The cached property on an object whose slot is empty. *)
Lemma widget_fresh (cfg : Config) (f f0 : ModelField) (s : FormInst)
    (r : nat) (cls : WidgetClass) :
  nth_error (bound_fields s) r = Some (Build_BoundField f None) ->
  widget_class cfg f = Ok cls ->
  dict_get (field_name f) (__fields__ (model cfg)) = Some f0 ->
  BoundField_widget cfg r s =
  match widget_new cls
          (kwargs_for cfg f cls
             (match dict_get (field_name f) (_model_data s) with
              | Some v => v
              | None => field_default f0
              end)) with
  | Ok w => (Ok w, store_widget r w s)
  | Raise e => (Raise e, s)
  end.
Proof.
  intros Hobj Hcls Hf.
  unfold BoundField_widget, BoundField_widget_kwargs, BoundField_value,
    value_of, kwargs_for, extra_kwargs.
  st_unfold. rewrite Hobj. simpl. rewrite Hcls. simpl. rewrite Hf.
  destruct (widget_new _ _); reflexivity.
Qed.

(** A key of [d.update(other)] has a value of [other] or the one of [d]. *)
Lemma dict_get_update_inv {V} (k : string) (v : V) (other d : dict V) :
  dict_get k (dict_update d other) = Some v ->
  In (k, v) other \/ dict_get k d = Some v.
Proof.
  unfold dict_update. revert d.
  induction other as [|[k' v'] other IH]; simpl; intros d H; [now right|].
  destruct (IH _ H) as [Hin|Hget]; [left; now right|].
  destruct (String.eqb_spec k k').
  - subst k'. rewrite dict_get_set_same in Hget. inversion Hget; subst.
    left. now left.
  - rewrite dict_get_set_other in Hget by assumption. now right.
Qed.

(** The constructor raises nothing exactly when every field has a value. *)
Lemma populate_valid (fs : list FieldDecl) (kwargs : dict PyVal) :
  (forall f, In f fs -> exists v, validate_field f kwargs = inl v) ->
  snd (populate fs kwargs) = [].
Proof.
  induction fs as [|f fs IH]; simpl; intros H; [reflexivity|].
  destruct (H f (or_introl eq_refl)) as [v Hv]. rewrite Hv. simpl.
  apply IH. intros g Hg. apply H. now right.
Qed.

Lemma populate_values (fs : list FieldDecl) (kwargs : dict PyVal) :
  snd (populate fs kwargs) = [] ->
  fst (populate fs kwargs) =
  map (fun f => (fd_name f, field_value f kwargs)) fs.
Proof.
  induction fs as [|f fs IH]; simpl; [reflexivity|].
  unfold field_value at 1.
  destruct (validate_field f kwargs) as [v|e]; simpl; [|discriminate].
  intros H. now rewrite IH.
Qed.

Lemma widget_new_returns (cls : WidgetClass) (kwargs : dict PyVal)
    (w : WidgetInst) :
  widget_new cls kwargs = Ok w ->
  w = Build_WidgetInst cls
        (map (fun f => (fd_name f, field_value f kwargs)) (model_fields cls)).
Proof.
  unfold widget_new. intros H.
  pose proof (populate_values (model_fields cls) kwargs) as Hv.
  destruct (populate (model_fields cls) kwargs) as [values [|e errors]];
    [|discriminate].
  inversion H; subst. simpl in Hv. now rewrite Hv.
Qed.

Lemma widget_new_valid (cls : WidgetClass) (kwargs : dict PyVal) :
  (forall f, In f (model_fields cls) ->
             exists v, validate_field f kwargs = inl v) ->
  exists w, widget_new cls kwargs = Ok w.
Proof.
  intros H. apply populate_valid in H. unfold widget_new.
  destruct (populate (model_fields cls) kwargs) as [values errors].
  simpl in H. subst errors. eauto.
Qed.

Lemma accepts_field (cls : WidgetClass) (kwargs : dict PyVal)
    (f : FieldDecl) (v : PyVal) :
  accepts cls kwargs = true -> In f (model_fields cls) ->
  In (fd_key f, v) kwargs -> exists v', validate (fd_type f) v = inl v'.
Proof.
  unfold accepts. intros H Hf Hin.
  rewrite forallb_forall in H. specialize (H _ Hin).
  rewrite forallb_forall in H. specialize (H _ Hf). simpl in H.
  rewrite String.eqb_refl in H.
  destruct (validate (fd_type f) v); [eauto|discriminate].
Qed.

(** C7, amended.  The number widget of a bound field.  It is built when the
    extra arguments the configuration gives for the field are values their
    annotations take.  Once it is built: when the configuration gives no
    [min] among the extra arguments of the field, the attribute [min] is the
    lower bound [ge] of the field's type as a string, and [None] when the
    type has no lower bound; likewise [max] and [le].  Both keys are in the
    attribute set either way; an attribute that is [None] is left out when
    the attributes are rendered. *)
Theorem number_widget_bounds (cfg : Config) (f : ModelField) (s : FormInst)
    (r : nat) :
  nth_error (bound_fields s) r = Some (Build_BoundField f None) ->
  widget_class cfg f = Ok Number ->
  dict_contains (field_name f) (__fields__ (model cfg)) = true ->
  (accepts Number (extra_kwargs cfg f) = true ->
   exists w, BoundField_widget cfg r s = (Ok w, store_widget r w s)) /\
  (forall w s1,
     BoundField_widget cfg r s = (Ok w, s1) ->
     s1 = store_widget r w s /\ widget_cls w = Number /\
     exists a,
       attrs w = Ok a /\
       dict_contains "min" a = true /\ dict_contains "max" a = true /\
       (dict_get "min" (extra_kwargs cfg f) = None ->
        dict_get "min" a =
        Some (bound_attr (class_getattr (field_type_ f) "ge"))) /\
       (dict_get "max" (extra_kwargs cfg f) = None ->
        dict_get "max" a =
        Some (bound_attr (class_getattr (field_type_ f) "le"))) /\
       (forall k, dict_get k a = Some VNone ->
                  render_items a = render_items (dict_pop k a))).
Proof.
  intros Hobj Hcls Hdecl.
  unfold dict_contains in Hdecl.
  destruct (dict_get (field_name f) (__fields__ (model cfg))) as [f0|] eqn:Hf;
    [|discriminate].
  rewrite (widget_fresh cfg f f0 s r Number Hobj Hcls Hf).
  set (value := match dict_get (field_name f) (_model_data s) with
                | Some v => v
                | None => field_default f0
                end).
  set (kw := kwargs_for cfg f Number value).
  split.
  - (* the widget is built *)
    intros Hacc.
    destruct (widget_new_valid Number kw) as [w Hw]; [|rewrite Hw; eauto].
    intros fd Hfd. unfold validate_field.
    destruct (dict_get (fd_key fd) kw) as [v|] eqn:Hkw.
    + apply dict_get_update_inv in Hkw.
      destruct Hkw as [Hin|Hbase];
        [destruct (accepts_field _ _ _ _ Hacc Hfd Hin) as [v' Hv'];
         rewrite Hv'; eauto|].
      unfold additional_kwargs in Hbase.
      destruct (is_None (class_getattr (field_type_ f) "ge"));
        destruct (is_None (class_getattr (field_type_ f) "le"));
        simpl in Hfd;
        repeat (destruct Hfd as [<-|Hfd]; [|]);
        try contradiction;
        cbn in Hbase; inversion Hbase; subst; cbn; eauto.
    + destruct (fd_default fd) as [d|] eqn:Hd; [eauto|].
      exfalso. simpl in Hfd.
      repeat (destruct Hfd as [<-|Hfd]; [|]);
        try contradiction; try discriminate.
      destruct (dict_get_update_some "name"
                  (VStr (prefix_name cfg (field_name f)))
                  (extra_kwargs cfg f)
                  (dict_update
                     [("name", VStr (prefix_name cfg (field_name f)));
                      ("id",
                       VStr ("id_" ++ prefix_name cfg (field_name f))%string);
                      ("required", VBool (BoundField_required f));
                      ("value", value)]
                     (additional_kwargs Number f))) as [v' Hv'].
      * unfold additional_kwargs.
        destruct (is_None (class_getattr (field_type_ f) "ge"));
          destruct (is_None (class_getattr (field_type_ f) "le"));
          reflexivity.
      * unfold kw, kwargs_for in Hkw. cbn [fd_key] in Hkw.
        unfold extra_kwargs in *. congruence.
  - (* what it holds once it is built *)
    intros w s1 Hw.
    destruct (widget_new Number kw) as [w0|e] eqn:Hnew;
      inversion Hw; subst w0 s1.
    split; [reflexivity|].
    apply widget_new_returns in Hnew.
    assert (Hbase : forall k,
              dict_get k (extra_kwargs cfg f) = None ->
              dict_get k kw =
              dict_get k
                (dict_update
                   [("name", VStr (prefix_name cfg (field_name f)));
                    ("id",
                     VStr ("id_" ++ prefix_name cfg (field_name f))%string);
                    ("required", VBool (BoundField_required f));
                    ("value", value)]
                   (additional_kwargs Number f))).
    { intros k Hx. unfold kw, kwargs_for.
      now rewrite (dict_get_update_absent _ _ _ Hx). }
    assert (Hmin : dict_get "min" (extra_kwargs cfg f) = None ->
                   field_value (decl "min" FOptionalStr VNone) kw =
                   bound_attr (class_getattr (field_type_ f) "ge")).
    { intros Hx. unfold field_value, validate_field.
      cbn [fd_key fd_type fd_default decl]. rewrite (Hbase _ Hx).
      unfold additional_kwargs, bound_attr.
      destruct (is_None (class_getattr (field_type_ f) "ge"));
        destruct (is_None (class_getattr (field_type_ f) "le"));
        reflexivity. }
    assert (Hmax : dict_get "max" (extra_kwargs cfg f) = None ->
                   field_value (decl "max" FOptionalStr VNone) kw =
                   bound_attr (class_getattr (field_type_ f) "le")).
    { intros Hx. unfold field_value, validate_field.
      cbn [fd_key fd_type fd_default decl]. rewrite (Hbase _ Hx).
      unfold additional_kwargs, bound_attr.
      destruct (is_None (class_getattr (field_type_ f) "ge"));
        destruct (is_None (class_getattr (field_type_ f) "le"));
        reflexivity. }
    clearbody kw. clear Hbase. subst w.
    split; [reflexivity|].
    unfold attrs, Widget_attrs, format_value, widget_field.
    cbn -[field_value dict_update dict_without render_items dict_pop is_None
          py_str dict_get].
    cbn [dict_get String.eqb Ascii.eqb Bool.eqb].
    destruct (is_None (field_value (decl "value" FAny VNone) kw));
      match goal with
      | |- exists a, Ok ?A = Ok a /\ _ => exists A
      end;
      (split; [reflexivity|]);
      (split; [reflexivity|]);
      (split; [reflexivity|]);
      (split; [|split]).
    all: try (intros k; apply render_items_pop_None; apply nodupb_sound;
              reflexivity).
    all: intros Hx; rewrite <- ?(Hmin Hx), <- ?(Hmax Hx); reflexivity.
Qed.

(** The field [age] of the example, with bounds 0 and 120. *)
Lemma number_widget_bounds_witness :
  let cfg := PersonForm_config in
  let s := snd (bind_field cfg "age" (form_of cfg valid_person)) in
  exists w a,
    BoundField_widget cfg 0 s = (Ok w, store_widget 0 w s) /\
    attrs w = Ok a /\
    dict_get "min" a = Some (VStr "0") /\ dict_get "max" a = Some (VStr "120").
Proof.
  intros cfg s.
  destruct (number_widget_bounds cfg Person_age s 0 eq_refl eq_refl eq_refl)
    as [Hbuilt Hholds].
  destruct (Hbuilt eq_refl) as [w Hw].
  destruct (Hholds _ _ Hw) as (_ & _ & a & Ha & _ & _ & Hmin & Hmax & _).
  exists w, a. split; [exact Hw|]. split; [exact Ha|].
  split; [exact (Hmin eq_refl)|exact (Hmax eq_refl)].
Defined.

(** The constructor of a widget validates the extra arguments of the
    configuration: for [age] it raises the errors of [name] and
    [required]; for [name] it reads [required] as [True] and the
    placeholder as a string. *)
Lemma widget_validates_extra_kwargs :
  let cfg := SurveyForm_config in
  let s :=
    run_ops cfg [BindField "age"; BindField "name"]
      (form_of cfg valid_person) in
  BoundField_widget cfg 0 s =
  (Raise (ValidationError
            [ErrorWrapper (PydanticTypeError "type_error.none.not_allowed")
               ["name"];
             ErrorWrapper (PydanticTypeError "type_error.bool")
               ["required"]]), s) /\
  accepts Number (extra_kwargs cfg Person_age) = false /\
  exists w,
    fst (BoundField_widget cfg 1 s) = Ok w /\
    widget_field w "required" = VBool true /\
    widget_field w "placeholder" = VStr "7".
Proof.
  cbv zeta. split; [reflexivity|]. split; [reflexivity|].
  eexists. split; [reflexivity|]. split; reflexivity.
Qed.

(** C7 as stated fails on an integer field without bounds: the attribute
    set of its number widget has the keys [min] and [max], with [None]. *)
Lemma number_widget_without_bounds_has_min :
  let cfg := TallyForm_config in
  let s := snd (bind_field cfg "count" (form_of cfg [("count", VInt 3)])) in
  exists w a,
    fst (BoundField_widget cfg 0 s) = Ok w /\ widget_cls w = Number /\
    attrs w = Ok a /\
    dict_contains "min" a = true /\ dict_contains "max" a = true /\
    dict_get "min" a = Some VNone /\ dict_get "max" a = Some VNone.
Proof.
  cbv zeta. eexists. eexists.
  split; [reflexivity|]. split; [reflexivity|]. split; [reflexivity|].
  repeat split.
Qed.

(* ================================================================== *)
(** ** Inheritance of the configuration *)
(* ================================================================== *)

(** Attribute lookups along a method resolution order that is known. *)
Ltac mro_lookup :=
  unfold config_attr, __config__, getattr, mro_of;
  cbn -[dict_get]; fold Form_Config;
  cbn -[Form_Config];
  repeat match goal with
         | |- context [match dict_get ?k ?d with _ => _ end] =>
             destruct (dict_get k d)
         end;
  reflexivity.

Lemma prefix_name_of (h : Classes) (cls : ClassId) (cfg : Config)
    (name : string) :
  config_of h cls = Some cfg ->
  prefix_name cfg name =
  match config_attr h cls "prefix" with
  | Some (AStr p) => (p ++ name)%string
  | _ => name
  end.
Proof.
  unfold config_of, prefix_name.
  destruct (config_attr h cls "model") as [[]|]; try discriminate.
  destruct (config_attr h cls "prefix") as [[]|]; try discriminate.
  destruct (config_attr h cls "renderer") as [[]|]; try discriminate.
  destruct (config_attr h cls "widget_classes") as [[]|]; try discriminate.
  destruct (config_attr h cls "widget_kwargs") as [[]|]; try discriminate.
  intros H. inversion H; subst. reflexivity.
Qed.

(** C8.  For [class A(Form)] with a [Config] and [class B(A)], with or
    without a [Config] of its own: the classes are created, and every
    attribute of a configuration is looked up on its own, the most derived
    class that sets it winning; [B] reads a key from its own [Config] when
    that sets it, else as [A] does; [A] reads a key from its own [Config]
    when that sets it, else from the [Config] of [Form].  So, with
    [prefix = "a_"] in [A]: the prefix of [B] is that of [A] unless [B]
    sets one, and it is the one [B] sets. *)
Theorem config_inherits_per_key (config_A : dict Attr)
    (config_B : option (dict Attr)) :
  exists A B h,
    two_forms config_A config_B builtins = (Ok (A, B), h) /\
    (forall key,
       config_attr h A key =
       match dict_get key config_A with
       | Some v => Some v
       | None => dict_get key Form_Config
       end) /\
    (forall key,
       config_attr h B key =
       match config_B with
       | Some body =>
           match dict_get key body with
           | Some v => Some v
           | None => config_attr h A key
           end
       | None => config_attr h A key
       end) /\
    (forall cfg name,
       config_of h B = Some cfg ->
       prefix_name cfg name =
       match config_attr h B "prefix" with
       | Some (AStr p) => (p ++ name)%string
       | _ => name
       end).
Proof.
  destruct config_B as [body|];
    (eexists; eexists; eexists; split; [vm_compute; reflexivity|]);
    (split; [intros key; mro_lookup|]);
    (split; [intros key; mro_lookup|]);
    intros cfg name; apply prefix_name_of.
Qed.

(** [A] sets the prefix and the model, [B] sets the prefix only: the prefix
    of [B] is its own, its model is that of [A], its renderer that of
    [Form]; without a [Config] of its own, [B] has the prefix of [A]. *)
Lemma config_inherits_per_key_witness :
  let config_A := [("prefix", AStr "a_"); ("model", AModel Person)] in
  (exists A B h,
     two_forms config_A (Some [("prefix", AStr "b_")]) builtins
       = (Ok (A, B), h) /\
     config_attr h A "prefix" = Some (AStr "a_") /\
     config_attr h B "prefix" = Some (AStr "b_") /\
     config_attr h B "model" = Some (AModel Person) /\
     config_attr h B "renderer" = Some (ARenderer StringRenderer) /\
     forall cfg, config_of h B = Some cfg -> prefix_name cfg "age" = "b_age") /\
  (exists A B h,
     two_forms config_A None builtins = (Ok (A, B), h) /\
     config_attr h B "prefix" = Some (AStr "a_") /\
     forall cfg, config_of h B = Some cfg -> prefix_name cfg "age" = "a_age").
Proof.
  intros config_A. split.
  - destruct (config_inherits_per_key config_A (Some [("prefix", AStr "b_")]))
      as (A & B & h & Hrun & HA & HB & Hp).
    exists A, B, h. split; [exact Hrun|].
    split; [now rewrite HA|]. split; [now rewrite HB|].
    split; [now rewrite HB, HA|]. split; [now rewrite HB, HA|].
    intros cfg Hcfg. now rewrite (Hp cfg "age" Hcfg), HB.
  - destruct (config_inherits_per_key config_A None)
      as (A & B & h & Hrun & HA & HB & Hp).
    exists A, B, h. split; [exact Hrun|]. split; [now rewrite HB, HA|].
    intros cfg Hcfg. now rewrite (Hp cfg "age" Hcfg), HB, HA.
Defined.

(* ================================================================== *)
(** ** The data of a form before and after validation *)
(* ================================================================== *)

Lemma dict_get_absent {V} (k : string) (d : dict V) :
  ~ In k (keys d) -> dict_get k d = None.
Proof.
  induction d as [|[k' v] d IH]; simpl; intros H; [reflexivity|].
  destruct (String.eqb_spec k k').
  - exfalso. apply H. now left.
  - apply IH. intros Hin. apply H. now right.
Qed.

(** [d.update(other)]: a key of [other] takes the value [other] gives it,
    any other key keeps its own. *)
Lemma dict_get_update {V} (k : string) (other d : dict V) :
  NoDup (keys other) ->
  dict_get k (dict_update d other) =
  match dict_get k other with
  | Some v => Some v
  | None => dict_get k d
  end.
Proof.
  unfold dict_update. revert d.
  induction other as [|[k' v'] other IH]; simpl; intros d Hnd; [reflexivity|].
  inversion Hnd as [|? ? Hnotin Hnd']; subst.
  rewrite (IH _ Hnd').
  destruct (String.eqb_spec k k').
  - subst k'. rewrite (dict_get_absent _ _ Hnotin). apply dict_get_set_same.
  - destruct (dict_get k other); [reflexivity|].
    now apply dict_get_set_other.
Qed.

(** The state [__init__] builds. *)
Lemma init_state (cfg : Config) (d : option DataType) (i : option Inst)
    (s : FormInst) :
  __init__ cfg d i = Ok s ->
  _data s = d /\ _initial s = i /\ _model s = None /\ _error s = None /\
  _model_data s = get_model_data s.
Proof.
  unfold __init__. intros H.
  destruct i as [x|]; simpl in H.
  - destruct (model_isinstance (model cfg) x); simpl in H; [|discriminate].
    inversion H; subst. simpl. repeat split.
  - inversion H; subst. simpl. repeat split.
Qed.

(** X1.  On a form just built, the value of a declared field is the raw
    input for it when there is one, else the value the initial instance has
    for it, else the declared default. *)
Theorem value_of_raw_then_initial (cfg : Config) (d : option DataType)
    (i : option Inst) (s : FormInst) (f : ModelField) :
  __init__ cfg d i = Ok s ->
  well_formed d -> well_formed (option_map inst_dict i) ->
  dict_get (field_name f) (__fields__ (model cfg)) = Some f ->
  value_of cfg (field_name f) s =
  (Ok match get_opt (field_name f) d with
      | Some v => v
      | None =>
          match get_opt (field_name f) (option_map inst_dict i) with
          | Some v => v
          | None => field_default f
          end
      end, s).
Proof.
  intros Hinit Hd Hi Hf.
  destruct (init_state cfg d i s Hinit) as (H1 & H2 & H3 & _ & H5).
  unfold value_of. st_unfold. rewrite Hf, H5.
  unfold get_model_data. rewrite H3, H2, H1.
  destruct d as [raw|], i as [x|]; simpl in *;
    repeat rewrite dict_get_update by assumption; simpl;
    repeat match goal with
           | |- context [match dict_get ?k ?m with _ => _ end] =>
               destruct (dict_get k m)
           end; reflexivity.
Qed.

(** A person form with an initial instance and raw data for the name
    only: the name is the raw one, the age the initial one. *)
Lemma value_of_raw_then_initial_witness :
  let cfg := PersonForm_config in
  let initial := Build_Inst "Person" valid_person in
  let raw := [("name", VStr "Bo")] in
  exists s,
    __init__ cfg (Some raw) (Some initial) = Ok s /\
    value_of cfg "name" s = (Ok (VStr "Bo"), s) /\
    value_of cfg "age" s = (Ok (VInt 30), s).
Proof.
  intros cfg initial raw. eexists. split; [reflexivity|].
  assert (Hraw : well_formed (Some raw)) by (apply nodupb_sound; reflexivity).
  assert (Hini : well_formed (option_map inst_dict (Some initial)))
    by (apply nodupb_sound; reflexivity).
  split.
  - exact (value_of_raw_then_initial cfg (Some raw) (Some initial) _
             Person_name eq_refl Hraw Hini eq_refl).
  - exact (value_of_raw_then_initial cfg (Some raw) (Some initial) _
             Person_age eq_refl Hraw Hini eq_refl).
Defined.

Lemma snapshot_clean (cfg : Config) (s : FormInst) :
  Snapshot s -> Snapshot (snd (clean cfg s)).
Proof.
  unfold Snapshot. intros H. rewrite clean_unfold.
  destruct (_error s); [exact H|].
  destruct (_model s) eqn:Hm; [simpl; now rewrite Hm|].
  cbn zeta. destruct (model_call _ _) as [m|[]]; simpl; intros m' Hm';
    try rewrite Hm in Hm'; try discriminate.
  now inversion Hm'.
Qed.

Lemma snapshot_same_outcome (s s' : FormInst) :
  same_outcome s s' -> Snapshot s -> Snapshot s'.
Proof.
  unfold Snapshot. intros (_ & Hm & Hd & _) H m. rewrite Hm, Hd. apply H.
Qed.

Lemma snapshot_run_op (cfg : Config) (op : Op) (s : FormInst) :
  Snapshot s -> Snapshot (run_op cfg op s).
Proof.
  intros H. pose proof (snapshot_clean cfg s H) as Hc.
  destruct op; simpl.
  - exact Hc.
  - now rewrite data_state.
  - now rewrite errors_state.
  - now rewrite is_valid_state.
  - unfold value_of. st_unfold. destruct (dict_get field0 _); exact H.
  - rewrite bind_field_unfold.
    destruct (cache_get _ (bind_field_cache s)); [exact H|].
    destruct (clean cfg s) as [[[]|e] s1]; simpl in *; [|exact Hc].
    destruct (dict_get name (__fields__ (model cfg))); exact Hc.
  - exact (snapshot_same_outcome _ _ (widget_same_outcome cfg r s) H).
  - unfold BoundField_render_widget. st_unfold.
    pose proof (widget_same_outcome cfg r s) as Hw.
    destruct (BoundField_widget cfg r s) as [[w|e] s']; simpl in *;
      exact (snapshot_same_outcome _ _ Hw H).
  - destruct (_data s); exact H.
  - rewrite bind_field_call_unfold.
    destruct (cache_get _ (bind_field_cache s)); [exact H|].
    destruct (clean cfg s) as [[[]|e] s1]; simpl in *; [|exact Hc].
    destruct (dict_get name (__fields__ (model cfg))); exact Hc.
Qed.

Lemma reachable_snapshot (cfg : Config) (s : FormInst) :
  Reachable cfg s -> Snapshot s.
Proof.
  intros (d & i & s0 & ops & Hinit & ->).
  assert (H0 : Snapshot s0).
  { destruct (init_state cfg d i s0 Hinit) as (_ & _ & Hm & _).
    intros m Hm'. congruence. }
  clear Hinit. unfold run_ops. revert s0 H0.
  induction ops as [|op ops IH]; intros s0 H0; simpl; [exact H0|].
  apply IH. now apply snapshot_run_op.
Qed.

(** A call of [clean] that returns leaves a model and no error. *)
Lemma clean_returns_model (cfg : Config) (s s' : FormInst) :
  clean cfg s = (Ok tt, s') ->
  exists m, _model s' = Some m /\ _error s' = None.
Proof.
  rewrite clean_unfold.
  destruct (_error s) eqn:He; [discriminate|].
  destruct (_model s) as [m|] eqn:Hm.
  - intros H. inversion H; subst. eauto.
  - cbn zeta. destruct (model_call _ _) as [m|[]]; try discriminate.
    intros H. inversion H; subst. simpl. eauto.
Qed.

(** X2.  Once validation has succeeded, [data] returns the validated
    instance and the value of every declared field is the one the instance
    has for it (the default, should it have none), whatever is done with the
    form afterwards, changes of the raw data included. *)
Theorem value_of_reads_validated_model (cfg : Config) (s s' : FormInst) :
  Reachable cfg s ->
  clean cfg s = (Ok tt, s') ->
  exists m,
    _model s' = Some m /\
    forall ops,
      let s2 := run_ops cfg ops s' in
      data cfg s2 = (Ok (Some m), s2) /\
      forall f,
        dict_get (field_name f) (__fields__ (model cfg)) = Some f ->
        value_of cfg (field_name f) s2 =
        (Ok match dict_get (field_name f) (inst_dict m) with
            | Some v => v
            | None => field_default f
            end, s2).
Proof.
  intros Hreach Hclean.
  destruct (clean_returns_model cfg s s' Hclean) as (m & Hm & He).
  exists m. split; [exact Hm|]. intros ops s2.
  assert (Hsnap : Snapshot s').
  { replace s' with (snd (clean cfg s)) by now rewrite Hclean.
    apply snapshot_clean. now apply (reachable_snapshot cfg). }
  assert (Hres : memo s' <> Unbound)
    by (unfold memo; rewrite He, Hm; discriminate).
  pose proof (run_ops_resolved cfg ops s' Hres) as Hsame. fold s2 in Hsame.
  assert (Hres2 : memo s2 <> Unbound)
    by now rewrite (same_outcome_memo _ _ Hsame).
  destruct Hsame as (He2 & Hm2 & Hd2 & _).
  split.
  - destruct (resolved_results cfg s2 Hres2) as (Hd & _).
    rewrite Hd, He2, He, Hm2, Hm. reflexivity.
  - intros f Hf. unfold value_of. st_unfold.
    now rewrite Hf, Hd2, (Hsnap m Hm).
Qed.

(** A person whose age comes as the string [30]: after validation the age
    is the number, also when the raw data has been changed. *)
Lemma value_of_reads_validated_model_witness :
  let cfg := PersonForm_config in
  let s := form_of cfg [("name", VStr "Al"); ("age", VStr "30")] in
  let s2 := run_ops cfg [Clean; Mutate old_person; IsValid] s in
  value_of cfg "age" s = (Ok (VStr "30"), s) /\
  value_of cfg "age" s2 = (Ok (VInt 30), s2) /\
  value_of cfg "active" s2 = (Ok (VBool false), s2).
Proof.
  intros cfg s s2. split; [reflexivity|].
  assert (Hreach : Reachable cfg s).
  { exists (Some [("name", VStr "Al"); ("age", VStr "30")]), None, s, [].
    split; reflexivity. }
  assert (Hclean : clean cfg s = (Ok tt, snd (clean cfg s))) by reflexivity.
  destruct (value_of_reads_validated_model cfg s _ Hreach Hclean)
    as (m & Hm & H).
  assert (Em : m = Build_Inst "Person"
                     [("name", VStr "Al"); ("age", VInt 30);
                      ("active", VBool false)])
    by (vm_compute in Hm; congruence).
  destruct (H [Mutate old_person; IsValid]) as [_ Hv].
  split.
  - pose proof (Hv Person_age eq_refl) as Ha. rewrite Em in Ha. exact Ha.
  - pose proof (Hv Person_active eq_refl) as Ha. rewrite Em in Ha. exact Ha.
Defined.

(** X3.  A failure of the model class that is no validation failure is not
    stored: the memo stays unbound, and every later [clean] calls the model
    class again with the same data and raises the failure again. *)
Theorem clean_retries_other_errors (cfg : Config) (s : FormInst) (e : Exn) :
  memo s = Unbound ->
  model_call (model cfg) (get_model_data s) = Raise e ->
  is_ValidationError e = false ->
  forall n,
    let s' := run_ops cfg (repeat Clean n) s in
    memo s' = Unbound /\
    fst (clean cfg s') = Raise e /\
    fst (is_valid cfg s') = Raise e /\
    validations s' = validations s ++ repeat (CallModel (get_model_data s)) n.
Proof.
  intros Hmemo Hcall He n. cbn zeta.
  assert (Hstep : forall t,
    memo t = Unbound -> get_model_data t = get_model_data s ->
    clean cfg t = (Raise e, record_call (CallModel (get_model_data s)) t)).
  { intros t Ht Hd. rewrite clean_unfold. unfold memo in Ht.
    destruct (_error t); [discriminate|].
    destruct (_model t); [discriminate|].
    cbn zeta. rewrite Hd, Hcall. destruct e; try reflexivity. discriminate. }
  assert (Hgen : forall t,
    memo t = Unbound -> get_model_data t = get_model_data s ->
    memo (run_ops cfg (repeat Clean n) t) = Unbound /\
    get_model_data (run_ops cfg (repeat Clean n) t) = get_model_data s /\
    validations (run_ops cfg (repeat Clean n) t) =
    validations t ++ repeat (CallModel (get_model_data s)) n).
  { induction n as [|n IH]; intros t Ht Hd; simpl.
    - now rewrite app_nil_r.
    - unfold run_ops in *. simpl. rewrite (Hstep t Ht Hd). simpl.
      destruct (IH (record_call (CallModel (get_model_data s)) t))
        as (H1 & H2 & H3).
      + exact Ht.
      + exact Hd.
      + split; [exact H1|]. split; [exact H2|].
        rewrite H3. unfold validations. simpl.
        rewrite filter_app. simpl. now rewrite <- app_assoc. }
  destruct (Hgen s Hmemo eq_refl) as (H1 & H2 & H3).
  split; [exact H1|].
  pose proof (Hstep _ H1 H2) as Hc.
  split; [now rewrite Hc|]. split; [|exact H3].
  rewrite is_valid_unfold, Hc. destruct e; try reflexivity. discriminate.
Qed.

(** The form of a model class that raises [RuntimeError]. *)
Lemma clean_retries_other_errors_witness :
  let cfg := FaultyForm_config in
  let s := run_ops cfg [Clean; Clean; Clean] (form_of cfg []) in
  memo s = Unbound /\ validations s = [CallModel []; CallModel []; CallModel []].
Proof.
  intros cfg s.
  destruct (clean_retries_other_errors cfg (form_of cfg [])
              (OtherError "RuntimeError") eq_refl eq_refl eq_refl 3)
    as (H1 & _ & _ & H4).
  split; [exact H1|exact H4].
Defined.

(** X4.  The three ways to ask for the outcome agree, for every form.  When
    [clean] returns, [data] returns an instance (never [None]), [is_valid]
    returns true and [errors] returns [None]; when [clean] raises the
    validation failure, [data] raises it too, [is_valid] returns false and
    [errors] raises no validation failure; any other failure of [clean] is
    the failure of all three.  All of them leave the form as [clean]
    does. *)
Theorem accessors_agree_with_clean (cfg : Config) (s : FormInst) :
  match clean cfg s with
  | (Ok _, s') =>
      (exists m, data cfg s = (Ok (Some m), s')) /\
      is_valid cfg s = (Ok true, s') /\
      errors cfg s = (Ok None, s')
  | (Raise (ValidationError raw), s') =>
      data cfg s = (Raise (ValidationError raw), s') /\
      is_valid cfg s = (Ok false, s') /\
      snd (errors cfg s) = s' /\
      forall e, fst (errors cfg s) = Raise e -> is_ValidationError e = false
  | (Raise e, s') =>
      data cfg s = (Raise e, s') /\
      is_valid cfg s = (Raise e, s') /\
      errors cfg s = (Raise e, s')
  end.
Proof.
  rewrite errors_unfold, is_valid_unfold. unfold data. st_unfold.
  destruct (clean cfg s) as [[[]|e] s'] eqn:Hc.
  - destruct (clean_returns_model cfg s s' Hc) as (m & Hm & _).
    split; [|split]; try reflexivity. exists m. now rewrite Hm.
  - destruct e; try (repeat split; reflexivity).
    split; [reflexivity|]. split; [reflexivity|]. split.
    + destruct (regroup raw_errors []); reflexivity.
    + intros e. simpl.
      assert (Hr : forall acc d x,
                regroup d acc = Raise x -> is_ValidationError x = false).
      { intros acc d. revert acc.
        induction d as [|y d IH]; intros acc x Hx; simpl in Hx;
          [discriminate|].
        destruct y as [e0 loc|]; [|now inversion Hx].
        destruct (is_PydanticValueError e0); simpl in Hx;
          [|now inversion Hx].
        destruct loc as [|k [|]]; try (now inversion Hx).
        now apply (IH _ _ Hx). }
      destruct (regroup raw_errors []) eqn:Hreg; [discriminate|].
      intros H. inversion H; subst. exact (Hr _ _ _ Hreg).
Qed.

(* ================================================================== *)
(** ** More on [errors] *)
(* ================================================================== *)

(** The loop of [errors] returns exactly for a report of value errors, each
    at one field; the first entry of another kind fails the assertion, or
    the unpacking of its location. *)
Lemma regroup_returns_iff (raw : list RawError) (acc : ErrorType) :
  ((exists d, regroup raw acc = Ok d) <-> Forall field_value_error raw) /\
  (forall x, regroup raw acc = Raise x ->
             x = AssertionError \/
             x = ValueError "wrong number of values to unpack").
Proof.
  revert acc. induction raw as [|y raw IH]; intros acc; simpl.
  - split; [split; eauto|discriminate].
  - destruct y as [e loc|].
    + destruct (is_PydanticValueError e) eqn:He; simpl.
      * destruct loc as [|k [|k' loc']].
        -- split; [split|].
           ++ intros [d H]. discriminate.
           ++ intros H. inversion H as [|? ? Hy _]. contradiction.
           ++ intros x H. inversion H. auto.
        -- destruct (IH (setdefault_append k e acc)) as [[H1 H2] H3].
           split; [split|exact H3].
           ++ intros H. constructor; [exact He|now apply H1].
           ++ intros H. inversion H; subst. now apply H2.
        -- split; [split|].
           ++ intros [d H]. discriminate.
           ++ intros H. inversion H as [|? ? Hy _]. contradiction.
           ++ intros x H. inversion H. auto.
      * split; [split|].
        -- intros [d H]. discriminate.
        -- intros H. inversion H as [|? ? Hy _]. simpl in Hy.
           destruct loc as [|? [|]]; try contradiction. congruence.
        -- intros x H. inversion H. auto.
    + split; [split|].
      * intros [d H]. discriminate.
      * intros H. inversion H as [|? ? Hy _]. contradiction.
      * intros x H. inversion H. auto.
Qed.

(** X5.  After a validation failure, [errors] returns a mapping exactly when
    every reported violation is a value error located at one field; for any
    other report it raises [AssertionError], or the [ValueError] of a
    location that does not unpack to one name. *)
Theorem errors_returns_iff_value_errors (cfg : Config) (s s' : FormInst)
    (raw : list RawError) :
  clean cfg s = (Raise (ValidationError raw), s') ->
  ((exists d, errors cfg s = (Ok (Some d), s')) <->
   Forall field_value_error raw) /\
  (forall x, fst (errors cfg s) = Raise x ->
             x = AssertionError \/
             x = ValueError "wrong number of values to unpack").
Proof.
  intros Hc. rewrite errors_unfold, Hc.
  destruct (regroup_returns_iff raw []) as [[H1 H2] H3].
  destruct (regroup raw []) as [d|x] eqn:Hr; simpl.
  - split; [split|discriminate].
    + intros _. apply H1. eauto.
    + intros _. eauto.
  - split; [split|].
    + intros [d H]. discriminate.
    + intros H. destruct (H2 H) as [d Hd]. discriminate.
    + intros y Hy. inversion Hy; subst. now apply H3.
Qed.

(** The person whose age is no number: the report has a type error, and
    [errors] fails the assertion. *)
Lemma errors_returns_iff_value_errors_witness :
  let cfg := PersonForm_config in
  let s := form_of cfg odd_person in
  fst (errors cfg s) = Raise AssertionError /\
  ~ Forall field_value_error
      [ErrorWrapper (PydanticTypeError "type_error.integer") ["age"]].
Proof.
  intros cfg s. split; [reflexivity|].
  assert (Hc : clean cfg s =
               (Raise (ValidationError
                  [ErrorWrapper (PydanticTypeError "type_error.integer")
                     ["age"]]), snd (clean cfg s))) by reflexivity.
  intros Hall.
  destruct (proj2 (proj1 (errors_returns_iff_value_errors cfg s _ _ Hc)) Hall)
    as [d Hd].
  discriminate.
Defined.






(* ================================================================== *)
(** ** When [bind_field] fails *)
(* ================================================================== *)

Lemma clean_model_none (cfg : Config) (s : FormInst) :
  _model (snd (clean cfg s)) = None -> _model s = None.
Proof.
  rewrite clean_unfold.
  destruct (_error s); [auto|].
  destruct (_model s) eqn:Hm; [simpl; congruence|reflexivity].
Qed.

Lemma nofields_clean (cfg : Config) (s : FormInst) :
  NoFieldsUnlessValid s -> NoFieldsUnlessValid (snd (clean cfg s)).
Proof.
  unfold NoFieldsUnlessValid. intros H Hm.
  destruct (clean_bound cfg s) as [-> ->].
  apply H. now apply (clean_model_none cfg).
Qed.

Lemma nofields_run_op (cfg : Config) (op : Op) (s : FormInst) :
  NoFieldsUnlessValid s -> NoFieldsUnlessValid (run_op cfg op s).
Proof.
  intros H. pose proof (nofields_clean cfg s H) as Hc.
  destruct op; simpl.
  - exact Hc.
  - now rewrite data_state.
  - now rewrite errors_state.
  - now rewrite is_valid_state.
  - unfold value_of. st_unfold. destruct (dict_get field0 _); exact H.
  - rewrite bind_field_unfold.
    destruct (cache_get _ (bind_field_cache s)); [exact H|].
    destruct (clean cfg s) as [[[]|e] s1] eqn:Hclean; simpl in *;
      [|exact Hc].
    destruct (dict_get name (__fields__ (model cfg))) as [f|]; [|exact Hc].
    destruct (clean_returns_model cfg s s1 Hclean) as (mm & Hm & _).
    intros Hnone. simpl in Hnone. congruence.
  - destruct (widget_state cfg r s) as [->|(w & bf & Hn & _ & _ & ->)];
      [exact H|].
    intros Hm. simpl in Hm. destruct (H Hm) as [Hc' Hb].
    rewrite Hb in Hn. destruct r; discriminate.
  - unfold BoundField_render_widget. st_unfold.
    destruct (widget_state cfg r s) as [Hs|(w & bf & Hn & _ & _ & Hs)];
      destruct (BoundField_widget cfg r s) as [[w'|e] s']; simpl in *;
      subst s'; try exact H;
      intros Hm; simpl in Hm; destruct (H Hm) as [Hc' Hb];
      rewrite Hb in Hn; destruct r; discriminate.
  - destruct (_data s); exact H.
  - rewrite bind_field_call_unfold.
    destruct (cache_get _ (bind_field_cache s)); [exact H|].
    destruct (clean cfg s) as [[[]|e] s1] eqn:Hclean; simpl in *;
      [|exact Hc].
    destruct (dict_get name (__fields__ (model cfg))) as [f|]; [|exact Hc].
    destruct (clean_returns_model cfg s s1 Hclean) as (mm & Hm & _).
    intros Hnone. simpl in Hnone. congruence.
Qed.

Lemma reachable_nofields (cfg : Config) (s : FormInst) :
  Reachable cfg s -> NoFieldsUnlessValid s.
Proof.
  intros (d & i & s0 & ops & Hinit & ->).
  assert (H0 : NoFieldsUnlessValid s0).
  { destruct (inv_init cfg d i s0 Hinit) as [_ _ I3 _]. intros _.
    assert (Hb : bound_fields s0 = []).
    { unfold __init__ in Hinit. destruct i as [x|]; simpl in Hinit.
      - destruct (model_isinstance (model cfg) x); simpl in Hinit;
          [|discriminate].
        now inversion Hinit.
      - now inversion Hinit. }
    split; [|exact Hb]. rewrite Hb in I3. simpl in I3.
    now apply map_eq_nil in I3. }
  clear Hinit. unfold run_ops. revert s0 H0.
  induction ops as [|op ops IH]; intros s0 H0; simpl; [exact H0|].
  apply IH. now apply nofields_run_op.
Qed.

(** X7.  A form that has no validated model has no bound field and nothing
    in the cache of [bind_field].  On a form whose validation has failed,
    [bind_field] raises the stored validation failure for every name,
    declared or not, and leaves the form as it is; on a validated form it
    raises [KeyError] for a name the model does not declare, and leaves the
    form as it is. *)
Theorem bind_field_needs_valid_form (cfg : Config) (s : FormInst)
    (name : string) :
  Reachable cfg s ->
  (_model s = None -> bound_fields s = [] /\ bind_field_cache s = []) /\
  (forall raw,
     _error s = Some raw ->
     bind_field cfg name s = (Raise (ValidationError raw), s)) /\
  (forall m,
     _model s = Some m ->
     dict_get name (__fields__ (model cfg)) = None ->
     bind_field cfg name s = (Raise (KeyError name), s)).
Proof.
  intros Hreach.
  pose proof (reachable_nofields cfg s Hreach) as Hnf.
  destruct (reachable_inv cfg s Hreach) as [Hex _ _ Hfields].
  split; [|split].
  - intros Hm. destruct (Hnf Hm). auto.
  - intros raw He.
    assert (Hm : _model s = None) by (destruct Hex; congruence).
    destruct (Hnf Hm) as [Hc _].
    rewrite bind_field_unfold, Hc. simpl.
    rewrite clean_resolved by (unfold memo; rewrite He; discriminate).
    now rewrite He.
  - intros m Hm Hundeclared.
    assert (He : _error s = None) by (destruct Hex; congruence).
    rewrite bind_field_unfold.
    destruct (cache_get (Positional, name) (bind_field_cache s))
      as [r|] eqn:Hr.
    + destruct (Hfields Positional name r Hr) as (bf & _ & Hdecl).
      congruence.
    + rewrite clean_resolved
        by (unfold memo; rewrite He, Hm; discriminate).
      now rewrite He, Hundeclared.
Qed.

(** The person aged 200, once validated: no bound field for [age], nor for
    a name that is no field. *)
Lemma bind_field_needs_valid_form_witness :
  let cfg := PersonForm_config in
  let s := run_ops cfg [IsValid] (form_of cfg old_person) in
  let failure :=
    ValidationError
      [ErrorWrapper (PydanticValueError "value_error.number.not_le") ["age"]] in
  bind_field cfg "age" s = (Raise failure, s) /\
  bind_field cfg "nickname" s = (Raise failure, s).
Proof.
  intros cfg s failure.
  assert (Hreach : Reachable cfg s).
  { exists (Some old_person), None, (form_of cfg old_person), [IsValid].
    split; reflexivity. }
  split.
  - exact (proj1 (proj2 (bind_field_needs_valid_form cfg s "age" Hreach))
             _ eq_refl).
  - exact (proj1 (proj2 (bind_field_needs_valid_form cfg s "nickname" Hreach))
             _ eq_refl).
Defined.

(* ================================================================== *)
(** ** More on [widget_class] and [widget_kwargs] *)
(* ================================================================== *)

(** X8.  Without an override, [widget_class] returns for every field whose
    type is a class, and what it returns is one of seven classes.  The
    builtin types get their widgets; [datetime] gets the datetime widget
    although it derives from [date].  A class derived from another is
    judged by its ancestry for [bool], [int], [float] and [SecretStr] only:
    the tests for [date], [time] and [datetime] are tests of identity, so a
    class derived from one of them gets the plain input. *)
Theorem widget_class_by_inference (cfg : Config) (f : ModelField) :
  dict_get (field_name f) (widget_classes cfg) = None ->
  is_class (field_type_ f) = true ->
  (exists c,
     widget_class cfg f = Ok c /\
     In c [Checkbox; Number; Date; Time; DateTime; Password; Input]) /\
  widget_class cfg f =
  Ok match field_type_ f with
     | TBool => Checkbox
     | TInt | TFloat => Number
     | TDate => Date
     | TTime => Time
     | TDateTime => DateTime
     | TSecretStr => Password
     | TSub _ _ base => inferred_by_ancestry (ancestors base)
     | _ => Input
     end.
Proof.
  intros Hnone Hclass.
  assert (H : widget_class cfg f =
              Ok match field_type_ f with
                 | TBool => Checkbox
                 | TInt | TFloat => Number
                 | TDate => Date
                 | TTime => Time
                 | TDateTime => DateTime
                 | TSecretStr => Password
                 | TSub _ _ base => inferred_by_ancestry (ancestors base)
                 | _ => Input
                 end).
  { unfold widget_class, issubclass. rewrite Hnone, Hclass.
    destruct (field_type_ f); try reflexivity; try discriminate.
    unfold inferred_by_ancestry. simpl. rewrite !orb_false_r.
    destruct (existsb (builtin_eqb Bbool) (ancestors p)); [reflexivity|].
    destruct (existsb (builtin_eqb Bint) (ancestors p)
              || existsb (builtin_eqb Bfloat) (ancestors p));
      [reflexivity|].
    destruct (existsb (builtin_eqb BSecretStr) (ancestors p)); reflexivity. }
  split; [|exact H]. rewrite H. eexists. split; [reflexivity|].
  destruct (field_type_ f); simpl; auto 10.
  unfold inferred_by_ancestry.
  destruct (existsb (builtin_eqb Bbool) (ancestors p)); simpl; auto.
  destruct (existsb (builtin_eqb Bint) (ancestors p)
            || existsb (builtin_eqb Bfloat) (ancestors p)); simpl; auto.
  destruct (existsb (builtin_eqb BSecretStr) (ancestors p)); simpl; auto 10.
Qed.

(** The bounded age of the example is a class derived from [int]: a number
    widget.  A class derived from [date] is no [date]: a plain input. *)
Lemma widget_class_by_inference_witness :
  widget_class PersonForm_config Person_age = Ok Number /\
  widget_class PersonForm_config
    (Build_ModelField "birthday" (TSub "PastDate" [] TDate) true VNone)
  = Ok Input.
Proof.
  split.
  - exact (proj2 (widget_class_by_inference PersonForm_config Person_age
                    eq_refl eq_refl)).
  - exact (proj2 (widget_class_by_inference PersonForm_config
                    (Build_ModelField "birthday" (TSub "PastDate" [] TDate)
                       true VNone)
                    eq_refl eq_refl)).
Defined.

(** X9.  [widget_class] raises exactly for a field without an override
    whose type is no class (a typing construct such as [Choice] builds),
    and what it raises is the [TypeError] of [issubclass]; with an override
    for the field, the type is not looked at. *)
Theorem widget_class_raises_iff (cfg : Config) (f : ModelField) :
  ((exists e, widget_class cfg f = Raise e) <->
   dict_get (field_name f) (widget_classes cfg) = None /\
   is_class (field_type_ f) = false) /\
  (forall e, widget_class cfg f = Raise e ->
             e = TypeError "issubclass() arg 1 must be a class").
Proof.
  unfold widget_class, issubclass.
  destruct (dict_get (field_name f) (widget_classes cfg)) as [c|].
  - split; [split|discriminate].
    + intros [e H]. discriminate.
    + intros [H _]. discriminate.
  - destruct (is_class (field_type_ f)) eqn:Hc.
    + match goal with
      | |- ((exists e, ?X = Raise e) <-> _) /\ _ =>
          assert (Hn : forall e, X <> Raise e)
      end.
      { intros e.
        repeat match goal with
               | |- context [if ?b then _ else _] => destruct b
               end; discriminate. }
      split; [split|].
      * intros [e He]. now apply Hn in He.
      * intros [_ Hf]. discriminate.
      * intros e He. now apply Hn in He.
    + split; [split|].
      * auto.
      * intros _. eexists. reflexivity.
      * intros e He. now inversion He.
Qed.

Lemma additional_kwargs_nodup (cls : WidgetClass) (f : ModelField) :
  NoDup (keys (additional_kwargs cls f)).
Proof.
  destruct cls; try constructor. unfold additional_kwargs.
  destruct (is_None (class_getattr (field_type_ f) "ge"));
    destruct (is_None (class_getattr (field_type_ f) "le"));
    apply nodupb_sound; reflexivity.
Qed.

(** X10.  The keyword arguments of a widget: for a declared field, what the
    configuration gives for a key wins, then what the widget class adds
    ([min] and [max] of a number), then the name (with the prefix), the
    id, the required flag and the current value.  For a field the model
    does not declare, the lookup of its value raises [KeyError]. *)
Theorem widget_kwargs_precedence (cfg : Config) (f : ModelField)
    (cls : WidgetClass) (s : FormInst) :
  (forall f0,
     dict_get (field_name f) (__fields__ (model cfg)) = Some f0 ->
     NoDup (keys (extra_kwargs cfg f)) ->
     exists value kwargs,
       BoundField_value cfg f s = (Ok value, s) /\
       BoundField_widget_kwargs cfg f cls s = (Ok kwargs, s) /\
       forall k,
         dict_get k kwargs =
         match dict_get k (extra_kwargs cfg f) with
         | Some v => Some v
         | None =>
             match dict_get k (additional_kwargs cls f) with
             | Some v => Some v
             | None => dict_get k (base_kwargs cfg f value)
             end
         end) /\
  (dict_get (field_name f) (__fields__ (model cfg)) = None ->
   BoundField_widget_kwargs cfg f cls s = (Raise (KeyError (field_name f)), s)).
Proof.
  unfold BoundField_widget_kwargs, BoundField_value, value_of. st_unfold.
  split.
  - intros f0 Hf Hnd. rewrite Hf. simpl.
    eexists. eexists. split; [reflexivity|]. split; [reflexivity|].
    intros k. fold (extra_kwargs cfg f).
    rewrite (dict_get_update k (extra_kwargs cfg f) _ Hnd).
    destruct (dict_get k (extra_kwargs cfg f)); [reflexivity|].
    now rewrite (dict_get_update k (additional_kwargs cls f) _
                   (additional_kwargs_nodup cls f)).
  - intros Hf. now rewrite Hf.
Qed.

(** The form that asks for adults: [min] is the configured 18, not the lower
    bound 0 of the type; [max] is the upper bound of the type; the name has
    the prefix. *)
Lemma widget_kwargs_precedence_witness :
  let cfg := AdultForm_config in
  let s := form_of cfg valid_person in
  exists kwargs,
    BoundField_widget_kwargs cfg Person_age Number s = (Ok kwargs, s) /\
    dict_get "min" kwargs = Some (VStr "18") /\
    dict_get "max" kwargs = Some (VStr "120") /\
    dict_get "name" kwargs = Some (VStr "f_age") /\
    dict_get "id" kwargs = Some (VStr "id_f_age").
Proof.
  intros cfg s.
  assert (Hnd : NoDup (keys (extra_kwargs cfg Person_age)))
    by (apply nodupb_sound; reflexivity).
  destruct (proj1 (widget_kwargs_precedence cfg Person_age Number s)
              Person_age eq_refl Hnd) as (value & kwargs & _ & Hk & Hget).
  exists kwargs. split; [exact Hk|].
  repeat split; rewrite Hget; reflexivity.
Defined.

(* ================================================================== *)
(** ** The attribute set of a widget *)
(* ================================================================== *)

Lemma dict_get_without_excluded {V} (k : string) (exclude : list string)
    (d : dict V) :
  existsb (String.eqb k) exclude = true ->
  dict_get k (dict_without exclude d) = None.
Proof.
  intros Hk. unfold dict_without.
  induction d as [|[k' v'] d IH]; simpl; [reflexivity|].
  destruct (existsb (String.eqb k') exclude) eqn:Hk'; simpl; [exact IH|].
  destruct (String.eqb_spec k k'); [congruence|exact IH].
Qed.

(** X11.  [attrs] raises in two cases only, both with a value that is not
    [None]: the widget is a date, time or datetime widget, or it is a
    password widget whose value is no [SecretStr].  The string renderer
    fails exactly when [attrs] does. *)
Theorem attrs_raises_iff (w : WidgetInst) :
  ((exists e, attrs w = Raise e) <->
   is_None (widget_field w "value") = false /\
   (uses_strftime (widget_cls w) = true \/
    widget_cls w = Password /\ is_SecretStr (widget_field w "value") = false))
  /\
  ((exists e, render_widget StringRenderer w = Raise e) <->
   (exists e, attrs w = Raise e)).
Proof.
  split.
  - unfold attrs, Widget_attrs, format_value, strftime.
    destruct (widget_cls w) eqn:Hcls;
      destruct (widget_field w "value") eqn:Hv; simpl;
      try destruct (moment_of _);
      split;
      try (intros [e H]; discriminate);
      try (intros [H _]; discriminate);
      try (intros [_ [H|[H _]]]; discriminate);
      try (intros [_ [H|[_ H]]]; discriminate);
      try (intros _; eexists; reflexivity);
      try (intros _; split; [reflexivity|]; auto).
  - unfold render_widget, render_attrs.
    destruct (attrs w) as [a|e]; split; intros [x H];
      try discriminate; eauto.
Qed.

(** X12.  The attribute set of a widget, when [attrs] returns one: the
    excluded fields ([class_], and [format] on the date and time widgets)
    are never in it; [class] holds what the field [class_] holds; a
    checkbox has [checked], holding the raw value, and no [value]; every
    other widget has [value], holding the formatted text; every other field
    is in it as the widget holds it. *)
Theorem attrs_shape (w : WidgetInst) (a : dict PyVal) :
  attrs w = Ok a ->
  dict_get "class_" a = None /\
  (uses_strftime (widget_cls w) = true -> dict_get "format" a = None) /\
  dict_get "class" a = Some (widget_field w "class_") /\
  (widget_cls w = Checkbox ->
   dict_get "value" a = None /\
   dict_get "checked" a = Some (widget_field w "value")) /\
  (widget_cls w <> Checkbox ->
   exists shown,
     format_value w (widget_field w "value") = Ok shown /\
     dict_get "value" a = Some (VStr shown)) /\
  (forall k,
     existsb (String.eqb k) (__exclude_attrs__ (widget_cls w)) = false ->
     k <> "class" -> k <> "value" -> k <> "checked" ->
     dict_get k a = dict_get k (widget_dict w)).
Proof.
  intros Ha.
  unfold attrs, Widget_attrs in Ha.
  destruct (format_value w (widget_field w "value")) as [shown|] eqn:Hf.
  2:{ destruct (widget_cls w); discriminate. }
  set (a0 := dict_update
               (dict_without (__exclude_attrs__ (widget_cls w))
                  (widget_dict w))
               [("class", widget_field w "class_"); ("value", VStr shown)])
    in *.
  assert (Hbase : forall k,
    dict_get k a0 =
    if String.eqb k "class" then Some (widget_field w "class_")
    else if String.eqb k "value" then Some (VStr shown)
    else dict_get k
           (dict_without (__exclude_attrs__ (widget_cls w)) (widget_dict w))).
  { intros k. unfold a0.
    rewrite dict_get_update by (apply nodupb_sound; reflexivity).
    simpl. destruct (String.eqb k "class"); [reflexivity|].
    destruct (String.eqb k "value"); reflexivity. }
  assert (F1 : dict_get "class_" a0 = None).
  { rewrite Hbase. simpl. apply dict_get_without_excluded.
    destruct (widget_cls w); reflexivity. }
  assert (F2 : uses_strftime (widget_cls w) = true ->
               dict_get "format" a0 = None).
  { intros Hu. rewrite Hbase. simpl. apply dict_get_without_excluded.
    destruct (widget_cls w); try discriminate; reflexivity. }
  assert (F3 : dict_get "class" a0 = Some (widget_field w "class_"))
    by (rewrite Hbase; reflexivity).
  assert (F4 : dict_get "value" a0 = Some (VStr shown))
    by (rewrite Hbase; reflexivity).
  assert (F5 : forall k,
    existsb (String.eqb k) (__exclude_attrs__ (widget_cls w)) = false ->
    k <> "class" -> k <> "value" ->
    dict_get k a0 = dict_get k (widget_dict w)).
  { intros k Hk H1 H2. rewrite Hbase.
    destruct (String.eqb_spec k "class"); [contradiction|].
    destruct (String.eqb_spec k "value"); [contradiction|].
    now apply dict_get_without. }
  clearbody a0.
  destruct (Bool.bool_dec (match widget_cls w with
                           | Checkbox => true
                           | _ => false
                           end) true) as [Hcb|Hcb].
  - assert (Hcls : widget_cls w = Checkbox)
      by (destruct (widget_cls w); try discriminate; reflexivity).
    rewrite Hcls in Ha. inversion Ha; subst a; clear Ha.
    split; [|split; [|split; [|split; [|split]]]].
    + rewrite dict_get_set_other, dict_get_pop_other by discriminate.
      exact F1.
    + intros Hu. rewrite dict_get_set_other, dict_get_pop_other
        by discriminate. now apply F2.
    + rewrite dict_get_set_other, dict_get_pop_other by discriminate.
      exact F3.
    + intros _. split.
      * rewrite dict_get_set_other by discriminate. apply dict_get_pop_same.
      * apply dict_get_set_same.
    + intros H. contradiction.
    + intros k Hk H1 H2 H3.
      rewrite dict_get_set_other, dict_get_pop_other by assumption.
      now apply F5.
  - assert (Hcls : widget_cls w <> Checkbox)
      by (intros E; rewrite E in Hcb; now apply Hcb).
    assert (Ea : a = a0)
      by (destruct (widget_cls w); try congruence; now elim Hcls).
    subst a.
    split; [exact F1|]. split; [exact F2|]. split; [exact F3|].
    split; [intros E; contradiction|].
    split; [intros _; exists shown; auto|].
    intros k Hk H1 H2 _. now apply F5.
Qed.

(** The checkbox of the example: [checked] and no [value]. *)
Lemma attrs_shape_witness :
  let cfg := PersonForm_config in
  let s := snd (bind_field cfg "active" (form_of cfg valid_person)) in
  exists w a,
    fst (BoundField_widget cfg 0 s) = Ok w /\ attrs w = Ok a /\
    dict_get "checked" a = Some (VBool true) /\ dict_get "value" a = None /\
    dict_get "class_" a = None /\
    dict_get "name" a = Some (VStr "f_active").
Proof.
  intros cfg s. eexists. eexists.
  split; [reflexivity|].
  match goal with
  | |- attrs ?W = Ok ?A /\ _ =>
      assert (Ha : attrs W = Ok A) by reflexivity;
      destruct (attrs_shape W A Ha) as (H1 & _ & _ & H4 & _ & H6)
  end.
  split; [exact Ha|].
  destruct (H4 eq_refl) as [Hv Hc].
  split; [exact Hc|]. split; [exact Hv|]. split; [exact H1|].
  rewrite H6; [reflexivity|reflexivity|discriminate|discriminate|discriminate].
Defined.

(** X13.  A password widget shows the secret itself: the value in its
    attribute set is the text of the secret, where [str()] of the secret
    gives asterisks. *)
Theorem password_shows_secret (w : WidgetInst) (secret : string) :
  widget_cls w = Password ->
  widget_field w "value" = VSecretStr secret ->
  exists a,
    attrs w = Ok a /\
    dict_get "value" a = Some (VStr secret) /\
    In (Some (("value=" ++ quote ++ secret ++ quote)%string))
       (map render_attr a) /\
    (secret <> "" -> py_str (widget_field w "value") = "**********").
Proof.
  intros Hcls Hv.
  assert (Ha : attrs w =
               Ok (dict_update
                     (dict_without ["class_"; "value"] (widget_dict w))
                     [("class", widget_field w "class_");
                      ("value", VStr secret)])).
  { unfold attrs, Widget_attrs, format_value. rewrite Hcls, Hv. reflexivity. }
  eexists. split; [exact Ha|].
  assert (Hget : dict_get "value"
                   (dict_update
                      (dict_without ["class_"; "value"] (widget_dict w))
                      [("class", widget_field w "class_");
                       ("value", VStr secret)]) = Some (VStr secret)).
  { rewrite dict_get_update by (apply nodupb_sound; reflexivity).
    reflexivity. }
  split; [exact Hget|]. split.
  - apply dict_get_In in Hget.
    change (Some ("value=" ++ quote ++ secret ++ quote)%string)
      with (render_attr ("value", VStr secret)).
    now apply in_map.
  - intros Hne. rewrite Hv. simpl. destruct secret; [congruence|reflexivity].
Qed.

(** A password widget for the secret [hunter2]. *)
Lemma password_shows_secret_witness :
  exists w,
    widget_new Password
      [("name", VStr "pw"); ("value", VSecretStr "hunter2")] = Ok w /\
    exists a, attrs w = Ok a /\ dict_get "value" a = Some (VStr "hunter2").
Proof.
  eexists. split; [vm_compute; reflexivity|].
  match goal with
  | |- exists a, attrs ?W = Ok a /\ _ =>
      destruct (password_shows_secret W "hunter2" eq_refl eq_refl)
        as (a & Ha & Hg & _)
  end.
  exists a. split; assumption.
Defined.

(* ================================================================== *)
(** ** The string renderer *)
(* ================================================================== *)

Lemma render_items_pop_hidden (k : string) (v : PyVal) (a : dict PyVal) :
  NoDup (keys a) -> dict_get k a = Some v -> render_attr (k, v) = None ->
  render_items a = render_items (dict_pop k a).
Proof.
  induction a as [|[k' v'] a IH]; simpl; [discriminate|].
  intros Hnd Hget Hr. inversion Hnd as [|? ? Hnotin Hnd']; subst.
  destruct (String.eqb_spec k k').
  - subst k'. inversion Hget; subst v'. rewrite Hr.
    now rewrite dict_pop_absent.
  - simpl. rewrite (IH Hnd' Hget Hr). reflexivity.
Qed.

Lemma render_items_In (kv : string * PyVal) (s : string) (a : dict PyVal) :
  In kv a -> render_attr kv = Some s -> In s (render_items a).
Proof.
  induction a as [|x a IH]; simpl; [tauto|].
  intros [->|Hin] Hr.
  - rewrite Hr. now left.
  - destruct (render_attr x); [right|]; now apply IH.
Qed.

(** X14.  What the string renderer makes of an attribute, by its value: an
    attribute that is [None] or [False] renders as if it were not there; one
    that is [True] renders as the bare key; any other renders as the key,
    an equals sign and the value as a string between quotes. *)
Theorem render_items_by_value (a : dict PyVal) (k : string) (v : PyVal) :
  NoDup (keys a) -> dict_get k a = Some v ->
  match v with
  | VNone | VBool false => render_items a = render_items (dict_pop k a)
  | VBool true => In k (render_items a)
  | _ => In (k ++ "=" ++ quote ++ py_str v ++ quote)%string (render_items a)
  end.
Proof.
  intros Hnd Hget.
  pose proof (dict_get_In k v a Hget) as Hin.
  destruct v as [|[|]| | | | | | | |];
    try (apply (render_items_In (k, _) _ a Hin); reflexivity);
    now apply (render_items_pop_hidden k _ a Hnd Hget).
Qed.

(** Attributes of a required, unfocused number input. *)
Lemma render_items_by_value_witness :
  let a := [("name", VStr "age"); ("required", VBool true);
            ("autofocus", VBool false); ("min", VNone)] in
  In "required" (render_items a) /\
  render_items a = render_items (dict_pop "autofocus" a) /\
  render_items a = render_items (dict_pop "min" a).
Proof.
  intros a.
  assert (Hnd : NoDup (keys a)) by (apply nodupb_sound; reflexivity).
  split; [|split].
  - exact (render_items_by_value a "required" (VBool true) Hnd eq_refl).
  - exact (render_items_by_value a "autofocus" (VBool false) Hnd eq_refl).
  - exact (render_items_by_value a "min" VNone Hnd eq_refl).
Defined.

(* ================================================================== *)
(** ** [WidgetMetaclass] *)
(* ================================================================== *)

Lemma set_update_In (k : string) (xs s : list string) :
  In k (set_update s xs) <-> In k s \/ In k xs.
Proof.
  unfold set_update. revert s.
  induction xs as [|x xs IH]; intros s; simpl; [tauto|].
  rewrite IH. destruct (existsb (String.eqb x) s) eqn:Hx.
  - apply existsb_exists in Hx. destruct Hx as (y & Hy & Heq).
    apply String.eqb_eq in Heq. subst y.
    split; [tauto|]. intros [H|[H|H]]; subst; auto.
  - rewrite in_app_iff. simpl. tauto.
Qed.

Lemma set_update_NoDup (xs s : list string) :
  NoDup s -> NoDup (set_update s xs).
Proof.
  unfold set_update. revert s.
  induction xs as [|x xs IH]; intros s Hs; simpl; [exact Hs|].
  apply IH. destruct (existsb (String.eqb x) s) eqn:Hx; [exact Hs|].
  apply NoDup_snoc; [exact Hs|]. intros Hin.
  assert (existsb (String.eqb x) s = true); [|congruence].
  apply existsb_exists. exists x. split; [exact Hin|apply String.eqb_refl].
Qed.

Lemma fold_set_update_In (k : string) (bases : list (list string))
    (s : list string) :
  In k (fold_left set_update bases s) <->
  In k s \/ exists b, In b bases /\ In k b.
Proof.
  revert s. induction bases as [|b bases IH]; intros s; simpl.
  - split; [tauto|]. intros [H|(b & [] & _)]. exact H.
  - rewrite IH, set_update_In. split.
    + intros [[H|H]|(b' & Hb' & Hk)]; eauto.
    + intros [H|(b' & [->|Hb'] & Hk)]; eauto.
Qed.

Lemma fold_set_update_NoDup (bases : list (list string)) (s : list string) :
  NoDup s -> NoDup (fold_left set_update bases s).
Proof.
  revert s. induction bases as [|b bases IH]; intros s Hs; simpl;
    [exact Hs|].
  apply IH. now apply set_update_NoDup.
Qed.

(** X15.  [WidgetMetaclass] makes exclusion hereditary: a widget class
    excludes an attribute exactly when one of its bases excludes it or its
    own body does, and lists none twice.  For the widget classes of the
    module this gives [class_] and [value] everywhere, and [format] too on
    the date, time and datetime widgets. *)
Theorem exclude_attrs_inherited :
  (forall bases namespace k,
     In k (WidgetMetaclass_new bases namespace) <->
     (exists b, In b bases /\ In k b) \/
     In k (match namespace with Some own => own | None => [] end)) /\
  (forall bases namespace, NoDup (WidgetMetaclass_new bases namespace)) /\
  (forall cls k,
     In k (excluded_by_metaclass cls) <-> In k (__exclude_attrs__ cls)).
Proof.
  split; [|split].
  - intros bases namespace k. unfold WidgetMetaclass_new.
    rewrite set_update_In, fold_set_update_In. simpl. split.
    + intros [[[]|(b & Hb & Hk)]|H]; [left|right; exact H].
      exists b. split; [|exact Hk]. now apply in_rev.
    + intros [(b & Hb & Hk)|H]; [left; right|right; exact H].
      exists b. split; [|exact Hk]. now apply in_rev in Hb.
  - intros bases namespace. unfold WidgetMetaclass_new.
    apply set_update_NoDup, fold_set_update_NoDup. constructor.
  - intros cls k. destruct cls; vm_compute; tauto.
Qed.

(* ================================================================== *)
(** ** More on the configuration classes *)
(* ================================================================== *)

(** X16.  A form class with two form classes as bases, [class C(A, B)]:
    the classes are created, and a key of the configuration is read from
    the [Config] of [C] when that sets it, else from that of [A], the base
    named first, else from that of [B], else from the [Config] of [Form]. *)
Theorem config_first_base_wins (config_A config_B config_C : option (dict Attr)) :
  exists A B C h,
    three_forms config_A config_B config_C builtins = (Ok (A, B, C), h) /\
    forall key,
      config_attr h C key =
      let own (c : option (dict Attr)) :=
        match c with Some body => dict_get key body | None => None end in
      match own config_C with
      | Some v => Some v
      | None =>
          match own config_A with
          | Some v => Some v
          | None =>
              match own config_B with
              | Some v => Some v
              | None => dict_get key Form_Config
              end
          end
      end.
Proof.
  destruct config_A as [a|], config_B as [b|], config_C as [c|];
    (eexists; eexists; eexists; eexists;
     split; [vm_compute; reflexivity|]);
    intros key; cbv zeta; mro_lookup.
Qed.

(** Two bases that both set the prefix: the first one's is used. *)
Lemma config_first_base_wins_witness :
  exists A B C h,
    three_forms (Some [("prefix", AStr "a_")])
                (Some [("prefix", AStr "b_"); ("model", AModel Person)])
                None builtins = (Ok (A, B, C), h) /\
    config_attr h C "prefix" = Some (AStr "a_") /\
    config_attr h C "model" = Some (AModel Person).
Proof.
  destruct (config_first_base_wins
              (Some [("prefix", AStr "a_")])
              (Some [("prefix", AStr "b_"); ("model", AModel Person)])
              None) as (A & B & C & h & Hrun & Hkey).
  exists A, B, C, h. split; [exact Hrun|].
  split; rewrite Hkey; reflexivity.
Defined.

(** X17.  A form class whose [Config] sets the model and nothing else has
    the defaults of [Form.Config]: no prefix, the string renderer, no
    widget class and no extra argument for any field; the name of a widget
    is then the name of its field.  [Form] itself, and any form class
    whose configuration sets no model, has no configuration an instance
    could work with. *)
Theorem config_defaults (config_A : dict Attr) :
  exists m A h,
    one_form config_A builtins = (Ok (m, A), h) /\
    config_of h (Form m) = None /\
    (dict_get "model" config_A = None -> config_of h A = None) /\
    (forall model_class,
       dict_get "model" config_A = Some (AModel model_class) ->
       dict_get "prefix" config_A = None ->
       dict_get "renderer" config_A = None ->
       dict_get "widget_classes" config_A = None ->
       dict_get "widget_kwargs" config_A = None ->
       config_of h A =
       Some (Build_Config model_class "" StringRenderer [] []) /\
       forall name,
         prefix_name (Build_Config model_class "" StringRenderer [] []) name
         = name).
Proof.
  eexists. eexists. eexists. split; [vm_compute; reflexivity|].
  match goal with
  | |- _ /\ (_ -> config_of ?h ?A = None) /\ _ =>
      assert (HA : forall key,
                config_attr h A key =
                match dict_get key config_A with
                | Some v => Some v
                | None => dict_get key Form_Config
                end) by (intros key; mro_lookup)
  end.
  split; [reflexivity|]. split.
  - intros Hm. unfold config_of. rewrite (HA "model"), Hm. reflexivity.
  - intros model_class Hm Hp Hr Hwc Hwk.
    split; [|reflexivity].
    unfold config_of.
    rewrite (HA "model"), (HA "prefix"), (HA "renderer"),
      (HA "widget_classes"), (HA "widget_kwargs"), Hm, Hp, Hr, Hwc, Hwk.
    reflexivity.
Qed.

(** The configuration of the person form without a prefix. *)
Lemma config_defaults_witness :
  exists m A h,
    one_form [("model", AModel Person)] builtins = (Ok (m, A), h) /\
    config_of h A = Some (Build_Config Person "" StringRenderer [] []).
Proof.
  destruct (config_defaults [("model", AModel Person)])
    as (m & A & h & Hrun & _ & _ & H).
  exists m, A, h. split; [exact Hrun|].
  exact (proj1 (H Person eq_refl eq_refl eq_refl eq_refl eq_refl)).
Defined.

Lemma existsb_eqb_false (x : ClassId) (l : list ClassId) :
  ~ In x l -> existsb (Nat.eqb x) l = false.
Proof.
  intros H. destruct (existsb (Nat.eqb x) l) eqn:E; [|reflexivity].
  apply existsb_exists in E. destruct E as (y & Hy & Heq).
  apply Nat.eqb_eq in Heq. subst y. contradiction.
Qed.

(** One sequence without repeats merges to itself. *)
Lemma merge_single (l : list ClassId) (fuel : nat) :
  NoDup l -> length l <= fuel -> merge fuel [l] = Some l.
Proof.
  revert fuel. induction l as [|x l IH]; intros fuel Hnd Hlen.
  - destruct fuel; reflexivity.
  - inversion Hnd as [|? ? Hnotin Hnd']; subst.
    destruct fuel as [|fuel]; [simpl in Hlen; lia|].
    simpl. rewrite (existsb_eqb_false x l Hnotin). simpl.
    rewrite Nat.eqb_refl, (IH fuel Hnd') by (simpl in Hlen; lia).
    reflexivity.
Qed.

Lemma merge_drop_empty (l : list ClassId) (fuel : nat) :
  merge fuel [l; []] = merge fuel [l].
Proof.
  destruct fuel; simpl; destruct l; reflexivity.
Qed.

(** A class with an empty namespace at the end of the table changes no
    lookup along an order. *)
Lemma lookup_mro_snoc (h : Classes) (name : string)
    (bases mro order : list ClassId) (attr : string) :
  lookup_mro (h ++ [Build_Class name bases [] mro]) order attr =
  lookup_mro h order attr.
Proof.
  induction order as [|c order IH]; simpl; [reflexivity|].
  destruct (Nat.lt_ge_cases c (length h)) as [Hlt|Hge].
  - rewrite nth_error_app1 by exact Hlt. now rewrite IH.
  - rewrite nth_error_app2 by exact Hge.
    assert (Hnone : nth_error h c = None) by now apply nth_error_None.
    rewrite Hnone.
    destruct (c - length h) as [|n]; simpl; [exact IH|].
    destruct n; exact IH.
Qed.

(** X18.  [inherit_config] with one and the same class as own and as parent
    configuration makes a class with that class as its only base, which
    reads every attribute as that class does; naming the class twice among
    the bases, as the other branch would, is refused by [type]. *)
Theorem inherit_config_same_class (h : Classes) (c : ClassId)
    (above : list ClassId) :
  mro_of h c = c :: above ->
  NoDup (c :: above) ->
  exists config h',
    inherit_config c c h = (Ok config, h') /\
    (forall attr, getattr h' config attr = getattr h c attr) /\
    is_subclass h' config c = true /\
    exists msg, type_new "Config" [c; c] [] h = (Raise (TypeError msg), h).
Proof.
  intros Hmro Hnd.
  assert (Hmerge : c3_merge (map (mro_of h) [c] ++ [[c]])
                   = Some (c :: above)).
  { unfold c3_merge. simpl. rewrite Hmro. simpl.
    inversion Hnd as [|? ? Hnotin Hnd']; subst.
    rewrite (existsb_eqb_false c above Hnotin). simpl.
    rewrite Nat.eqb_refl, merge_drop_empty.
    rewrite merge_single; [reflexivity|exact Hnd'|].
    rewrite length_app. simpl. lia. }
  unfold inherit_config, type_new. rewrite Nat.eqb_refl, Hmerge.
  eexists. eexists. split; [reflexivity|].
  assert (Hnew : mro_of (h ++ [Build_Class "Config" [c] []
                                 (length h :: c :: above)]) (length h)
                 = length h :: c :: above).
  { unfold mro_of. rewrite nth_error_app2 by lia.
    now rewrite Nat.sub_diag. }
  split; [|split].
  - intros attr. unfold getattr. rewrite Hnew, lookup_mro_snoc, Hmro.
    simpl. assert (Hn : nth_error h (length h) = None)
      by (apply nth_error_None; lia).
    now rewrite Hn.
  - unfold is_subclass. rewrite Hnew. simpl.
    rewrite Nat.eqb_refl. apply orb_true_r.
  - unfold c3_merge. simpl. rewrite Hmro. simpl.
    rewrite Nat.eqb_refl. simpl. rewrite !orb_true_r. simpl.
    eexists. reflexivity.
Qed.

(** The class [BaseConfig] of the module, as own and as parent
    configuration. *)
Lemma inherit_config_same_class_witness :
  let h := snd (module_body builtins) in
  exists config h',
    inherit_config 1 1 h = (Ok config, h') /\
    getattr h' config "prefix" = getattr h 1 "prefix".
Proof.
  intros h.
  assert (Hnd : NoDup [1; 0])
    by (repeat constructor; simpl; intuition discriminate).
  destruct (inherit_config_same_class h 1 [0] eq_refl Hnd)
    as (config & h' & Hrun & Hattr & _).
  exists config, h'. split; [exact Hrun|apply Hattr].
Defined.

(* ================================================================== *)
(** ** Rendering a bound field, and raw data that changes *)
(* ================================================================== *)

(** X19.  The markup of a bound field does not change: once
    [render_widget] has returned a string for the bound field at [r], it
    returns the same string ever after and changes nothing, whatever was
    done with the form in between, changes of the raw data included. *)
Theorem render_widget_is_stable (cfg : Config) (s s1 : FormInst) (r : nat)
    (markup : string) :
  BoundField_render_widget cfg r s = (Ok markup, s1) ->
  forall ops,
    let s2 := run_ops cfg ops s1 in
    BoundField_render_widget cfg r s2 = (Ok markup, s2).
Proof.
  intros Hr ops s2. unfold BoundField_render_widget in *. st_unfold.
  destruct (BoundField_widget cfg r s) as [[w|e] s'] eqn:Hw;
    [|discriminate].
  simpl in Hr.
  destruct (render_widget (renderer cfg) w) as [out|] eqn:Hout;
    [|discriminate].
  inversion Hr; subst out s'.
  pose proof (widget_computed cfg r s s1 w Hw) as Hheld.
  pose proof (holds_widget_run_ops cfg ops s1 r w Hheld) as Hheld2.
  fold s2 in Hheld2.
  rewrite (widget_held cfg r s2 w Hheld2). simpl. now rewrite Hout.
Qed.

(** The bound field of [name] of the example, rendered before and after the
    raw data is changed and other fields are bound. *)
Lemma render_widget_is_stable_witness :
  let cfg := PersonForm_config in
  let s := snd (bind_field cfg "name" (form_of cfg valid_person)) in
  let s1 := snd (BoundField_render_widget cfg 0 s) in
  let s2 := run_ops cfg [Mutate old_person; BindField "age"; GetWidget 1] s1 in
  fst (BoundField_render_widget cfg 0 s2) =
  fst (BoundField_render_widget cfg 0 s).
Proof.
  intros cfg s s1 s2.
  assert (H : BoundField_render_widget cfg 0 s =
              (Ok match fst (BoundField_render_widget cfg 0 s) with
                  | Ok markup => markup
                  | Raise _ => ""
                  end, s1)) by reflexivity.
  pose proof (render_widget_is_stable cfg s s1 0 _ H
                [Mutate old_person; BindField "age"; GetWidget 1]) as Hst.
  cbv zeta in Hst. unfold s2. rewrite Hst. reflexivity.
Defined.

(** X20.  The form keeps the dictionary of raw data it was given, and its
    own copy of the field values made when it was built.  When the caller
    changes the raw data before validation, [value_of] still reports the
    values of the time the form was built, while [clean] validates the raw
    data as it is now. *)
Theorem raw_data_read_at_validation (cfg : Config) (d d' : DataType)
    (i : option Inst) (s : FormInst) :
  __init__ cfg (Some d) i = Ok s ->
  let s1 := run_op cfg (Mutate d') s in
  (forall k, fst (value_of cfg k s1) = fst (value_of cfg k s)) /\
  get_model_data s1 =
    dict_update
      (match i with
       | Some x => dict_update [] (inst_dict x)
       | None => []
       end) d' /\
  validations (snd (clean cfg s1)) = [CallModel (get_model_data s1)].
Proof.
  intros Hinit s1.
  destruct (init_state cfg (Some d) i s Hinit) as (H1 & H2 & H3 & H4 & _).
  assert (Hcalls : validations s = []).
  { unfold __init__ in Hinit. destruct i as [x|]; simpl in Hinit.
    - destruct (model_isinstance (model cfg) x); simpl in Hinit;
        [|discriminate].
      now inversion Hinit.
    - now inversion Hinit. }
  assert (Es1 : s1 = set_data (Some d') s)
    by (unfold s1; simpl; now rewrite H1).
  rewrite Es1. split; [|split].
  - intros k. unfold value_of. st_unfold. simpl.
    destruct (dict_get k (__fields__ (model cfg))); reflexivity.
  - unfold get_model_data. simpl. rewrite H3, H2.
    destruct i; reflexivity.
  - rewrite clean_unfold. simpl. rewrite H4, H3. cbn zeta.
    unfold validations in *.
    destruct (model_call _ _) as [m|[]]; simpl;
      rewrite filter_app, Hcalls; reflexivity.
Qed.

(** The person aged 200 whose age is corrected to 30 before validation:
    the form still shows 200 and validates 30. *)
Lemma raw_data_read_at_validation_witness :
  let cfg := PersonForm_config in
  let s := form_of cfg old_person in
  let s1 := run_op cfg (Mutate valid_person) s in
  fst (value_of cfg "age" s1) = Ok (VStr "200") /\
  fst (is_valid cfg s1) = Ok true /\
  validations (snd (clean cfg s1)) = [CallModel valid_person].
Proof.
  intros cfg s s1.
  destruct (raw_data_read_at_validation cfg old_person valid_person None s
              eq_refl) as (Hv & _ & Hc).
  split; [|split].
  - fold s1 in Hv. rewrite Hv. reflexivity.
  - reflexivity.
  - exact Hc.
Defined.
